(** * coin-trader: portfolio, risk and execution engine

    A shallow embedding of [coin_trader/domain/portfolio.py],
    [coin_trader/domain/risk.py], [coin_trader/execution/engine.py] and
    [coin_trader/strategies/dip_buy.py], followed by the other strategies,
    [coin_trader/execution/paper.py], the bounds of
    [coin_trader/domain/evolution.py] and the ranking of
    [coin_trader/reporting/leaderboard.py].

    Numbers.  [Decimal] and [float] values are read as exact rationals
    ([Q]); equalities between computed amounts are stated with [==]
    ([Qeq]) where they need algebra.  A division whose divisor is zero
    raises in Python ([ZeroDivisionError], [decimal.InvalidOperation]);
    both are the exception [ArithmeticError] here.

    Effects.  The objects the code mutates in place (the portfolio, the
    daily aggregate of the risk manager, the trade log of the engine) are
    threaded through a state-and-exception monad; a raised exception
    keeps the state reached so far, as the Python objects do.  Calls to
    the logger are left out.  The clock ([datetime.utcnow()]) is an
    argument [now], in seconds; the UTC date is [now / 86400]. *)

From Stdlib Require Import QArith Qabs Qminmax Lqa ZArith Lia.
From stdpp Require Import base option list strings gmap fin_maps sorting.

Local Open Scope Q_scope.

(** ** Exceptions and the state monad *)

Inductive Exn : Type :=
  | ArithmeticError
  | ValidationError
  | StrategyFault (msg : string).

(** Result of code that reads but does not write. *)
Inductive Result (A : Type) : Type :=
  | Ok (a : A)
  | Throw (e : Exn).
Arguments Ok {A} a.
Arguments Throw {A} e.

Inductive Outcome (S A : Type) : Type :=
  | Returned (a : A) (s : S)
  | Raised (e : Exn) (s : S).
Arguments Returned {S A} a s.
Arguments Raised {S A} e s.

Definition M (S A : Type) : Type := S -> Outcome S A.

Definition ret {S A} (a : A) : M S A := fun s => Returned a s.

Definition bind {S A B} (m : M S A) (k : A -> M S B) : M S B :=
  fun s => match m s with
           | Returned a s' => k a s'
           | Raised e s' => Raised e s'
           end.

Definition get {S} : M S S := fun s => Returned s s.
Definition put {S} (s : S) : M S unit := fun _ => Returned tt s.
Definition modify {S} (f : S -> S) : M S unit := fun s => Returned tt (f s).

Definition lift {S A} (r : Result A) : M S A :=
  fun s => match r with
           | Ok a => Returned a s
           | Throw e => Raised e s
           end.

(** Run a computation on a component of the state. *)
Definition zoom {S T A} (proj : S -> T) (upd : T -> S -> S) (m : M T A) : M S A :=
  fun s => match m (proj s) with
           | Returned a t => Returned a (upd t s)
           | Raised e t => Raised e (upd t s)
           end.

Definition state_of {S A} (o : Outcome S A) : S :=
  match o with
  | Returned _ s => s
  | Raised _ s => s
  end.

Notation "'let!' x ':=' m 'in' k" := (bind m (fun x => k))
  (at level 10, x name, m at level 100, k at level 200).
Notation "'do!' m 'in' k" := (bind m (fun _ => k))
  (at level 10, m at level 100, k at level 200).

Definition rbind {A B} (r : Result A) (k : A -> Result B) : Result B :=
  match r with
  | Ok a => k a
  | Throw e => Throw e
  end.

Notation "'let?' x ':=' r 'in' k" := (rbind r (fun x => k))
  (at level 10, x name, r at level 100, k at level 200).

(** ** Python arithmetic on exact numbers *)

Definition Qltb (x y : Q) : bool := negb (Qle_bool y x).

(** [not x] for a number: zero is falsy. *)
Definition falsy (x : Q) : bool := Qeq_bool x 0.

(** [x / y], raising on a zero divisor. *)
Definition pdiv (x y : Q) : Result Q :=
  if falsy y then Throw ArithmeticError else Ok (x / y).

(** [min(a, b)] of Python: the first of the smallest. *)
Definition py_min (a b : Q) : Q := if Qltb b a then b else a.

(** [l[k:]] of Python for any integer [k]. *)
Definition slice_from {A} (k : Z) (l : list A) : list A :=
  let n := Z.of_nat (length l) in
  let start := if (k <? 0)%Z then Z.max (n + k) 0 else Z.min k n in
  drop (Z.to_nat start) l.

(** [datetime.date()] of a UTC time stamp in seconds. *)
Definition date_of (now : Z) : Z := (now / 86400)%Z.

(** Rendering of numbers inside f-strings and [str]: [{x:.2f}], [{x:.1f}],
    [{x}] for a float, [str(x)] for a [Decimal], [{n}] for an [int].  The
    texts they produce are not modelled. *)
Class Formatting : Type := {
  fmt_2f : Q -> string;
  fmt_1f : Q -> string;
  str_float : Q -> string;
  str_decimal : Q -> string;
  str_int : Z -> string
}.

(** ** Domain model

    [domain/models.py] is not among the sources; its enumerations and
    classes are modelled from the specification and from the way the
    managers, the engine and the tests use them. *)

(** Modelled from the spec: the enumeration [SignalType]. *)
Module SignalType.
Inductive t : Type := BUY | SELL.
#[global] Instance eq_dec : EqDecision t.
Proof. solve_decision. Defined.
End SignalType.

(** Modelled from the spec: the enumeration [Side]. *)
Module Side.
Inductive t : Type := BUY | SELL.
#[global] Instance eq_dec : EqDecision t.
Proof. solve_decision. Defined.
End Side.

(** Modelled from the spec: the enumeration [PositionStatus]. *)
Module PositionStatus.
Inductive t : Type := OPEN | CLOSED.
#[global] Instance eq_dec : EqDecision t.
Proof. solve_decision. Defined.
End PositionStatus.

Module Signal.
(** Modelled from the spec: the class [Signal] of [domain/models.py], which
    is not among the sources: strategy_name, ticker, signal_type, strength,
    reason and an opaque bag of parameters. *)
Record t : Type := mk {
  strategy_name : string;
  ticker : string;
  signal_type : SignalType.t;
  strength : Q;
  reason : string;
  params : list (string * Q)
}.

(** Modelled from the spec: the constructor of [Signal], which validates
    [strength] to lie in [0, 1] and fails the construction otherwise. *)
Definition create (strategy_name ticker : string) (signal_type : SignalType.t)
    (strength : Q) (reason : string) (params : list (string * Q)) : Result t :=
  if Qle_bool 0 strength && Qle_bool strength 1
  then Ok (mk strategy_name ticker signal_type strength reason params)
  else Throw ValidationError.
End Signal.

Module Trade.
(** Modelled from the spec: the class [Trade] of [domain/models.py].  Its
    [id] and [timestamp] are drawn by default factories and are left out. *)
Record t : Type := mk {
  strategy_name : string;
  ticker : string;
  side : Side.t;
  price : Q;
  quantity : Q;
  total_krw : Q;
  fee : Q;
  reason : string;
  profit : option Q;
  profit_pct : option Q
}.
End Trade.

Module Position.
(** Modelled from the spec: the class [Position] of [domain/models.py].  A
    new position is OPEN with no exit fields; [id] and [entry_time] are
    drawn by default factories and are left out. *)
Record t : Type := mk {
  strategy_name : string;
  ticker : string;
  status : PositionStatus.t;
  entry_price : Q;
  quantity : Q;
  highest_price : option Q;
  exit_price : option Q;
  exit_time : option Z;
  profit : option Q;
  profit_pct : option Q
}.

(** Modelled from the spec: the constructor call
    [Position(strategy_name=.., ticker=.., entry_price=.., quantity=..,
    highest_price=..)]; the status defaults to OPEN and the exit fields to
    [None]. *)
Definition create (strategy_name ticker : string) (entry_price quantity : Q)
    (highest_price : option Q) : t :=
  mk strategy_name ticker PositionStatus.OPEN entry_price quantity
     highest_price None None None None.

Definition is_open (p : t) : bool :=
  bool_decide (status p = PositionStatus.OPEN).

Definition set_highest_price (h : Q) (p : t) : t :=
  mk (strategy_name p) (ticker p) (status p) (entry_price p) (quantity p)
     (Some h) (exit_price p) (exit_time p) (profit p) (profit_pct p).

(** The four assignments that close a position. *)
Definition close (price : Q) (now : Z) (prof prof_pct : Q) (p : t) : t :=
  mk (strategy_name p) (ticker p) PositionStatus.CLOSED (entry_price p)
     (quantity p) (highest_price p) (Some price) (Some now) (Some prof)
     (Some prof_pct).
End Position.

Module Portfolio.
(** Modelled from the spec: the class [Portfolio] of [domain/models.py]. *)
Record t : Type := mk {
  krw_balance : Q;
  positions : gmap string Position.t;
  total_trades : Z;
  winning_trades : Z;
  total_profit : Q
}.

(** Modelled from the spec: the property [win_rate],
    [winning_trades / total_trades], 0 when there is no trade. *)
Definition win_rate (p : t) : Q :=
  if (total_trades p =? 0)%Z then 0
  else inject_Z (winning_trades p) / inject_Z (total_trades p).

Definition set_krw_balance (b : Q) (p : t) : t :=
  mk b (positions p) (total_trades p) (winning_trades p) (total_profit p).
Definition set_positions (m : gmap string Position.t) (p : t) : t :=
  mk (krw_balance p) m (total_trades p) (winning_trades p) (total_profit p).
Definition set_total_trades (n : Z) (p : t) : t :=
  mk (krw_balance p) (positions p) n (winning_trades p) (total_profit p).
Definition set_winning_trades (n : Z) (p : t) : t :=
  mk (krw_balance p) (positions p) (total_trades p) n (total_profit p).
Definition set_total_profit (x : Q) (p : t) : t :=
  mk (krw_balance p) (positions p) (total_trades p) (winning_trades p) x.

(** The positions whose status is OPEN. *)
Definition open_positions (p : t) : gmap string Position.t :=
  filter (fun kp => Position.status kp.2 = PositionStatus.OPEN) (positions p).
End Portfolio.

(** ** Portfolio manager ([domain/portfolio.py]) *)

Module PortfolioManager.
Record t : Type := mk {
  portfolio : Portfolio.t;
  fee_rate : Q
}.

(** [__init__]: the rate is given in percent. *)
Definition init (portfolio : Portfolio.t) (fee_rate : Q) : t :=
  mk portfolio (fee_rate / 100).

Definition on_portfolio (f : Portfolio.t -> Portfolio.t) : M t unit :=
  modify (fun self => mk (f (portfolio self)) (fee_rate self)).

(** [execute_buy]: [None] on insufficient funds, else the BUY trade. *)
Definition execute_buy (strategy_name ticker : string) (price krw_amount : Q)
    (reason : string) : M t (option Trade.t) :=
  let! self := get in
  if Qltb (Portfolio.krw_balance (portfolio self)) krw_amount then ret None
  else
    let fee := krw_amount * fee_rate self in
    let net_amount := krw_amount - fee in
    let! quantity := lift (pdiv net_amount price) in
    do! on_portfolio (fun p =>
          Portfolio.set_krw_balance (Portfolio.krw_balance p - krw_amount) p) in
    let position :=
      Position.create strategy_name ticker price quantity (Some price) in
    do! on_portfolio (fun p =>
          Portfolio.set_positions (<[ticker := position]> (Portfolio.positions p)) p) in
    let trade :=
      Trade.mk strategy_name ticker Side.BUY price quantity krw_amount fee
               reason None None in
    ret (Some trade).

(** [execute_sell]: sells the whole position of [ticker]; [None] when there
    is no position or it is not OPEN. *)
Definition execute_sell (now : Z) (strategy_name ticker : string) (price : Q)
    (reason : string) : M t (option Trade.t) :=
  let! self := get in
  match Portfolio.positions (portfolio self) !! ticker with
  | None => ret None
  | Some position =>
    if negb (Position.is_open position) then ret None
    else
      let gross_krw := Position.quantity position * price in
      let fee := gross_krw * fee_rate self in
      let net_krw := gross_krw - fee in
      let raw_cost := Position.quantity position * Position.entry_price position in
      let fee_dec := fee_rate self in
      let! buy_fee := lift (pdiv (raw_cost * fee_dec) (1 - fee_dec)) in
      let cost := raw_cost + buy_fee in
      let profit := net_krw - cost in
      let profit_pct := if Qltb 0 cost then profit / cost * 100 else 0 in
      do! on_portfolio (fun p =>
            Portfolio.set_krw_balance (Portfolio.krw_balance p + net_krw) p) in
      do! on_portfolio (fun p =>
            Portfolio.set_total_trades (Portfolio.total_trades p + 1)%Z p) in
      do! on_portfolio (fun p =>
            Portfolio.set_total_profit (Portfolio.total_profit p + profit) p) in
      do! (if Qltb 0 profit
           then on_portfolio (fun p =>
                  Portfolio.set_winning_trades (Portfolio.winning_trades p + 1)%Z p)
           else ret tt) in
      do! on_portfolio (fun p =>
            Portfolio.set_positions
              (<[ticker := Position.close price now profit profit_pct position]>
                 (Portfolio.positions p)) p) in
      let trade :=
        Trade.mk strategy_name ticker Side.SELL price
                 (Position.quantity position) net_krw fee reason
                 (Some profit) (Some profit_pct) in
      ret (Some trade)
  end.

(** [update_highest_price]: raises the recorded high of an OPEN position. *)
Definition update_highest_price (ticker : string) (price : Q) : M t unit :=
  let! self := get in
  match Portfolio.positions (portfolio self) !! ticker with
  | Some pos =>
    if Position.is_open pos &&
       match Position.highest_price pos with
       | None => true
       | Some h => Qltb h price
       end
    then on_portfolio (fun p =>
           Portfolio.set_positions
             (<[ticker := Position.set_highest_price price pos]>
                (Portfolio.positions p)) p)
    else ret tt
  | None => ret tt
  end.

Definition get_open_positions (self : t) : gmap string Position.t :=
  Portfolio.open_positions (portfolio self).
End PortfolioManager.

(** ** Risk manager ([domain/risk.py]) *)

Module RiskConfig.
Record t : Type := mk {
  stop_loss_pct : Q;
  take_profit_pct : Q;
  trailing_stop_pct : Q;
  max_daily_loss_pct : Q;
  max_drawdown_pct : Q;
  max_positions : Z;
  fee_rate : Q
}.
End RiskConfig.

Module RiskCheck.
Record t : Type := mk {
  allowed : bool;
  reason : string
}.
End RiskCheck.

Module DailyPnL.
Record t : Type := mk {
  date : Z;
  realized_pnl : Q;
  trades_today : Z
}.
End DailyPnL.

Module RiskManager.
Record t : Type := mk {
  config : RiskConfig.t;
  daily_pnl : DailyPnL.t
}.

Definition init (now : Z) (config : RiskConfig.t) : t :=
  mk config (DailyPnL.mk (date_of now) 0 0).

Definition _reset_daily_if_needed (now : Z) : M t unit :=
  let today := date_of now in
  modify (fun self =>
    if bool_decide (DailyPnL.date (daily_pnl self) = today) then self
    else mk (config self) (DailyPnL.mk today 0 0)).

(** The number of OPEN positions of a portfolio. *)
Definition open_count (portfolio : Portfolio.t) : Z :=
  Z.of_nat (size (Portfolio.open_positions portfolio)).

(** [check_buy]: the six rules, the first failing one gives the reason. *)
Definition check_buy {fmt : Formatting} (now : Z) (signal : Signal.t)
    (portfolio : Portfolio.t) (buy_amount : Q) : M t RiskCheck.t :=
  do! _reset_daily_if_needed now in
  let! self := get in
  if negb (bool_decide (Signal.signal_type signal = SignalType.BUY))
  then ret (RiskCheck.mk false "Not a BUY signal")
  else if (RiskConfig.max_positions (config self) <=? open_count portfolio)%Z
  then ret (RiskCheck.mk false
         ("Max positions reached (" +:+
          str_int (RiskConfig.max_positions (config self)) +:+ ")"))
  else if Qltb (Portfolio.krw_balance portfolio) buy_amount
  then ret (RiskCheck.mk false
         ("Insufficient balance: " +:+ str_decimal (Portfolio.krw_balance portfolio)
          +:+ " < " +:+ str_decimal buy_amount))
  else
    let initial := 1000000 in
    let daily_loss_pct :=
      if falsy initial then 0
      else DailyPnL.realized_pnl (daily_pnl self) / initial * 100 in
    if Qle_bool daily_loss_pct (RiskConfig.max_daily_loss_pct (config self))
    then ret (RiskCheck.mk false
           ("Daily loss limit hit: " +:+ fmt_2f daily_loss_pct +:+ "%"))
    else
      let return_pct := Portfolio.total_profit portfolio / initial * 100 in
      if (0 <? Portfolio.total_trades portfolio)%Z &&
         Qle_bool return_pct (RiskConfig.max_drawdown_pct (config self))
      then ret (RiskCheck.mk false
             ("Max drawdown hit: " +:+ fmt_2f return_pct +:+ "%"))
      else
        match Portfolio.positions portfolio !! Signal.ticker signal with
        | Some pos =>
          if Position.is_open pos
          then ret (RiskCheck.mk false
                 ("Already have open position in " +:+ Signal.ticker signal))
          else ret (RiskCheck.mk true "")
        | None => ret (RiskCheck.mk true "")
        end.

Definition check_sell (signal : Signal.t) (portfolio : Portfolio.t) : RiskCheck.t :=
  if negb (bool_decide (Signal.signal_type signal = SignalType.SELL))
  then RiskCheck.mk false "Not a SELL signal"
  else
    match Portfolio.positions portfolio !! Signal.ticker signal with
    | None => RiskCheck.mk false ("No position in " +:+ Signal.ticker signal)
    | Some pos =>
      if negb (Position.is_open pos)
      then RiskCheck.mk false
             ("Position in " +:+ Signal.ticker signal +:+ " is not open")
      else RiskCheck.mk true ""
    end.

Definition check_stop_loss {fmt : Formatting} (self : t) (position : Position.t)
    (current_price : Q) : Result RiskCheck.t :=
  if negb (Position.is_open position)
  then Ok (RiskCheck.mk false "Position not open")
  else
    let? ratio := pdiv (current_price - Position.entry_price position)
                       (Position.entry_price position) in
    let change_pct := ratio * 100 in
    if Qle_bool change_pct (RiskConfig.stop_loss_pct (config self))
    then Ok (RiskCheck.mk true
           ("Stop-loss triggered: " +:+ fmt_2f change_pct +:+ "% <= " +:+
            str_float (RiskConfig.stop_loss_pct (config self)) +:+ "%"))
    else Ok (RiskCheck.mk false "").

Definition check_take_profit {fmt : Formatting} (self : t) (position : Position.t)
    (current_price : Q) : Result RiskCheck.t :=
  if negb (Position.is_open position)
  then Ok (RiskCheck.mk false "Position not open")
  else
    let? ratio := pdiv (current_price - Position.entry_price position)
                       (Position.entry_price position) in
    let change_pct := ratio * 100 in
    if Qle_bool (RiskConfig.take_profit_pct (config self)) change_pct
    then Ok (RiskCheck.mk true
           ("Take-profit triggered: " +:+ fmt_2f change_pct +:+ "% >= " +:+
            str_float (RiskConfig.take_profit_pct (config self)) +:+ "%"))
    else Ok (RiskCheck.mk false "").

(** [position.highest_price or position.entry_price]: a missing or zero
    high falls back to the entry price. *)
Definition highest_or_entry (position : Position.t) : Q :=
  match Position.highest_price position with
  | Some h => if falsy h then Position.entry_price position else h
  | None => Position.entry_price position
  end.

Definition check_trailing_stop {fmt : Formatting} (self : t) (position : Position.t)
    (current_price : Q) : Result RiskCheck.t :=
  if negb (Position.is_open position)
  then Ok (RiskCheck.mk false "Position not open")
  else
    let highest := highest_or_entry position in
    if Qltb highest current_price
    then Ok (RiskCheck.mk false "New high, no trailing stop")
    else
      let? ratio := pdiv (highest - current_price) highest in
      let drop_from_high := ratio * 100 in
      if Qle_bool (RiskConfig.trailing_stop_pct (config self)) drop_from_high
      then Ok (RiskCheck.mk true
             ("Trailing stop: dropped " +:+ fmt_2f drop_from_high +:+
              "% from high >= " +:+
              str_float (RiskConfig.trailing_stop_pct (config self)) +:+ "%"))
      else Ok (RiskCheck.mk false "").

Definition record_trade_pnl (now : Z) (pnl : Q) : M t unit :=
  do! _reset_daily_if_needed now in
  modify (fun self =>
    mk (config self)
       (DailyPnL.mk (DailyPnL.date (daily_pnl self))
                    (DailyPnL.realized_pnl (daily_pnl self) + pnl)
                    (DailyPnL.trades_today (daily_pnl self) + 1)%Z)).
End RiskManager.

(** ** Strategies ([domain/strategy.py], [strategies/dip_buy.py]) *)

Module MarketData.
(** The dictionary handed to [evaluate]; a key may be absent. *)
Record t : Type := mk {
  current_price : option Q;
  volume : option Q;
  change_pct : option Q;
  high_price : option Q;
  low_price : option Q;
  has_position : option bool;
  entry_price : option Q;
  price_history : option (list Q)
}.
End MarketData.

Module Strategy.
(** The abstract class [Strategy]: [evaluate] returns a signal, nothing,
    or raises. *)
Record t : Type := mk {
  name : string;
  template : string;
  evaluate : string -> MarketData.t -> Result (option Signal.t)
}.
End Strategy.

Module DipBuyStrategy.
Record t : Type := mk {
  drop_pct : Q;
  recovery_pct : Q;
  timeframe_hours : Z;
  _name : string
}.

Definition name (self : t) : string := _name self.
Definition template (self : t) : string := "dip_buy".

Definition evaluate {fmt : Formatting} (self : t) (ticker : string)
    (market_data : MarketData.t) : Result (option Signal.t) :=
  let price_history := default [] (MarketData.price_history market_data) in
  let current_price := default 0 (MarketData.current_price market_data) in
  let has_position := default false (MarketData.has_position market_data) in
  let entry_price := default 0 (MarketData.entry_price market_data) in
  if bool_decide (price_history = []) || falsy current_price then Ok None
  else
    let history := slice_from (- (timeframe_hours self + 1)) price_history in
    match history with
    | [] | [_] => Ok None
    | start_price :: _ =>
      let? ratio := pdiv current_price start_price in
      let change_pct := (ratio - 1) * 100 in
      let? sell :=
        if has_position && Qltb 0 entry_price
        then
          let profit_pct := (current_price / entry_price - 1) * 100 in
          if Qle_bool (recovery_pct self) profit_pct
          then
            let? r := pdiv profit_pct (recovery_pct self * 2) in
            let? signal :=
              Signal.create (name self) ticker SignalType.SELL (py_min r 1)
                ("Recovery " +:+ fmt_1f profit_pct +:+ "% >= " +:+
                 str_float (recovery_pct self) +:+ "%")
                [("change_pct", change_pct); ("profit_pct", profit_pct);
                 ("entry_price", entry_price)] in
            Ok (Some signal)
          else Ok None
        else Ok None in
      match sell with
      | Some signal => Ok (Some signal)
      | None =>
        if negb has_position && Qle_bool change_pct (drop_pct self)
        then
          let? r := pdiv (Qabs change_pct) (Qabs (drop_pct self * 2)) in
          let strength := py_min r 1 in
          let? signal :=
            Signal.create (name self) ticker SignalType.BUY strength
              ("Dip " +:+ fmt_1f change_pct +:+ "% <= " +:+
               str_float (drop_pct self) +:+ "%")
              [("change_pct", change_pct); ("start_price", start_price);
               ("current_price", current_price)] in
          Ok (Some signal)
        else Ok None
      end
    end.

Definition as_strategy {fmt : Formatting} (self : t) : Strategy.t :=
  Strategy.mk (name self) (template self) (evaluate self).
End DipBuyStrategy.

(** ** Execution engine ([execution/engine.py]) *)

Module TradingConfig.
Record t : Type := mk {
  initial_krw : Z;
  buy_amount : Z
}.
End TradingConfig.

Module AppConfig.
Record t : Type := mk {
  trading : TradingConfig.t;
  risk : RiskConfig.t
}.
End AppConfig.

Module Tick.
(** The tick dictionary; a key may be absent. *)
Record t : Type := mk {
  ticker : option string;
  price : option Q;
  volume : option Q;
  change_pct : option Q;
  high_price : option Q;
  low_price : option Q;
  price_history : option (list Q)
}.
End Tick.

Module ExecutionEngine.
Record t : Type := mk {
  config : AppConfig.t;
  portfolio : PortfolioManager.t;
  risk : RiskManager.t;
  strategies : list Strategy.t;
  trade_log : list Trade.t
}.

Definition init (config : AppConfig.t) (portfolio_manager : PortfolioManager.t)
    (risk_manager : RiskManager.t) (strategies : list Strategy.t) : t :=
  mk config portfolio_manager risk_manager strategies [].

Definition with_portfolio {A} (m : M PortfolioManager.t A) : M t A :=
  zoom portfolio
       (fun pm self => mk (config self) pm (risk self) (strategies self)
                          (trade_log self)) m.

Definition with_risk {A} (m : M RiskManager.t A) : M t A :=
  zoom risk
       (fun rm self => mk (config self) (portfolio self) rm (strategies self)
                          (trade_log self)) m.

Definition log_trade (trade : Trade.t) : M t unit :=
  modify (fun self => mk (config self) (portfolio self) (risk self)
                         (strategies self) (trade_log self ++ [trade])).

(** [_check_risk_exits]: stop-loss, then take-profit, then trailing stop. *)
Definition _check_risk_exits {fmt : Formatting} (now : Z) (ticker : string)
    (current_price : Q) : M t (option Trade.t) :=
  let! self := get in
  let open_positions := PortfolioManager.get_open_positions (portfolio self) in
  match open_positions !! ticker with
  | None => ret None
  | Some position =>
    let! sl_check :=
      lift (RiskManager.check_stop_loss (risk self) position current_price) in
    if RiskCheck.allowed sl_check
    then with_portfolio
           (PortfolioManager.execute_sell now (Position.strategy_name position)
              ticker current_price (RiskCheck.reason sl_check))
    else
      let! tp_check :=
        lift (RiskManager.check_take_profit (risk self) position current_price) in
      if RiskCheck.allowed tp_check
      then with_portfolio
             (PortfolioManager.execute_sell now (Position.strategy_name position)
                ticker current_price (RiskCheck.reason tp_check))
      else
        let! ts_check :=
          lift (RiskManager.check_trailing_stop (risk self) position current_price) in
        if RiskCheck.allowed ts_check
        then with_portfolio
               (PortfolioManager.execute_sell now (Position.strategy_name position)
                  ticker current_price (RiskCheck.reason ts_check))
        else ret None
  end.

(** [trade.profit] in a condition: a missing or zero profit is falsy. *)
Definition profit_truthy (trade : Trade.t) : bool :=
  match Trade.profit trade with
  | Some p => negb (falsy p)
  | None => false
  end.

(** [_execute_signal]: the risk check, then the order. *)
Definition _execute_signal {fmt : Formatting} (now : Z) (signal : Signal.t)
    (current_price : Q) : M t (option Trade.t) :=
  match Signal.signal_type signal with
  | SignalType.BUY =>
    let! self := get in
    let buy_amount := inject_Z (TradingConfig.buy_amount (AppConfig.trading (config self))) in
    let! risk_check :=
      with_risk (RiskManager.check_buy now signal
                   (PortfolioManager.portfolio (portfolio self)) buy_amount) in
    if negb (RiskCheck.allowed risk_check) then ret None
    else
      let! trade :=
        with_portfolio
          (PortfolioManager.execute_buy (Signal.strategy_name signal)
             (Signal.ticker signal) current_price buy_amount
             (Signal.reason signal)) in
      match trade with
      | Some tr =>
        do! log_trade tr in
        do! with_risk (RiskManager.record_trade_pnl now 0) in
        ret trade
      | None => ret trade
      end
  | SignalType.SELL =>
    let! self := get in
    let risk_check :=
      RiskManager.check_sell signal (PortfolioManager.portfolio (portfolio self)) in
    if negb (RiskCheck.allowed risk_check) then ret None
    else
      let! trade :=
        with_portfolio
          (PortfolioManager.execute_sell now (Signal.strategy_name signal)
             (Signal.ticker signal) current_price (Signal.reason signal)) in
      match trade with
      | Some tr =>
        if profit_truthy tr
        then
          do! log_trade tr in
          do! with_risk (RiskManager.record_trade_pnl now (default 0 (Trade.profit tr))) in
          ret trade
        else ret trade
      | None => ret trade
      end
  end.

Definition _build_market_data (ticker : string) (tick : Tick.t) (self : t)
    : MarketData.t :=
  let open_positions := PortfolioManager.get_open_positions (portfolio self) in
  let has_position := bool_decide (is_Some (open_positions !! ticker)) in
  MarketData.mk
    (Some (default 0 (Tick.price tick)))
    (Some (default 0 (Tick.volume tick)))
    (Some (default 0 (Tick.change_pct tick)))
    (Some (default 0 (Tick.high_price tick)))
    (Some (default 0 (Tick.low_price tick)))
    (Some has_position)
    (Some (match open_positions !! ticker with
           | Some pos => Position.entry_price pos
           | None => 0
           end))
    (Some (default [] (Tick.price_history tick))).

(** The loop over [self.strategies], in registration order. *)
Fixpoint evaluate_strategies {fmt : Formatting} (now : Z) (tick : Tick.t)
    (ticker : string) (current_price : Q) (todo : list Strategy.t)
    (trades : list Trade.t) : M t (list Trade.t) :=
  match todo with
  | [] => ret trades
  | strategy :: rest =>
    let! self := get in
    let! signal :=
      lift (Strategy.evaluate strategy ticker (_build_market_data ticker tick self)) in
    match signal with
    | None => evaluate_strategies now tick ticker current_price rest trades
    | Some sig =>
      let! trade := _execute_signal now sig current_price in
      match trade with
      | Some tr =>
        evaluate_strategies now tick ticker current_price rest (trades ++ [tr])
      | None => evaluate_strategies now tick ticker current_price rest trades
      end
    end
  end.

(** [process_tick]: one tick through the exits and then the strategies. *)
Definition process_tick {fmt : Formatting} (now : Z) (tick : Tick.t)
    : M t (list Trade.t) :=
  let ticker := default "" (Tick.ticker tick) in
  let price := default 0 (Tick.price tick) in
  if bool_decide (ticker = "") || falsy price then ret []
  else
    let current_price := price in
    do! with_portfolio (PortfolioManager.update_highest_price ticker current_price) in
    let! exit_trade := _check_risk_exits now ticker current_price in
    match exit_trade with
    | Some tr => ret [tr]
    | None =>
      let! self := get in
      evaluate_strategies now tick ticker current_price (strategies self) []
    end.

Record Summary : Type := mkSummary {
  krw_balance : string;
  total_trades : Z;
  winning_trades : Z;
  win_rate : Q;
  total_profit : string;
  open_positions : nat;
  trade_log_count : nat
}.

Definition get_summary {fmt : Formatting} (self : t) : Summary :=
  let p := PortfolioManager.portfolio (portfolio self) in
  mkSummary (str_decimal (Portfolio.krw_balance p))
            (Portfolio.total_trades p)
            (Portfolio.winning_trades p)
            (Portfolio.win_rate p)
            (str_decimal (Portfolio.total_profit p))
            (size (PortfolioManager.get_open_positions (portfolio self)))
            (length (trade_log self)).
End ExecutionEngine.

(** ** Provenance of the trades of a run

    [process_tick] returns the trade of a risk exit and the trades of the
    strategies in the same list.  The definitions below tell them apart,
    for statements about the trade log. *)

Module Run.
Import ExecutionEngine.

(** The part of [process_tick] before the strategies: the guard, the
    update of the high and [_check_risk_exits]. *)
Definition exit_phase {fmt : Formatting} (now : Z) (tick : Tick.t)
    : M t (option Trade.t) :=
  let ticker := default "" (Tick.ticker tick) in
  let price := default 0 (Tick.price tick) in
  if bool_decide (ticker = "") || falsy price then ret None
  else
    do! with_portfolio (PortfolioManager.update_highest_price ticker price) in
    _check_risk_exits now ticker price.

Definition risk_exit_fires {fmt : Formatting} (now : Z) (tick : Tick.t) (self : t)
    : bool :=
  match exit_phase now tick self with
  | Returned (Some _) _ => true
  | _ => false
  end.

(** A BUY trade, or a SELL trade with a profit that is not zero. *)
Definition is_logged (trade : Trade.t) : bool :=
  match Trade.side trade with
  | Side.BUY => true
  | Side.SELL =>
    match Trade.profit trade with
    | Some p => negb (Qeq_bool p 0)
    | None => false
    end
  end.

(** The amount a logged trade adds to the daily aggregate. *)
Definition pnl_of (trade : Trade.t) : Q :=
  match Trade.side trade with
  | Side.BUY => 0
  | Side.SELL => default 0 (Trade.profit trade)
  end.

Definition sum_pnl (trades : list Trade.t) : Q :=
  foldr (fun tr acc => pnl_of tr + acc) 0 trades.

(** What one or more calls may change: the configuration and the
    strategies stay, the log grows by the logged trades among [new], and so
    does the daily aggregate as long as the date does not change. *)
Definition same_setup (self self' : t) : Prop :=
  config self' = config self
  /\ strategies self' = strategies self
  /\ RiskManager.config (risk self') = RiskManager.config (risk self).

Definition log_extended (self self' : t) (new : list Trade.t) : Prop :=
  trade_log self' = trade_log self ++ List.filter is_logged new.

Definition pnl_extended (self self' : t) (new : list Trade.t) : Prop :=
  let d := RiskManager.daily_pnl (risk self) in
  let d' := RiskManager.daily_pnl (risk self') in
  DailyPnL.date d' = DailyPnL.date d
  /\ DailyPnL.trades_today d'
     = (DailyPnL.trades_today d
        + Z.of_nat (length (List.filter is_logged new)))%Z
  /\ DailyPnL.realized_pnl d'
     == DailyPnL.realized_pnl d + sum_pnl (List.filter is_logged new).

Definition same_date (now : Z) (self : t) : Prop :=
  date_of now = DailyPnL.date (RiskManager.daily_pnl (risk self)).

(** Successive calls of [process_tick]; the result separates the trades
    of the strategies (first) from the trades of risk exits (second). *)
Fixpoint run_ticks {fmt : Formatting} (ticks : list (Z * Tick.t))
    : M t (list Trade.t * list Trade.t) :=
  match ticks with
  | [] => ret ([], [])
  | (now, tick) :: rest =>
    let! self := get in
    let fires := risk_exit_fires now tick self in
    let! trades := process_tick now tick in
    let! r := run_ticks rest in
    ret (if fires then (r.1, trades ++ r.2) else (trades ++ r.1, r.2))
  end.
End Run.

(** ** Sample data *)

Module Samples.
Definition plain_format : Formatting :=
  Build_Formatting (fun _ => "") (fun _ => "") (fun _ => "") (fun _ => "")
                   (fun _ => "").

Definition risk_config : RiskConfig.t :=
  RiskConfig.mk (-5) 10 3 (-3) (-15) 5 0.05.

Definition app_config : AppConfig.t :=
  AppConfig.mk (TradingConfig.mk 1000000 100000) risk_config.

(** A configuration whose initial balance is ten times the default. *)
Definition big_config : AppConfig.t :=
  AppConfig.mk (TradingConfig.mk 10000000 100000) risk_config.

Definition btc : Position.t :=
  Position.create "test" "KRW-BTC" 50000000 0.002 (Some 50000000).

Definition empty_portfolio : Portfolio.t := Portfolio.mk 1000000 ∅ 0 0 0.

Definition portfolio_with_position : Portfolio.t :=
  Portfolio.mk 900000 {["KRW-BTC" := btc]} 0 0 0.

(** No cash, one open position. *)
Definition broke_portfolio : Portfolio.t :=
  Portfolio.mk 0 {["KRW-BTC" := btc]} 0 0 0.

Definition buy_signal : Signal.t :=
  Signal.mk "mock_strategy" "KRW-BTC" SignalType.BUY 0.8 "Test buy" [].

Definition sell_signal : Signal.t :=
  Signal.mk "mock_strategy" "KRW-BTC" SignalType.SELL 0.9 "Test sell" [].

(** A strategy that always gives the same answer. *)
Definition mock_strategy (answer : Result (option Signal.t)) : Strategy.t :=
  Strategy.mk "mock_strategy" "mock" (fun _ _ => answer).

Definition faulty_strategy : Strategy.t :=
  mock_strategy (Throw (StrategyFault "boom")).

Definition dip_buy : DipBuyStrategy.t :=
  DipBuyStrategy.mk (-7) 2 24 "dip_buy_-7_2_24".

Definition engine (config : AppConfig.t) (portfolio : Portfolio.t)
    (strategies : list Strategy.t) : ExecutionEngine.t :=
  ExecutionEngine.init config
    (PortfolioManager.init portfolio (RiskConfig.fee_rate (AppConfig.risk config)))
    (RiskManager.init 0 (AppConfig.risk config)) strategies.

Definition tick (ticker : string) (price : Q) (history : list Q) : Tick.t :=
  Tick.mk (Some ticker) (Some price) None None None None (Some history).

(** A dip of 8 percent, then a fall of 6.5 percent below the entry. *)
Definition dip_then_crash : list (Z * Tick.t) :=
  [(0%Z, tick "KRW-BTC" 46000000 (replicate 20 50000000 ++ [46000000]));
   (60%Z, tick "KRW-BTC" 43000000 (replicate 20 46000000 ++ [43000000]))].

Definition dip_view : MarketData.t :=
  MarketData.mk (Some 92) None None None None (Some false) (Some 0)
                (Some (replicate 20 100 ++ [92])).

(** One trade closed at a loss of 30000, on the day of [now = 0]. *)
Definition portfolio_after_loss : Portfolio.t :=
  Portfolio.mk 9970000 ∅ 1 0 (-30000).

Definition risk_after_loss : RiskManager.t :=
  RiskManager.mk risk_config (DailyPnL.mk 0 (-30000) 1).

(** A risk configuration without fee, and a strategy that always sells. *)
Definition no_fee_config : AppConfig.t :=
  AppConfig.mk (TradingConfig.mk 1000000 100000)
               (RiskConfig.mk (-5) 10 3 (-3) (-15) 5 0).

Definition seller : Strategy.t := mock_strategy (Ok (Some sell_signal)).
End Samples.

(** ** The other strategies ([strategies/momentum.py], [fear_greed.py],
    [volatility_breakout.py], [volume_surge.py]) *)

(** [max(a, b)] of Python: the first of the largest. *)
Definition py_max (a b : Q) : Q := if Qltb a b then b else a.

(** [int(x)] of a float: truncation toward zero. *)
Definition py_int (x : Q) : Z := Z.quot (Qnum x) (Zpos (Qden x)).

(** [sum(l)] of a list of numbers. *)
Definition py_sum (l : list Q) : Q := foldl Qplus 0 l.

(** Rendering of [{x:.0f}]; the text is not modelled. *)
Class Formatting0 : Type := { fmt_0f : Q -> string }.

Module MomentumStrategy.
Record t : Type := mk {
  lookback_hours : Z;
  entry_threshold : Q;
  exit_threshold : Q
}.

Definition name {fmt : Formatting} (self : t) : string :=
  "momentum_" +:+ str_int (lookback_hours self) +:+ "_" +:+
  str_int (py_int (entry_threshold self)) +:+ "_" +:+
  str_int (py_int (exit_threshold self)).

Definition template (self : t) : string := "momentum".

Definition evaluate {fmt : Formatting} (self : t) (ticker : string)
    (market_data : MarketData.t) : Result (option Signal.t) :=
  let price_history := default [] (MarketData.price_history market_data) in
  let current_price := default 0 (MarketData.current_price market_data) in
  let has_position := default false (MarketData.has_position market_data) in
  let entry_price := default 0 (MarketData.entry_price market_data) in
  if bool_decide (price_history = []) || falsy current_price then Ok None
  else
    let history := slice_from (- (lookback_hours self + 1)) price_history in
    match history with
    | [] | [_] => Ok None
    | start_price :: _ =>
      let? ratio := pdiv current_price start_price in
      let change_pct := (ratio - 1) * 100 in
      let? sell :=
        if has_position && Qltb 0 entry_price
        then
          let profit_pct := (current_price / entry_price - 1) * 100 in
          if Qle_bool profit_pct (exit_threshold self)
          then
            let? signal :=
              Signal.create (name self) ticker SignalType.SELL
                (py_min (Qabs profit_pct / 10) 1)
                ("Momentum reversal " +:+ fmt_1f profit_pct +:+ "% <= " +:+
                 str_float (exit_threshold self) +:+ "%")
                [] in
            Ok (Some signal)
          else Ok None
        else Ok None in
      match sell with
      | Some signal => Ok (Some signal)
      | None =>
        if negb has_position && Qle_bool (entry_threshold self) change_pct
        then
          let? r := pdiv change_pct (entry_threshold self * 2) in
          let? signal :=
            Signal.create (name self) ticker SignalType.BUY (py_min r 1)
              ("Momentum " +:+ fmt_1f change_pct +:+ "% >= " +:+
               str_float (entry_threshold self) +:+ "%")
              [] in
          Ok (Some signal)
        else Ok None
      end
    end.

Definition as_strategy {fmt : Formatting} (self : t) : Strategy.t :=
  Strategy.mk (name self) (template self) (evaluate self).
End MomentumStrategy.

Module MarketView.
(** The market dictionary with the keys that only some strategies read
    and that [_build_market_data] of the engine never sets. *)
Record t : Type := mk {
  base : MarketData.t;
  open_price : option Q;
  prev_high : option Q;
  prev_low : option Q;
  fear_greed_value : option Z;
  volume_history : option (list Q)
}.

(** The dictionary as the engine builds it: none of the extra keys. *)
Definition of_engine (market_data : MarketData.t) : t :=
  mk market_data None None None None None.
End MarketView.

Module FearGreedStrategy.
Record t : Type := mk {
  buy_threshold : Z;
  sell_threshold : Z
}.

Definition name {fmt : Formatting} (self : t) : string :=
  "fear_greed_" +:+ str_int (buy_threshold self) +:+ "_" +:+
  str_int (sell_threshold self).

Definition template (self : t) : string := "fear_greed".

Definition evaluate {fmt : Formatting} (self : t) (ticker : string)
    (market_data : MarketView.t) : Result (option Signal.t) :=
  let fg_value := default (-1)%Z (MarketView.fear_greed_value market_data) in
  let has_position :=
    default false (MarketData.has_position (MarketView.base market_data)) in
  if (fg_value <? 0)%Z then Ok None
  else if has_position && (sell_threshold self <=? fg_value)%Z
  then
    let strength :=
      py_min (inject_Z (fg_value - sell_threshold self) / 25) 1 in
    let? signal :=
      Signal.create (name self) ticker SignalType.SELL (py_max strength 0.3)
        ("Extreme Greed: F&G=" +:+ str_int fg_value +:+ " >= " +:+
         str_int (sell_threshold self))
        [] in
    Ok (Some signal)
  else if negb has_position && (fg_value <=? buy_threshold self)%Z
  then
    let strength :=
      py_min (inject_Z (buy_threshold self - fg_value) / 25) 1 in
    let? signal :=
      Signal.create (name self) ticker SignalType.BUY (py_max strength 0.3)
        ("Extreme Fear: F&G=" +:+ str_int fg_value +:+ " <= " +:+
         str_int (buy_threshold self))
        [] in
    Ok (Some signal)
  else Ok None.

(** The strategy as the engine calls it. *)
Definition as_strategy {fmt : Formatting} (self : t) : Strategy.t :=
  Strategy.mk (name self) (template self)
    (fun ticker market_data =>
       evaluate self ticker (MarketView.of_engine market_data)).
End FearGreedStrategy.

Module VolatilityBreakoutStrategy.
Record t : Type := mk { k_factor : Q }.

Definition name {fmt : Formatting} (self : t) : string :=
  "volatility_breakout_" +:+ str_int (py_int (k_factor self * 10)).

Definition template (self : t) : string := "volatility_breakout".

Definition evaluate {fmt : Formatting} {fmt0 : Formatting0} (self : t)
    (ticker : string) (market_data : MarketView.t)
    : Result (option Signal.t) :=
  let current_price :=
    default 0 (MarketData.current_price (MarketView.base market_data)) in
  let has_position :=
    default false (MarketData.has_position (MarketView.base market_data)) in
  let open_price := default 0 (MarketView.open_price market_data) in
  let prev_high := default 0 (MarketView.prev_high market_data) in
  let prev_low := default 0 (MarketView.prev_low market_data) in
  if falsy current_price || falsy prev_high || falsy prev_low then Ok None
  else
    let range_val := prev_high - prev_low in
    if Qle_bool range_val 0 then Ok None
    else
      let target :=
        if falsy open_price then 0
        else open_price + k_factor self * range_val in
      if negb has_position && Qltb 0 target && Qltb target current_price
      then
        let strength := py_min ((current_price - target) / range_val) 1 in
        let? signal :=
          Signal.create (name self) ticker SignalType.BUY (py_max strength 0.1)
            ("Breakout: " +:+ fmt_0f current_price +:+ " > target " +:+
             fmt_0f target)
            [] in
        Ok (Some signal)
      else Ok None.

Definition as_strategy {fmt : Formatting} {fmt0 : Formatting0} (self : t)
    : Strategy.t :=
  Strategy.mk (name self) (template self)
    (fun ticker market_data =>
       evaluate self ticker (MarketView.of_engine market_data)).
End VolatilityBreakoutStrategy.

Module VolumeSurgeStrategy.
Record t : Type := mk {
  lookback_hours : Z;
  volume_multiplier : Q
}.

Definition name {fmt : Formatting} (self : t) : string :=
  "volume_surge_" +:+ str_int (lookback_hours self) +:+ "_" +:+
  str_int (py_int (volume_multiplier self)).

Definition template (self : t) : string := "volume_surge".

Definition evaluate {fmt : Formatting} (self : t) (ticker : string)
    (market_data : MarketView.t) : Result (option Signal.t) :=
  let volume_history := default [] (MarketView.volume_history market_data) in
  let current_volume :=
    default 0 (MarketData.volume (MarketView.base market_data)) in
  let change_pct :=
    default 0 (MarketData.change_pct (MarketView.base market_data)) in
  let has_position :=
    default false (MarketData.has_position (MarketView.base market_data)) in
  if bool_decide (volume_history = []) || falsy current_volume then Ok None
  else
    let history := slice_from (- lookback_hours self) volume_history in
    if (length history <? 2)%nat then Ok None
    else
      let avg_volume := py_sum history / inject_Z (Z.of_nat (length history)) in
      if Qle_bool avg_volume 0 then Ok None
      else
        let volume_ratio := current_volume / avg_volume in
        if negb has_position
           && Qle_bool (volume_multiplier self) volume_ratio
           && Qltb 0 change_pct
        then
          let? r := pdiv volume_ratio (volume_multiplier self * 2) in
          let strength := py_min r 1 in
          let? signal :=
            Signal.create (name self) ticker SignalType.BUY strength
              ("Volume surge " +:+ fmt_1f volume_ratio +:+ "x avg, price +" +:+
               fmt_1f change_pct +:+ "%")
              [] in
          Ok (Some signal)
        else Ok None.

Definition as_strategy {fmt : Formatting} (self : t) : Strategy.t :=
  Strategy.mk (name self) (template self)
    (fun ticker market_data =>
       evaluate self ticker (MarketView.of_engine market_data)).
End VolumeSurgeStrategy.

(** ** Paper trading ([execution/paper.py]) *)

Module PaperTrader.
(** [__init__]: a portfolio holding the configured initial balance, the
    managers and the engine around it.  The trader keeps no state of its
    own besides the engine. *)
Definition init (now : Z) (config : AppConfig.t) (strategies : list Strategy.t)
    : ExecutionEngine.t :=
  let portfolio :=
    Portfolio.mk (inject_Z (TradingConfig.initial_krw (AppConfig.trading config)))
                 ∅ 0 0 0 in
  ExecutionEngine.init config
    (PortfolioManager.init portfolio (RiskConfig.fee_rate (AppConfig.risk config)))
    (RiskManager.init now (AppConfig.risk config)) strategies.

Definition process_tick {fmt : Formatting} (now : Z) (tick : Tick.t)
    : M ExecutionEngine.t (list Trade.t) :=
  ExecutionEngine.process_tick now tick.

Definition get_portfolio (self : ExecutionEngine.t) : Portfolio.t :=
  PortfolioManager.portfolio (ExecutionEngine.portfolio self).
End PaperTrader.

(** ** Parameter bounds of the evolver ([domain/evolution.py]) *)

Module StrategyEvolver.
Definition bounds : list (string * (Q * Q)) :=
  [("drop_pct", (-15, -2)); ("recovery_pct", (1, 10));
   ("timeframe_hours", (1, 72)); ("lookback_hours", (1, 72));
   ("entry_threshold", (1, 15)); ("exit_threshold", (-10, -1));
   ("k_factor", (0.1, 0.9)); ("volume_multiplier", (1.5, 10));
   ("buy_threshold", (5, 40)); ("sell_threshold", (60, 95))].

Fixpoint lookup_bounds (key : string) (table : list (string * (Q * Q)))
    : option (Q * Q) :=
  match table with
  | [] => None
  | (k, b) :: rest => if bool_decide (k = key) then Some b else lookup_bounds key rest
  end.

(** [_enforce_bounds]: [max(lo, min(hi, value))] for a known key. *)
Definition _enforce_bounds (key : string) (value : Q) : Q :=
  match lookup_bounds key bounds with
  | Some (lo, hi) => py_max lo (py_min hi value)
  | None => value
  end.
End StrategyEvolver.

(** ** Ranking ([reporting/leaderboard.py]) *)

Module Leaderboard.
Section Rank.
Context {A : Type}.
(** [s.get("return_pct", 0)] of an entry. *)
Variable return_pct : A -> option Q.

Definition key (s : A) : Q := default 0 (return_pct s).

(** [sorted(strategies, key=..., reverse=True)]: by decreasing key, entries
    with equal keys in their original order. *)
Fixpoint place (s : A) (ranked : list A) : list A :=
  match ranked with
  | [] => [s]
  | r :: rest =>
    if Qltb (key s) (key r) then r :: place s rest else s :: r :: rest
  end.

Definition rank (strategies : list A) : list A := foldr place [] strategies.

(** The order of the result: [a] may stand before [b]. *)
Definition by_return (a b : A) : Prop := key b <= key a.
End Rank.
End Leaderboard.

(** ** What a tick may do to the portfolio

    The portfolio manager offers three mutations.  [step] lists the forms
    in which the engine uses them at a tick of price [price]: the update
    of a high, a sale at [price] that succeeds, and a purchase of
    [amount] at [price] that succeeds while fewer than [max_positions]
    positions are OPEN and none of them is on the ticker. *)

Module Steps.
Section Tick.
Variables (max_positions : Z) (amount price : Q).

Inductive step : PortfolioManager.t -> option Trade.t -> PortfolioManager.t -> Prop :=
  | step_high (ticker : string) (pm : PortfolioManager.t) :
      step pm None
           (state_of (PortfolioManager.update_highest_price ticker price pm))
  | step_sell (now : Z) (strategy_name ticker reason : string)
        (pm pm' : PortfolioManager.t) (tr : Trade.t) :
      PortfolioManager.execute_sell now strategy_name ticker price reason pm
      = Returned (Some tr) pm' ->
      step pm (Some tr) pm'
  | step_buy (strategy_name ticker reason : string)
        (pm pm' : PortfolioManager.t) (tr : Trade.t) :
      (RiskManager.open_count (PortfolioManager.portfolio pm) < max_positions)%Z ->
      (forall pos,
         Portfolio.positions (PortfolioManager.portfolio pm) !! ticker = Some pos ->
         Position.status pos = PositionStatus.CLOSED) ->
      PortfolioManager.execute_buy strategy_name ticker price amount reason pm
      = Returned (Some tr) pm' ->
      step pm (Some tr) pm'.

(** A sequence of steps and the trades they produce, in order. *)
Inductive steps : PortfolioManager.t -> list Trade.t -> PortfolioManager.t -> Prop :=
  | steps_nil (pm : PortfolioManager.t) : steps pm [] pm
  | steps_cons (pm pm1 pm2 : PortfolioManager.t) (otr : option Trade.t)
        (trs : list Trade.t) :
      step pm otr pm1 -> steps pm1 trs pm2 ->
      steps pm (option_list otr ++ trs) pm2.
End Tick.

(** Whether the position stored under a key is OPEN. *)
Definition open_at (m : gmap string Position.t) (k : string) : bool :=
  match m !! k with
  | Some pos => Position.is_open pos
  | None => false
  end.

(** A manager that can pay: the balance and every quantity held are not
    negative. *)
Definition solvent (pm : PortfolioManager.t) : Prop :=
  0 <= Portfolio.krw_balance (PortfolioManager.portfolio pm)
  /\ forall k pos,
       Portfolio.positions (PortfolioManager.portfolio pm) !! k = Some pos ->
       0 <= Position.quantity pos.

(** The cash a trade moves: out for a BUY, in for a SELL. *)
Definition cash (trade : Trade.t) : Q :=
  match Trade.side trade with
  | Side.BUY => - Trade.total_krw trade
  | Side.SELL => Trade.total_krw trade
  end.

Definition is_sell (trade : Trade.t) : bool :=
  bool_decide (Trade.side trade = Side.SELL).

Definition is_win (trade : Trade.t) : bool :=
  is_sell trade && Qltb 0 (default 0 (Trade.profit trade)).

Definition sum_of (f : Trade.t -> Q) (trades : list Trade.t) : Q :=
  foldr (fun tr acc => f tr + acc) 0 trades.

Definition profit_of (trade : Trade.t) : Q := default 0 (Trade.profit trade).

(** What a call of the engine leaves: steps on the portfolio whose trades
    [trs] are what the call returns when it returns, with the
    configuration and the strategies as before. *)
Definition took {A} (max_positions : Z) (amount price : Q)
    (self : ExecutionEngine.t) (o : Outcome ExecutionEngine.t A)
    (result : A -> list Trade.t) (trs : list Trade.t) : Prop :=
  steps max_positions amount price (ExecutionEngine.portfolio self) trs
    (ExecutionEngine.portfolio (state_of o))
  /\ (forall r s', o = Returned r s' -> result r = trs)
  /\ Run.same_setup self (state_of o).

(** Invariants of the engine: the number of OPEN positions within the
    configured limit; the means to pay (fee rate between 0 and 1, a buy
    amount that is not negative, a solvent manager); counters that make
    sense. *)
Definition within_limit (s : ExecutionEngine.t) : Prop :=
  (RiskManager.open_count (PortfolioManager.portfolio (ExecutionEngine.portfolio s))
   <= RiskConfig.max_positions (RiskManager.config (ExecutionEngine.risk s)))%Z.

Definition can_pay (s : ExecutionEngine.t) : Prop :=
  0 <= PortfolioManager.fee_rate (ExecutionEngine.portfolio s)
  /\ PortfolioManager.fee_rate (ExecutionEngine.portfolio s) <= 1
  /\ (0 <= TradingConfig.buy_amount (AppConfig.trading (ExecutionEngine.config s)))%Z
  /\ solvent (ExecutionEngine.portfolio s).

Definition counters_ok (s : ExecutionEngine.t) : Prop :=
  let p := PortfolioManager.portfolio (ExecutionEngine.portfolio s) in
  (0 <= Portfolio.winning_trades p <= Portfolio.total_trades p)%Z.
End Steps.


(** * Properties *)

(** ** Arithmetic helpers *)

Lemma Qltb_lt x y : Qltb x y = true <-> x < y.
Proof.
  unfold Qltb. rewrite negb_true_iff.
  destruct (Qle_bool y x) eqn:E.
  - apply Qle_bool_iff in E. split; [discriminate | intros H; exfalso; lra].
  - split; [intros _ | reflexivity].
    destruct (Qlt_le_dec x y) as [H|H]; [exact H|].
    apply Qle_bool_iff in H. congruence.
Qed.

Lemma Qltb_ge x y : Qltb x y = false <-> y <= x.
Proof.
  unfold Qltb. rewrite negb_false_iff. apply Qle_bool_iff.
Qed.

Lemma Qle_bool_gt x y : Qle_bool x y = false <-> y < x.
Proof.
  rewrite <- Qltb_lt. unfold Qltb. now rewrite negb_true_iff.
Qed.

Lemma falsy_true x : falsy x = true <-> x == 0.
Proof. apply Qeq_bool_iff. Qed.

Lemma falsy_false x : falsy x = false <-> ~ x == 0.
Proof.
  unfold falsy. split.
  - intros E H. apply Qeq_bool_iff in H. congruence.
  - intros H. destruct (Qeq_bool x 0) eqn:E; [|reflexivity].
    apply Qeq_bool_iff in E. contradiction.
Qed.

Lemma pdiv_ok x y : ~ y == 0 -> pdiv x y = Ok (x / y).
Proof.
  intros H. unfold pdiv. apply falsy_false in H. now rewrite H.
Qed.


Lemma is_open_true p :
  Position.is_open p = true <-> Position.status p = PositionStatus.OPEN.
Proof. unfold Position.is_open. apply bool_decide_eq_true. Qed.

Lemma is_open_closed p :
  Position.status p = PositionStatus.CLOSED -> Position.is_open p = false.
Proof.
  intros H. unfold Position.is_open. apply bool_decide_eq_false. congruence.
Qed.

(** Unfolds the monad, leaving the code of the function in the goal. *)
Ltac mrun :=
  unfold bind, ret, get, put, modify, lift, zoom, rbind,
    PortfolioManager.on_portfolio;
  cbn beta iota.

(** ** Portfolio manager *)

(** C1.  With enough cash and a positive price, [execute_buy] returns the
    BUY trade with fee [krw_amount * fee_rate] and quantity
    [krw_amount * (1 - fee_rate) / price], takes the full [krw_amount]
    off the balance and stores an OPEN position (entry price and high
    equal to [price]) under the ticker; the counters, the accumulated
    profit and the other positions are as before. *)
Theorem execute_buy_spec (self : PortfolioManager.t)
    (strategy_name ticker : string) (price krw_amount : Q) (reason : string) :
  let p := PortfolioManager.portfolio self in
  let rate := PortfolioManager.fee_rate self in
  let fee := krw_amount * rate in
  let quantity := (krw_amount - fee) / price in
  krw_amount <= Portfolio.krw_balance p ->
  0 < price ->
  PortfolioManager.execute_buy strategy_name ticker price krw_amount reason self
  = Returned
      (Some (Trade.mk strategy_name ticker Side.BUY price quantity krw_amount
                      fee reason None None))
      (PortfolioManager.mk
         (Portfolio.mk
            (Portfolio.krw_balance p - krw_amount)
            (<[ticker := Position.mk strategy_name ticker PositionStatus.OPEN
                           price quantity (Some price) None None None None]>
               (Portfolio.positions p))
            (Portfolio.total_trades p) (Portfolio.winning_trades p)
            (Portfolio.total_profit p))
         rate)
  /\ quantity == krw_amount * (1 - rate) / price.
Proof.
  intros p rate fee quantity Hbal Hprice. split.
  - unfold PortfolioManager.execute_buy. mrun.
    apply Qltb_ge in Hbal. subst p. rewrite Hbal.
    rewrite pdiv_ok by lra. reflexivity.
  - unfold quantity, fee. field. lra.
Qed.

(** C2.  On an OPEN position [execute_sell] returns the SELL trade with
    gross, fee, net, cost, profit and profit percentage as in the
    specification, adds the net proceeds to the balance, counts the trade,
    counts a win exactly when the profit is positive, adds the profit to
    the total and closes the position with its four exit fields. *)
Theorem execute_sell_spec (self : PortfolioManager.t) (now : Z)
    (strategy_name ticker : string) (price : Q) (reason : string)
    (position : Position.t) :
  let p := PortfolioManager.portfolio self in
  let rate := PortfolioManager.fee_rate self in
  let q := Position.quantity position in
  let e := Position.entry_price position in
  let gross := q * price in
  let fee := gross * rate in
  let net := gross - fee in
  let cost := q * e + (q * e) * rate / (1 - rate) in
  let profit := net - cost in
  Portfolio.positions p !! ticker = Some position ->
  Position.status position = PositionStatus.OPEN ->
  ~ rate == 1 ->
  exists (profit_pct : Q) (self' : PortfolioManager.t),
    PortfolioManager.execute_sell now strategy_name ticker price reason self
    = Returned
        (Some (Trade.mk strategy_name ticker Side.SELL price q net fee reason
                        (Some profit) (Some profit_pct)))
        self'
    /\ (0 < cost -> profit_pct = profit / cost * 100)
    /\ (cost <= 0 -> profit_pct = 0)
    /\ PortfolioManager.fee_rate self' = rate
    /\ Portfolio.krw_balance (PortfolioManager.portfolio self')
       = Portfolio.krw_balance p + net
    /\ Portfolio.total_trades (PortfolioManager.portfolio self')
       = (Portfolio.total_trades p + 1)%Z
    /\ (0 < profit ->
        Portfolio.winning_trades (PortfolioManager.portfolio self')
        = (Portfolio.winning_trades p + 1)%Z)
    /\ (profit <= 0 ->
        Portfolio.winning_trades (PortfolioManager.portfolio self')
        = Portfolio.winning_trades p)
    /\ Portfolio.total_profit (PortfolioManager.portfolio self')
       = Portfolio.total_profit p + profit
    /\ Portfolio.positions (PortfolioManager.portfolio self')
       = <[ticker := Position.mk (Position.strategy_name position)
                       (Position.ticker position) PositionStatus.CLOSED e q
                       (Position.highest_price position) (Some price)
                       (Some now) (Some profit) (Some profit_pct)]>
           (Portfolio.positions p).
Proof.
  intros p rate q e gross fee net cost profit Hpos Hopen Hrate.
  exists (if Qltb 0 cost then profit / cost * 100 else 0).
  unfold PortfolioManager.execute_sell. mrun.
  subst p. rewrite Hpos.
  apply is_open_true in Hopen. rewrite Hopen. cbn [negb].
  rewrite pdiv_ok by (fold rate; lra).
  fold rate q e. fold gross. fold fee. fold net. fold cost. fold profit.
  destruct (Qltb 0 profit) eqn:Hwin; eexists; (split; [reflexivity|]); cbn;
    (repeat split; try reflexivity).
  all: try (intros Hc; apply Qltb_lt in Hc; now rewrite Hc).
  all: try (intros Hc; apply Qltb_ge in Hc; now rewrite Hc).
  all: try (apply Qltb_lt in Hwin; intros; exfalso; lra).
  all: try (apply Qltb_ge in Hwin; intros; exfalso; lra).
Qed.

Lemma execute_buy_rejected (self : PortfolioManager.t)
    (strategy_name ticker : string) (price krw_amount : Q) (reason : string) :
  Portfolio.krw_balance (PortfolioManager.portfolio self) < krw_amount ->
  PortfolioManager.execute_buy strategy_name ticker price krw_amount reason self
  = Returned None self.
Proof.
  intros H. unfold PortfolioManager.execute_buy. mrun.
  apply Qltb_lt in H. now rewrite H.
Qed.

Lemma execute_buy_balance (self : PortfolioManager.t)
    (strategy_name ticker : string) (price krw_amount : Q) (reason : string) :
  0 <= Portfolio.krw_balance (PortfolioManager.portfolio self) ->
  0 <= Portfolio.krw_balance (PortfolioManager.portfolio (state_of
         (PortfolioManager.execute_buy strategy_name ticker price krw_amount
            reason self))).
Proof.
  intros H. unfold PortfolioManager.execute_buy. mrun.
  destruct (Qltb _ krw_amount) eqn:E; [exact H|].
  apply Qltb_ge in E.
  destruct (pdiv _ price); cbn; [lra | exact H].
Qed.

Lemma execute_sell_balance (self : PortfolioManager.t) (now : Z)
    (strategy_name ticker : string) (price : Q) (reason : string) :
  0 <= Portfolio.krw_balance (PortfolioManager.portfolio self) ->
  0 <= price ->
  PortfolioManager.fee_rate self <= 1 ->
  (forall pos,
     Portfolio.positions (PortfolioManager.portfolio self) !! ticker = Some pos ->
     0 <= Position.quantity pos) ->
  0 <= Portfolio.krw_balance (PortfolioManager.portfolio (state_of
         (PortfolioManager.execute_sell now strategy_name ticker price reason
            self))).
Proof.
  intros Hbal Hprice Hrate Hq. unfold PortfolioManager.execute_sell. mrun.
  destruct (_ !! ticker) as [pos|] eqn:Hpos; [|exact Hbal].
  specialize (Hq pos eq_refl).
  destruct (negb _); [exact Hbal|].
  destruct (pdiv _ _); [|exact Hbal].
  assert (Hnet : 0 <= Position.quantity pos * price
                      - Position.quantity pos * price * PortfolioManager.fee_rate self).
  { assert (0 <= Position.quantity pos * price) by (apply Qmult_le_0_compat; assumption).
    assert (0 <= Position.quantity pos * price * (1 - PortfolioManager.fee_rate self))
      by (apply Qmult_le_0_compat; [assumption | lra]).
    lra. }
  destruct (Qltb 0 _); cbn; lra.
Qed.

Lemma update_highest_price_balance (self : PortfolioManager.t)
    (ticker : string) (price : Q) :
  Portfolio.krw_balance (PortfolioManager.portfolio (state_of
    (PortfolioManager.update_highest_price ticker price self)))
  = Portfolio.krw_balance (PortfolioManager.portfolio self).
Proof.
  unfold PortfolioManager.update_highest_price. mrun.
  destruct (_ !! ticker) as [pos|]; [|reflexivity].
  destruct (_ && _); reflexivity.
Qed.

(** C3, as the code has it.  From a balance that is not negative,
    [execute_buy] and [update_highest_price] always leave a balance that is
    not negative, [execute_sell] does so when the price and the quantity
    held are not negative and the fee rate is at most 1, and a buy for more
    than the balance returns nothing and leaves the manager as it was. *)
Theorem krw_balance_preserved (self : PortfolioManager.t) :
  let balance (s : PortfolioManager.t) :=
    Portfolio.krw_balance (PortfolioManager.portfolio s) in
  0 <= balance self ->
  (forall strategy_name ticker price krw_amount reason,
     0 <= balance (state_of (PortfolioManager.execute_buy strategy_name ticker
                               price krw_amount reason self)))
  /\ (forall now strategy_name ticker price reason,
        0 <= price ->
        PortfolioManager.fee_rate self <= 1 ->
        (forall pos,
           Portfolio.positions (PortfolioManager.portfolio self) !! ticker
           = Some pos -> 0 <= Position.quantity pos) ->
        0 <= balance (state_of (PortfolioManager.execute_sell now strategy_name
                                  ticker price reason self)))
  /\ (forall ticker price,
        0 <= balance (state_of (PortfolioManager.update_highest_price ticker
                                  price self)))
  /\ (forall strategy_name ticker price krw_amount reason,
        balance self < krw_amount ->
        PortfolioManager.execute_buy strategy_name ticker price krw_amount
          reason self = Returned None self).
Proof.
  intros balance Hbal. repeat split.
  - intros. now apply execute_buy_balance.
  - intros. now apply execute_sell_balance.
  - intros. unfold balance. now rewrite update_highest_price_balance.
  - intros. now apply execute_buy_rejected.
Qed.

(** C3 as stated fails: selling the open position of a portfolio without
    cash at a negative price leaves a negative balance. *)
Lemma execute_sell_overdraws :
  let self := PortfolioManager.init Samples.broke_portfolio 0.05 in
  0 <= Portfolio.krw_balance (PortfolioManager.portfolio self)
  /\ Portfolio.krw_balance (PortfolioManager.portfolio (state_of
       (PortfolioManager.execute_sell 0 "test" "KRW-BTC" (-1) "" self))) < 0.
Proof. split; vm_compute; [discriminate | reflexivity]. Qed.

Lemma krw_balance_preserved_witness :
  let self := PortfolioManager.init Samples.portfolio_with_position 0.05 in
  0 <= Portfolio.krw_balance (PortfolioManager.portfolio (state_of
         (PortfolioManager.execute_sell 0 "test" "KRW-BTC" 55000000 "" self))).
Proof.
  intros self.
  assert (H0 : 0 <= Portfolio.krw_balance (PortfolioManager.portfolio self))
    by (vm_compute; discriminate).
  destruct (krw_balance_preserved self H0) as (_ & Hsell & _).
  apply Hsell.
  - vm_compute; discriminate.
  - vm_compute; discriminate.
  - intros pos Hpos. vm_compute in Hpos. injection Hpos as <-.
    vm_compute; discriminate.
Defined.

(** ** Risk manager: the exit checks *)



(** ** Execution engine: the guard and the loop *)

Lemma process_tick_phases {fmt : Formatting} (now : Z) (tick : Tick.t)
    (self : ExecutionEngine.t) :
  let ticker := default "" (Tick.ticker tick) in
  let price := default 0 (Tick.price tick) in
  ExecutionEngine.process_tick now tick self =
  if bool_decide (ticker = "") || falsy price then Returned [] self
  else match Run.exit_phase now tick self with
       | Returned (Some tr) s => Returned [tr] s
       | Returned None s =>
         ExecutionEngine.evaluate_strategies now tick ticker price
           (ExecutionEngine.strategies s) [] s
       | Raised e s => Raised e s
       end.
Proof.
  intros ticker price.
  unfold ExecutionEngine.process_tick, Run.exit_phase.
  fold ticker price.
  destruct (bool_decide (ticker = "") || falsy price); [reflexivity|].
  unfold bind, get.
  destruct (ExecutionEngine.with_portfolio _ self) as [[] s0|e s0];
    [|reflexivity].
  destruct (ExecutionEngine._check_risk_exits now ticker price s0)
    as [[tr|] s1|e s1]; reflexivity.
Qed.

(** C6, as the code has it.  A tick without ticker, with an empty ticker,
    without price or with a price equal to zero gives no trade and leaves
    the engine as it was. *)
Theorem process_tick_guard {fmt : Formatting} (now : Z) (tick : Tick.t)
    (self : ExecutionEngine.t) :
  Tick.ticker tick = None \/ Tick.ticker tick = Some ""
  \/ Tick.price tick = None
  \/ (exists q, Tick.price tick = Some q /\ q == 0) ->
  ExecutionEngine.process_tick now tick self = Returned [] self.
Proof.
  intros H. unfold ExecutionEngine.process_tick.
  destruct H as [H|[H|[H|(q & H & Hq)]]]; rewrite H; cbn [from_option id].
  - reflexivity.
  - reflexivity.
  - rewrite orb_true_r. reflexivity.
  - apply falsy_true in Hq. rewrite Hq, orb_true_r. reflexivity.
Qed.

Lemma process_tick_guard_witness :
  ExecutionEngine.process_tick (fmt := Samples.plain_format) 0
    (Tick.mk (Some "KRW-BTC") (Some 0) None None None None None)
    (Samples.engine Samples.app_config Samples.portfolio_with_position [])
  = Returned [] (Samples.engine Samples.app_config
                   Samples.portfolio_with_position []).
Proof.
  apply (process_tick_guard (fmt := Samples.plain_format)).
  right. right. right. exists 0. split; reflexivity.
Defined.

(** C6 as stated fails: a negative price passes the guard; here it sells
    the open position through the stop-loss and changes the balance. *)
Lemma negative_price_is_processed :
  let self := Samples.engine Samples.app_config
                Samples.portfolio_with_position [] in
  let balance (s : ExecutionEngine.t) :=
    Portfolio.krw_balance
      (PortfolioManager.portfolio (ExecutionEngine.portfolio s)) in
  exists tr self',
    ExecutionEngine.process_tick (fmt := Samples.plain_format) 0
      (Samples.tick "KRW-BTC" (-1) []) self = Returned [tr] self'
    /\ Trade.side tr = Side.SELL
    /\ ~ balance self' == balance self.
Proof.
  cbv zeta. eexists. eexists. split; [vm_compute; reflexivity|].
  split; [reflexivity|]. vm_compute. intros H. discriminate H.
Qed.

Lemma evaluate_strategies_app {fmt : Formatting} (now : Z) (tick : Tick.t)
    (ticker : string) (price : Q) (pre post : list Strategy.t) :
  forall (trades : list Trade.t) (self : ExecutionEngine.t),
  ExecutionEngine.evaluate_strategies now tick ticker price (pre ++ post)
    trades self =
  match ExecutionEngine.evaluate_strategies now tick ticker price pre trades
          self with
  | Returned trades1 s1 =>
    ExecutionEngine.evaluate_strategies now tick ticker price post trades1 s1
  | Raised e s1 => Raised e s1
  end.
Proof.
  induction pre as [|s pre IH]; intros trades self.
  - reflexivity.
  - cbn [app ExecutionEngine.evaluate_strategies].
    unfold bind, get, lift.
    destruct (Strategy.evaluate s ticker _) as [[sig|]|e]; cbn beta iota.
    + destruct (ExecutionEngine._execute_signal now sig price self)
        as [[tr|] s1|e s1]; cbn beta iota; [apply IH | apply IH | reflexivity].
    + apply IH.
    + reflexivity.
Qed.

(** C7, as the code has it.  Nothing catches an exception of [evaluate]:
    when the exits did not fire and the strategies before [strategy] ran
    to the state [s1], an [evaluate] of [strategy] that raises makes
    [process_tick] raise the same exception in that state, whatever the
    strategies registered after it are. *)
Theorem strategy_fault_aborts_tick {fmt : Formatting} (now : Z)
    (tick : Tick.t) (self s0 s1 : ExecutionEngine.t) (ticker : string)
    (price : Q) (pre post : list Strategy.t) (strategy : Strategy.t)
    (trades1 : list Trade.t) (x : Exn) :
  Tick.ticker tick = Some ticker -> ticker <> "" ->
  Tick.price tick = Some price -> ~ price == 0 ->
  Run.exit_phase now tick self = Returned None s0 ->
  ExecutionEngine.strategies s0 = pre ++ strategy :: post ->
  ExecutionEngine.evaluate_strategies now tick ticker price pre [] s0
  = Returned trades1 s1 ->
  Strategy.evaluate strategy ticker
    (ExecutionEngine._build_market_data ticker tick s1) = Throw x ->
  ExecutionEngine.process_tick now tick self = Raised x s1.
Proof.
  intros Hticker Hne Hprice Hp Hexit Hstrats Hpre Hraise.
  rewrite process_tick_phases, Hticker, Hprice. cbn [from_option id].
  rewrite bool_decide_eq_false_2 by exact Hne.
  apply falsy_false in Hp. rewrite Hp. cbn [orb].
  rewrite Hexit, Hstrats, evaluate_strategies_app, Hpre.
  cbn [ExecutionEngine.evaluate_strategies].
  unfold bind, get, lift. now rewrite Hraise.
Qed.

Lemma strategy_fault_aborts_tick_witness :
  let self := Samples.engine Samples.app_config Samples.empty_portfolio
                [Samples.mock_strategy (Ok None); Samples.faulty_strategy;
                 Samples.mock_strategy (Ok (Some Samples.buy_signal))] in
  ExecutionEngine.process_tick (fmt := Samples.plain_format) 0
    (Samples.tick "KRW-BTC" 50000000 []) self
  = Raised (StrategyFault "boom") self.
Proof.
  intros self.
  apply (strategy_fault_aborts_tick (fmt := Samples.plain_format) 0
           (Samples.tick "KRW-BTC" 50000000 []) self self self "KRW-BTC"
           50000000 [Samples.mock_strategy (Ok None)]
           [Samples.mock_strategy (Ok (Some Samples.buy_signal))]
           Samples.faulty_strategy []).
  - reflexivity.
  - discriminate.
  - reflexivity.
  - vm_compute. intros H. discriminate H.
  - vm_compute. reflexivity.
  - reflexivity.
  - vm_compute. reflexivity.
  - reflexivity.
Defined.

(** C7 as stated fails: with a raising strategy registered before a
    strategy that signals a buy, the tick returns no trade list and the
    buy does not happen. *)
Lemma strategy_fault_not_isolated :
  let self := Samples.engine Samples.app_config Samples.empty_portfolio
                [Samples.faulty_strategy;
                 Samples.mock_strategy (Ok (Some Samples.buy_signal))] in
  (forall trades self',
     ExecutionEngine.process_tick (fmt := Samples.plain_format) 0
       (Samples.tick "KRW-BTC" 50000000 []) self <> Returned trades self')
  /\ ExecutionEngine.process_tick (fmt := Samples.plain_format) 0
       (Samples.tick "KRW-BTC" 50000000 []) self
     = Raised (StrategyFault "boom") self.
Proof.
  cbv zeta.
  assert (H : ExecutionEngine.process_tick (fmt := Samples.plain_format) 0
                (Samples.tick "KRW-BTC" 50000000 [])
                (Samples.engine Samples.app_config Samples.empty_portfolio
                   [Samples.faulty_strategy;
                    Samples.mock_strategy (Ok (Some Samples.buy_signal))])
              = Raised (StrategyFault "boom")
                  (Samples.engine Samples.app_config Samples.empty_portfolio
                     [Samples.faulty_strategy;
                      Samples.mock_strategy (Ok (Some Samples.buy_signal))])).
  { vm_compute. reflexivity. }
  split; [|exact H]. intros trades self'. rewrite H. discriminate.
Qed.


(** ** The dip-buy strategy *)

Lemma slice_from_last {A} (n : Z) (l : list A) :
  (0 < n)%Z -> slice_from (- n) l = drop (length l - Z.to_nat n) l.
Proof.
  intros Hn. unfold slice_from.
  replace (- n <? 0)%Z with true by (symmetry; apply Z.ltb_lt; lia).
  f_equal. lia.
Qed.

Lemma signal_create_ok (strategy_name ticker : string) (ty : SignalType.t)
    (strength : Q) (reason : string) (params : list (string * Q)) :
  0 <= strength -> strength <= 1 ->
  Signal.create strategy_name ticker ty strength reason params
  = Ok (Signal.mk strategy_name ticker ty strength reason params).
Proof.
  intros H0 H1. unfold Signal.create.
  apply Qle_bool_iff in H0, H1. now rewrite H0, H1.
Qed.

Lemma rbind_ok {A B} (a : A) (k : A -> Result B) : rbind (Ok a) k = k a.
Proof. reflexivity. Qed.

Lemma py_min_bounds (r : Q) : 0 <= r -> 0 <= py_min r 1 /\ py_min r 1 <= 1.
Proof.
  intros Hr. unfold py_min. destruct (Qltb 1 r) eqn:E.
  - split; lra.
  - apply Qltb_ge in E. split; lra.
Qed.



(** ** The trade log and the daily aggregate *)

Lemma with_portfolio_frame {A} (m : M PortfolioManager.t A)
    (self : ExecutionEngine.t) :
  let s' := state_of (ExecutionEngine.with_portfolio m self) in
  ExecutionEngine.config s' = ExecutionEngine.config self
  /\ ExecutionEngine.risk s' = ExecutionEngine.risk self
  /\ ExecutionEngine.strategies s' = ExecutionEngine.strategies self
  /\ ExecutionEngine.trade_log s' = ExecutionEngine.trade_log self.
Proof.
  unfold ExecutionEngine.with_portfolio, zoom.
  destruct (m _); cbn; auto.
Qed.

Lemma check_risk_exits_frame {fmt : Formatting} (now : Z) (ticker : string)
    (price : Q) (self : ExecutionEngine.t) :
  let s' := state_of (ExecutionEngine._check_risk_exits now ticker price self) in
  ExecutionEngine.config s' = ExecutionEngine.config self
  /\ ExecutionEngine.risk s' = ExecutionEngine.risk self
  /\ ExecutionEngine.strategies s' = ExecutionEngine.strategies self
  /\ ExecutionEngine.trade_log s' = ExecutionEngine.trade_log self.
Proof.
  unfold ExecutionEngine._check_risk_exits, bind, get, lift, ret.
  destruct (_ !! ticker) as [pos|]; [|cbn; auto].
  destruct (RiskManager.check_stop_loss _ _ _) as [c1|]; [|cbn; auto].
  destruct (RiskCheck.allowed c1); [apply with_portfolio_frame|].
  destruct (RiskManager.check_take_profit _ _ _) as [c2|]; [|cbn; auto].
  destruct (RiskCheck.allowed c2); [apply with_portfolio_frame|].
  destruct (RiskManager.check_trailing_stop _ _ _) as [c3|]; [|cbn; auto].
  destruct (RiskCheck.allowed c3); [apply with_portfolio_frame|].
  cbn; auto.
Qed.

Lemma exit_phase_frame {fmt : Formatting} (now : Z) (tick : Tick.t)
    (self : ExecutionEngine.t) :
  let s' := state_of (Run.exit_phase now tick self) in
  ExecutionEngine.config s' = ExecutionEngine.config self
  /\ ExecutionEngine.risk s' = ExecutionEngine.risk self
  /\ ExecutionEngine.strategies s' = ExecutionEngine.strategies self
  /\ ExecutionEngine.trade_log s' = ExecutionEngine.trade_log self.
Proof.
  unfold Run.exit_phase.
  destruct (_ || _); [cbn; auto|].
  unfold bind.
  pose proof (with_portfolio_frame
                (PortfolioManager.update_highest_price
                   (default "" (Tick.ticker tick)) (default 0 (Tick.price tick)))
                self) as Hf.
  destruct (ExecutionEngine.with_portfolio _ self) as [[] s0|e s0];
    cbn [state_of] in Hf; [|exact Hf].
  pose proof (check_risk_exits_frame now (default "" (Tick.ticker tick))
                (default 0 (Tick.price tick)) s0) as Hg.
  cbv zeta in *. destruct Hf as (? & ? & ? & ?), Hg as (? & ? & ? & ?).
  repeat split; congruence.
Qed.

Lemma execute_buy_side (strategy_name ticker : string) (price krw_amount : Q)
    (reason : string) (self self' : PortfolioManager.t) (tr : Trade.t) :
  PortfolioManager.execute_buy strategy_name ticker price krw_amount reason self
  = Returned (Some tr) self' ->
  Trade.side tr = Side.BUY.
Proof.
  unfold PortfolioManager.execute_buy. mrun.
  destruct (Qltb _ _); [discriminate|].
  destruct (pdiv _ _); [|discriminate].
  intros [= <- _]. reflexivity.
Qed.

Lemma execute_sell_side (now : Z) (strategy_name ticker : string) (price : Q)
    (reason : string) (self self' : PortfolioManager.t) (tr : Trade.t) :
  PortfolioManager.execute_sell now strategy_name ticker price reason self
  = Returned (Some tr) self' ->
  Trade.side tr = Side.SELL /\ exists p, Trade.profit tr = Some p.
Proof.
  unfold PortfolioManager.execute_sell. mrun.
  destruct (_ !! ticker) as [pos|]; [|discriminate].
  destruct (negb _); [discriminate|].
  destruct (pdiv _ _); [|discriminate].
  destruct (Qltb 0 _); intros [= <- _]; cbn; eauto.
Qed.

Lemma reset_same_date (now : Z) (self : RiskManager.t) :
  date_of now = DailyPnL.date (RiskManager.daily_pnl self) ->
  RiskManager._reset_daily_if_needed now self = Returned tt self.
Proof.
  intros H. unfold RiskManager._reset_daily_if_needed, modify.
  rewrite bool_decide_eq_true_2 by congruence. reflexivity.
Qed.

Lemma reset_returns (now : Z) (self : RiskManager.t) :
  RiskManager._reset_daily_if_needed now self
  = Returned tt (state_of (RiskManager._reset_daily_if_needed now self)).
Proof. reflexivity. Qed.

Lemma check_buy_returns {fmt : Formatting} (now : Z) (signal : Signal.t)
    (portfolio : Portfolio.t) (buy_amount : Q) (self : RiskManager.t) :
  exists c,
    RiskManager.check_buy now signal portfolio buy_amount self
    = Returned c (state_of (RiskManager._reset_daily_if_needed now self)).
Proof.
  unfold RiskManager.check_buy, bind. rewrite reset_returns.
  generalize (state_of (RiskManager._reset_daily_if_needed now self)).
  intros s0. unfold get, ret.
  repeat match goal with
         | |- context [if ?b then _ else _] => destruct b
         | |- context [match ?o with Some _ => _ | None => _ end] => destruct o
         end; eexists; reflexivity.
Qed.

Lemma reset_config (now : Z) (self : RiskManager.t) :
  RiskManager.config (state_of (RiskManager._reset_daily_if_needed now self))
  = RiskManager.config self.
Proof.
  unfold RiskManager._reset_daily_if_needed, modify. cbn.
  destruct (bool_decide _); reflexivity.
Qed.

Lemma reset_state_same_date (now : Z) (self : RiskManager.t) :
  date_of now = DailyPnL.date (RiskManager.daily_pnl self) ->
  state_of (RiskManager._reset_daily_if_needed now self) = self.
Proof. intros H. now rewrite reset_same_date. Qed.

Lemma record_trade_pnl_returns (now : Z) (pnl : Q) (self : RiskManager.t) :
  RiskManager.record_trade_pnl now pnl self
  = Returned tt
      (let s0 := state_of (RiskManager._reset_daily_if_needed now self) in
       RiskManager.mk (RiskManager.config s0)
         (DailyPnL.mk (DailyPnL.date (RiskManager.daily_pnl s0))
            (DailyPnL.realized_pnl (RiskManager.daily_pnl s0) + pnl)
            (DailyPnL.trades_today (RiskManager.daily_pnl s0) + 1)%Z)).
Proof. reflexivity. Qed.

Lemma sum_pnl_app (l1 l2 : list Trade.t) :
  Run.sum_pnl (l1 ++ l2) == Run.sum_pnl l1 + Run.sum_pnl l2.
Proof.
  unfold Run.sum_pnl.
  induction l1 as [|t l1 IH]; cbn [app fold_right].
  - ring.
  - rewrite IH. ring.
Qed.

Lemma same_setup_refl (self : ExecutionEngine.t) : Run.same_setup self self.
Proof. repeat split. Qed.

Lemma same_setup_trans (s1 s2 s3 : ExecutionEngine.t) :
  Run.same_setup s1 s2 -> Run.same_setup s2 s3 -> Run.same_setup s1 s3.
Proof. unfold Run.same_setup. intuition congruence. Qed.

Lemma log_extended_trans (s1 s2 s3 : ExecutionEngine.t) (n1 n2 : list Trade.t) :
  Run.log_extended s1 s2 n1 -> Run.log_extended s2 s3 n2 ->
  Run.log_extended s1 s3 (n1 ++ n2).
Proof.
  unfold Run.log_extended. intros H1 H2.
  rewrite H2, H1, List.filter_app. now rewrite <- app_assoc.
Qed.

Lemma pnl_extended_trans (s1 s2 s3 : ExecutionEngine.t) (n1 n2 : list Trade.t) :
  Run.pnl_extended s1 s2 n1 -> Run.pnl_extended s2 s3 n2 ->
  Run.pnl_extended s1 s3 (n1 ++ n2).
Proof.
  unfold Run.pnl_extended. intros (Hd1 & Ht1 & Hr1) (Hd2 & Ht2 & Hr2).
  rewrite List.filter_app, length_app, sum_pnl_app.
  repeat split.
  - congruence.
  - rewrite Ht2, Ht1. lia.
  - rewrite Hr2, Hr1. ring.
Qed.

Lemma pnl_extended_date (s1 s2 : ExecutionEngine.t) (n : list Trade.t)
    (now : Z) :
  Run.pnl_extended s1 s2 n -> Run.same_date now s1 -> Run.same_date now s2.
Proof. unfold Run.pnl_extended, Run.same_date. intros (Hd & _) H. congruence. Qed.

Lemma record_trade_pnl_effect (now : Z) (pnl : Q) (self : RiskManager.t) :
  exists self',
    RiskManager.record_trade_pnl now pnl self = Returned tt self'
    /\ RiskManager.config self' = RiskManager.config self
    /\ (date_of now = DailyPnL.date (RiskManager.daily_pnl self) ->
        DailyPnL.date (RiskManager.daily_pnl self')
        = DailyPnL.date (RiskManager.daily_pnl self)
        /\ DailyPnL.trades_today (RiskManager.daily_pnl self')
           = (DailyPnL.trades_today (RiskManager.daily_pnl self) + 1)%Z
        /\ DailyPnL.realized_pnl (RiskManager.daily_pnl self')
           = DailyPnL.realized_pnl (RiskManager.daily_pnl self) + pnl).
Proof.
  eexists. split; [apply record_trade_pnl_returns|]. cbv zeta.
  split; [apply reset_config|].
  intros H. rewrite (reset_state_same_date _ _ H). cbn. auto.
Qed.

Lemma is_logged_buy (tr : Trade.t) :
  Trade.side tr = Side.BUY -> Run.is_logged tr = true /\ Run.pnl_of tr = 0.
Proof. unfold Run.is_logged, Run.pnl_of. now intros ->. Qed.

Lemma is_logged_sell (tr : Trade.t) :
  Trade.side tr = Side.SELL ->
  Run.is_logged tr = ExecutionEngine.profit_truthy tr
  /\ Run.pnl_of tr = default 0 (Trade.profit tr).
Proof.
  unfold Run.is_logged, Run.pnl_of, ExecutionEngine.profit_truthy.
  now intros ->.
Qed.

Ltac eng_simpl :=
  cbn [ExecutionEngine.config ExecutionEngine.portfolio ExecutionEngine.risk
       ExecutionEngine.strategies ExecutionEngine.trade_log option_list
       option_rect List.filter length fold_right RiskManager.config
       RiskManager.daily_pnl
       DailyPnL.date DailyPnL.trades_today DailyPnL.realized_pnl].

Ltac close_effect :=
  repeat split; try reflexivity; try assumption; try congruence;
  try lia; try ring.

(** One signal: the log and the aggregate grow by the trade when it is a
    BUY or a SELL with a profit that is not zero, and not otherwise. *)
Lemma execute_signal_effect {fmt : Formatting} (now : Z) (signal : Signal.t)
    (price : Q) (self self' : ExecutionEngine.t) (otr : option Trade.t) :
  ExecutionEngine._execute_signal now signal price self = Returned otr self' ->
  Run.same_setup self self'
  /\ Run.log_extended self self' (option_list otr)
  /\ (Run.same_date now self -> Run.pnl_extended self self' (option_list otr)).
Proof.
  unfold ExecutionEngine._execute_signal, Run.same_setup, Run.log_extended,
    Run.pnl_extended, Run.same_date, Run.sum_pnl.
  destruct self as [cfg pm rm strats log]. eng_simpl.
  destruct (Signal.signal_type signal).
  - unfold bind, get.
    unfold ExecutionEngine.with_risk at 1, zoom. eng_simpl.
    destruct (check_buy_returns now signal (PortfolioManager.portfolio pm)
                (inject_Z (TradingConfig.buy_amount (AppConfig.trading cfg)))
                rm) as [c Hc].
    rewrite Hc. clear Hc.
    pose proof (reset_config now rm) as Hcfg.
    pose proof (reset_state_same_date now rm) as Hsame.
    set (r0 := state_of (RiskManager._reset_daily_if_needed now rm)) in *.
    clearbody r0.
    destruct (negb (RiskCheck.allowed c)).
    + unfold ret. intros [= <- <-]. eng_simpl.
      rewrite app_nil_r. split; [close_effect|]. split; [reflexivity|].
      intros Hd. rewrite (Hsame Hd). close_effect.
    + unfold ExecutionEngine.with_portfolio at 1, zoom. eng_simpl.
      destruct (PortfolioManager.execute_buy _ _ _ _ _ pm)
        as [[tr|] pm'|e pm'] eqn:Hbuy; [| |discriminate].
      * apply execute_buy_side in Hbuy. apply is_logged_buy in Hbuy.
        destruct Hbuy as [Hlogged Hpnl].
        unfold ExecutionEngine.log_trade, modify, ExecutionEngine.with_risk,
          zoom, ret. eng_simpl.
        destruct (record_trade_pnl_effect now 0 r0) as (r1 & Hrec & Hc1 & Hd1).
        rewrite Hrec. intros [= <- <-]. eng_simpl.
        rewrite Hlogged. eng_simpl. rewrite Hpnl.
        split; [close_effect|]. split; [reflexivity|].
        intros Hd. rewrite (Hsame Hd) in Hd1. destruct (Hd1 Hd) as (-> & -> & ->).
        close_effect.
      * unfold ret. intros [= <- <-]. eng_simpl.
        rewrite app_nil_r. split; [close_effect|]. split; [reflexivity|].
        intros Hd. rewrite (Hsame Hd). close_effect.
  - unfold bind, get.
    destruct (negb (RiskCheck.allowed _)).
    + unfold ret. intros [= <- <-]. eng_simpl.
      rewrite app_nil_r. close_effect.
    + unfold ExecutionEngine.with_portfolio at 1, zoom. eng_simpl.
      destruct (PortfolioManager.execute_sell _ _ _ _ _ pm)
        as [[tr|] pm'|e pm'] eqn:Hsell; [| |discriminate].
      * apply execute_sell_side in Hsell. destruct Hsell as [Hside _].
        apply is_logged_sell in Hside. destruct Hside as [Hlogged Hpnl].
        destruct (ExecutionEngine.profit_truthy tr) eqn:Htruthy.
        -- unfold ExecutionEngine.log_trade, modify, ExecutionEngine.with_risk,
             zoom, ret. eng_simpl.
           destruct (record_trade_pnl_effect now (default 0 (Trade.profit tr)) rm)
             as (r1 & Hrec & Hc1 & Hd1).
           rewrite Hrec. intros [= <- <-]. eng_simpl.
           rewrite Hlogged. eng_simpl. rewrite Hpnl.
           split; [close_effect|]. split; [reflexivity|].
           intros Hd. destruct (Hd1 Hd) as (-> & -> & ->).
           close_effect.
        -- unfold ret. intros [= <- <-]. eng_simpl.
           rewrite Hlogged. eng_simpl.
           rewrite app_nil_r. close_effect.
      * unfold ret. intros [= <- <-]. eng_simpl.
        rewrite app_nil_r. close_effect.
Qed.


Lemma log_extended_refl (self : ExecutionEngine.t) : Run.log_extended self self [].
Proof. unfold Run.log_extended. cbn. now rewrite app_nil_r. Qed.

Lemma pnl_extended_refl (self : ExecutionEngine.t) : Run.pnl_extended self self [].
Proof.
  unfold Run.pnl_extended, Run.sum_pnl. cbn [List.filter length fold_right].
  repeat split; [lia | ring].
Qed.

(** The loop: what it returns is the accumulator followed by the trades of
    this call, and these are what the log and the aggregate grow by. *)
Lemma evaluate_strategies_effect {fmt : Formatting} (now : Z) (tick : Tick.t)
    (ticker : string) (price : Q) (todo : list Strategy.t) :
  forall (acc : list Trade.t) (self self' : ExecutionEngine.t)
         (trades : list Trade.t),
  ExecutionEngine.evaluate_strategies now tick ticker price todo acc self
  = Returned trades self' ->
  exists new,
    trades = acc ++ new
    /\ Run.same_setup self self'
    /\ Run.log_extended self self' new
    /\ (Run.same_date now self -> Run.pnl_extended self self' new).
Proof.
  induction todo as [|strategy rest IH]; intros acc self self' trades.
  - cbn. unfold ret. intros [= <- <-]. exists [].
    rewrite app_nil_r. split; [reflexivity|].
    split; [apply same_setup_refl|]. split; [apply log_extended_refl|].
    intros _. apply pnl_extended_refl.
  - cbn [ExecutionEngine.evaluate_strategies]. unfold bind, get, lift.
    destruct (Strategy.evaluate strategy ticker _) as [[sig|]|e];
      [| |discriminate].
    + destruct (ExecutionEngine._execute_signal now sig price self)
        as [otr s1|e s1] eqn:Hsig; [|discriminate].
      apply execute_signal_effect in Hsig.
      destruct Hsig as (Hs1 & Hl1 & Hp1).
      intros Hrest.
      assert (Hrest' : ExecutionEngine.evaluate_strategies now tick ticker
                         price rest (acc ++ option_list otr) s1
                       = Returned trades self').
      { destruct otr; cbn; [exact Hrest | now rewrite app_nil_r]. }
      apply IH in Hrest'. destruct Hrest' as (new & -> & Hs2 & Hl2 & Hp2).
      exists (option_list otr ++ new).
      split; [now rewrite app_assoc|].
      split; [eapply same_setup_trans; eassumption|].
      split; [eapply log_extended_trans; eassumption|].
      intros Hd. specialize (Hp1 Hd).
      eapply pnl_extended_trans; [exact Hp1|].
      apply Hp2. eapply pnl_extended_date; eassumption.
    + apply IH.
Qed.

(** One tick: a risk exit returns its single trade and touches neither the
    log nor the risk manager; otherwise the log and the aggregate grow by
    the logged trades among the returned ones. *)
Lemma process_tick_effect {fmt : Formatting} (now : Z) (tick : Tick.t)
    (self self' : ExecutionEngine.t) (trades : list Trade.t) :
  ExecutionEngine.process_tick now tick self = Returned trades self' ->
  Run.same_setup self self'
  /\ if Run.risk_exit_fires now tick self
     then (exists tr, trades = [tr])
          /\ ExecutionEngine.trade_log self' = ExecutionEngine.trade_log self
          /\ ExecutionEngine.risk self' = ExecutionEngine.risk self
     else Run.log_extended self self' trades
          /\ (Run.same_date now self -> Run.pnl_extended self self' trades).
Proof.
  rewrite process_tick_phases. cbv zeta.
  pose proof (exit_phase_frame now tick self) as Hframe.
  unfold Run.risk_exit_fires.
  assert (Hguard : bool_decide (default "" (Tick.ticker tick) = "")
                   || falsy (default 0 (Tick.price tick)) = true ->
                   Run.exit_phase now tick self = Returned None self).
  { intros H. unfold Run.exit_phase. now rewrite H. }
  destruct (bool_decide _ || falsy _).
  - rewrite (Hguard eq_refl). intros [= <- <-].
    split; [apply same_setup_refl|]. split; [apply log_extended_refl|].
    intros _. apply pnl_extended_refl.
  - clear Hguard.
    destruct (Run.exit_phase now tick self) as [[tr|] s0|e s0];
      cbn [state_of] in Hframe; cbv zeta in Hframe;
      destruct Hframe as (Hc & Hr & Hs & Hl).
    + intros [= <- <-]. unfold Run.same_setup.
      repeat split; eauto; congruence.
    + intros Hloop. apply evaluate_strategies_effect in Hloop.
      destruct Hloop as (new & -> & Hs2 & Hl2 & Hp2). cbn [app].
      unfold Run.same_setup, Run.log_extended, Run.pnl_extended,
        Run.same_date in *.
      rewrite Hc, Hr, Hs, Hl in *. auto.
    + discriminate.
Qed.

Lemma run_ticks_effect {fmt : Formatting} (ticks : list (Z * Tick.t)) :
  forall (self self' : ExecutionEngine.t)
         (signal_trades exit_trades : list Trade.t),
  Run.run_ticks ticks self = Returned (signal_trades, exit_trades) self' ->
  Run.log_extended self self' signal_trades
  /\ (Forall (fun nt => Run.same_date nt.1 self) ticks ->
      Run.pnl_extended self self' signal_trades).
Proof.
  induction ticks as [|[now tick] rest IH];
    intros self self' signal_trades exit_trades.
  - cbn. unfold ret. intros [= <- <- <-].
    split; [apply log_extended_refl | intros _; apply pnl_extended_refl].
  - cbn [Run.run_ticks]. unfold bind, get, ret.
    destruct (ExecutionEngine.process_tick now tick self)
      as [trades s1|e s1] eqn:Htick; [|discriminate].
    destruct (Run.run_ticks rest s1) as [[sig ex] s2|e s2] eqn:Hrest;
      [|discriminate].
    apply process_tick_effect in Htick. destruct Htick as [_ Htick].
    apply IH in Hrest. destruct Hrest as [Hl2 Hp2].
    destruct (Run.risk_exit_fires now tick self).
    + cbn [fst snd]. intros [= <- <- <-].
      destruct Htick as (_ & Hlog & Hrisk).
      unfold Run.log_extended, Run.pnl_extended, Run.same_date in *.
      rewrite Hlog, Hrisk in *. split; [exact Hl2|].
      intros HF. apply Hp2. now inversion HF.
    + cbn [fst snd]. intros [= <- <- <-].
      destruct Htick as (Hl1 & Hp1).
      split; [eapply log_extended_trans; eassumption|].
      intros HF. inversion HF as [|? ? Hnow HF']; subst.
      cbn [fst] in Hnow. specialize (Hp1 Hnow).
      eapply pnl_extended_trans; [exact Hp1|].
      apply Hp2. eapply Forall_impl; [exact HF'|].
      intros nt Hnt. eapply pnl_extended_date; eassumption.
Qed.

(** C10.  After any sequence of calls of [process_tick] that return, the
    trade log is the former log followed by the trades of the strategies
    that are a BUY or a SELL with a profit that is not zero, in order, and
    [get_summary] counts them; the trades of the risk exits and the SELL
    trades of the strategies with a zero profit are returned but add
    nothing to the log, and, while the date does not change, nothing to the
    daily aggregate, which counts and sums the logged trades only. *)
Theorem trade_log_holds_signal_trades {fmt : Formatting}
    (ticks : list (Z * Tick.t)) (self self' : ExecutionEngine.t)
    (signal_trades exit_trades : list Trade.t) :
  Run.run_ticks ticks self = Returned (signal_trades, exit_trades) self' ->
  let logged := List.filter Run.is_logged signal_trades in
  let daily s := RiskManager.daily_pnl (ExecutionEngine.risk s) in
  ExecutionEngine.trade_log self' = ExecutionEngine.trade_log self ++ logged
  /\ ExecutionEngine.trade_log_count (ExecutionEngine.get_summary self')
     = (ExecutionEngine.trade_log_count (ExecutionEngine.get_summary self)
        + length logged)%nat
  /\ (Forall (fun nt => date_of nt.1 = DailyPnL.date (daily self)) ticks ->
      DailyPnL.trades_today (daily self')
      = (DailyPnL.trades_today (daily self) + Z.of_nat (length logged))%Z
      /\ DailyPnL.realized_pnl (daily self')
         == DailyPnL.realized_pnl (daily self) + Run.sum_pnl logged).
Proof.
  intros Hrun logged daily.
  apply run_ticks_effect in Hrun. destruct Hrun as [Hlog Hpnl].
  unfold Run.log_extended in Hlog. fold logged in Hlog.
  split; [exact Hlog|]. split.
  - cbn [ExecutionEngine.get_summary ExecutionEngine.trade_log_count].
    rewrite Hlog. apply length_app.
  - intros HF. destruct (Hpnl HF) as (_ & Ht & Hr). split; assumption.
Qed.


(** ** Witnesses on the sample data *)

Lemma execute_buy_spec_witness :
  let self := PortfolioManager.init Samples.empty_portfolio 0.05 in
  exists trade self',
    PortfolioManager.execute_buy "dip_buy" "KRW-BTC" 50000000 100000 "Dip -7%"
      self = Returned (Some trade) self'
    /\ Trade.fee trade == 50
    /\ Trade.quantity trade == 99950 / 50000000
    /\ Portfolio.krw_balance (PortfolioManager.portfolio self') == 900000.
Proof.
  intros self.
  destruct (execute_buy_spec self "dip_buy" "KRW-BTC" 50000000 100000 "Dip -7%")
    as [Hrun Hq].
  - vm_compute. discriminate.
  - reflexivity.
  - eexists. eexists. split; [exact Hrun|].
    repeat split; vm_compute; reflexivity.
Defined.

Lemma execute_sell_spec_witness :
  let self := PortfolioManager.init Samples.portfolio_with_position 0.05 in
  exists trade self',
    PortfolioManager.execute_sell 0 "test" "KRW-BTC" 55000000 "" self
    = Returned (Some trade) self'
    /\ Trade.side trade = Side.SELL
    /\ Portfolio.total_trades (PortfolioManager.portfolio self') = 1%Z
    /\ Portfolio.winning_trades (PortfolioManager.portfolio self') = 1%Z.
Proof.
  intros self.
  destruct (execute_sell_spec self 0 "test" "KRW-BTC" 55000000 "" Samples.btc)
    as (pct & self' & Hrun & _ & _ & _ & _ & Htrades & Hwin & _).
  - reflexivity.
  - reflexivity.
  - vm_compute. intros H. discriminate H.
  - eexists. exists self'. split; [exact Hrun|].
    split; [reflexivity|]. split; [exact Htrades|].
    apply Hwin. vm_compute. reflexivity.
Defined.


Lemma trade_log_holds_signal_trades_witness :
  let self := Samples.engine Samples.app_config Samples.empty_portfolio
                [DipBuyStrategy.as_strategy (fmt := Samples.plain_format)
                   Samples.dip_buy] in
  exists buy stop self',
    Run.run_ticks (fmt := Samples.plain_format) Samples.dip_then_crash self
    = Returned ([buy], [stop]) self'
    /\ Trade.side buy = Side.BUY /\ Trade.side stop = Side.SELL
    /\ ExecutionEngine.trade_log self' = [buy].
Proof.
  intros self. eexists. eexists. eexists.
  match goal with
  | |- ?A /\ _ => assert (Hrun : A) by (vm_compute; reflexivity)
  end.
  split; [exact Hrun|]. split; [reflexivity|]. split; [reflexivity|].
  exact (proj1 (trade_log_holds_signal_trades (fmt := Samples.plain_format)
                  _ _ _ _ _ Hrun)).
Defined.


(** ** Where the code departs from the specification *)

(** The exits in their order: the first check that allows makes the sale,
    with its reason; the later checks are not consulted. *)
Lemma check_risk_exits_order {fmt : Formatting} (now : Z) (ticker : string)
    (price : Q) (self : ExecutionEngine.t) (position : Position.t)
    (sl tp ts : RiskCheck.t) :
  PortfolioManager.get_open_positions (ExecutionEngine.portfolio self) !! ticker
  = Some position ->
  RiskManager.check_stop_loss (ExecutionEngine.risk self) position price
  = Ok sl ->
  RiskManager.check_take_profit (ExecutionEngine.risk self) position price
  = Ok tp ->
  RiskManager.check_trailing_stop (ExecutionEngine.risk self) position price
  = Ok ts ->
  let sell reason :=
    ExecutionEngine.with_portfolio
      (PortfolioManager.execute_sell now (Position.strategy_name position)
         ticker price reason) self in
  ExecutionEngine._check_risk_exits now ticker price self =
  if RiskCheck.allowed sl then sell (RiskCheck.reason sl)
  else if RiskCheck.allowed tp then sell (RiskCheck.reason tp)
  else if RiskCheck.allowed ts then sell (RiskCheck.reason ts)
  else Returned None self.
Proof.
  intros Hpos Hsl Htp Hts sell.
  unfold ExecutionEngine._check_risk_exits, bind, get, lift, ret.
  rewrite Hpos, Hsl.
  destruct (RiskCheck.allowed sl); [reflexivity|].
  rewrite Htp. destruct (RiskCheck.allowed tp); [reflexivity|].
  rewrite Hts. destruct (RiskCheck.allowed ts); reflexivity.
Qed.

(** C4.  The code at a stop-loss tick: the position bought at 50,000,000
    is sold at 47,000,000 by the risk exit and the tick returns that one
    trade, with a loss; yet the daily aggregate of the risk manager still
    shows no realized amount and no trade, and the log is empty.
    [_check_risk_exits] never calls [record_trade_pnl], which
    [_execute_signal] does for the same sale when a strategy asks for it. *)
Theorem risk_exit_skips_daily_pnl :
  let self := Samples.engine Samples.app_config
                Samples.portfolio_with_position [] in
  exists tr self',
    ExecutionEngine.process_tick (fmt := Samples.plain_format) 0
      (Samples.tick "KRW-BTC" 47000000 []) self = Returned [tr] self'
    /\ Trade.side tr = Side.SELL
    /\ Trade.reason tr = "Stop-loss triggered: % <= %"
    /\ (exists loss, Trade.profit tr = Some loss /\ loss < 0)
    /\ RiskManager.daily_pnl (ExecutionEngine.risk self') = DailyPnL.mk 0 0 0
    /\ ExecutionEngine.trade_log self' = [].
Proof.
  cbv zeta. eexists. eexists.
  split; [vm_compute; reflexivity|].
  split; [reflexivity|]. split; [reflexivity|].
  split; [eexists; split; [reflexivity | vm_compute; reflexivity]|].
  split; reflexivity.
Qed.

(** The same sale asked for by a strategy is recorded: the sibling path. *)
Example signal_sell_is_recorded :
  let self := Samples.engine Samples.app_config
                Samples.portfolio_with_position [Samples.seller] in
  exists tr self',
    ExecutionEngine.process_tick (fmt := Samples.plain_format) 0
      (Samples.tick "KRW-BTC" 49000000 []) self = Returned [tr] self'
    /\ Trade.reason tr = "Test sell"
    /\ (exists loss, Trade.profit tr = Some loss /\ loss < 0
          /\ DailyPnL.realized_pnl
               (RiskManager.daily_pnl (ExecutionEngine.risk self')) = 0 + loss)
    /\ DailyPnL.trades_today
         (RiskManager.daily_pnl (ExecutionEngine.risk self')) = 1%Z
    /\ ExecutionEngine.trade_log self' = [tr].
Proof.
  cbv zeta. eexists. eexists.
  split; [vm_compute; reflexivity|].
  split; [reflexivity|].
  split; [eexists; split; [reflexivity | split; [vm_compute; reflexivity|reflexivity]]|].
  split; reflexivity.
Qed.

(** A SELL of a strategy with a profit of exactly zero (no fee, sold at
    the entry price) is returned and neither logged nor recorded. *)
Example zero_profit_sell_not_logged :
  let self := Samples.engine Samples.no_fee_config
                Samples.portfolio_with_position [Samples.seller] in
  exists tr self',
    ExecutionEngine.process_tick (fmt := Samples.plain_format) 0
      (Samples.tick "KRW-BTC" 50000000 []) self = Returned [tr] self'
    /\ (exists p, Trade.profit tr = Some p /\ p == 0)
    /\ ExecutionEngine.trade_log self' = []
    /\ RiskManager.daily_pnl (ExecutionEngine.risk self') = DailyPnL.mk 0 0 0.
Proof.
  cbv zeta. eexists. eexists.
  split; [vm_compute; reflexivity|].
  split; [eexists; split; [reflexivity | vm_compute; reflexivity]|].
  split; reflexivity.
Qed.

(** The six rules of [check_buy] in their order, with the fixed amount of
    1,000,000 that the code divides by in the rules on the daily loss and
    on the drawdown. *)
Lemma check_buy_precedence {fmt : Formatting} (now : Z) (signal : Signal.t)
    (portfolio : Portfolio.t) (buy_amount : Q) (self : RiskManager.t) :
  let self0 := state_of (RiskManager._reset_daily_if_needed now self) in
  let cfg := RiskManager.config self in
  let is_buy := Signal.signal_type signal = SignalType.BUY in
  let room :=
    (RiskManager.open_count portfolio < RiskConfig.max_positions cfg)%Z in
  let funded := buy_amount <= Portfolio.krw_balance portfolio in
  let daily_loss_pct :=
    DailyPnL.realized_pnl (RiskManager.daily_pnl self0) / 1000000 * 100 in
  let daily_ok := RiskConfig.max_daily_loss_pct cfg < daily_loss_pct in
  let return_pct := Portfolio.total_profit portfolio / 1000000 * 100 in
  let drawdown_hit :=
    (0 < Portfolio.total_trades portfolio)%Z
    /\ return_pct <= RiskConfig.max_drawdown_pct cfg in
  let held :=
    exists pos, Portfolio.positions portfolio !! Signal.ticker signal = Some pos
                /\ Position.status pos = PositionStatus.OPEN in
  exists c,
    RiskManager.check_buy now signal portfolio buy_amount self = Returned c self0
    /\ (~ is_buy -> c = RiskCheck.mk false "Not a BUY signal")
    /\ (is_buy -> ~ room ->
        c = RiskCheck.mk false
              ("Max positions reached (" +:+
               str_int (RiskConfig.max_positions cfg) +:+ ")"))
    /\ (is_buy -> room -> ~ funded ->
        c = RiskCheck.mk false
              ("Insufficient balance: " +:+
               str_decimal (Portfolio.krw_balance portfolio) +:+ " < " +:+
               str_decimal buy_amount))
    /\ (is_buy -> room -> funded -> ~ daily_ok ->
        c = RiskCheck.mk false
              ("Daily loss limit hit: " +:+ fmt_2f daily_loss_pct +:+ "%"))
    /\ (is_buy -> room -> funded -> daily_ok -> drawdown_hit ->
        c = RiskCheck.mk false
              ("Max drawdown hit: " +:+ fmt_2f return_pct +:+ "%"))
    /\ (is_buy -> room -> funded -> daily_ok -> ~ drawdown_hit -> held ->
        c = RiskCheck.mk false
              ("Already have open position in " +:+ Signal.ticker signal))
    /\ (is_buy -> room -> funded -> daily_ok -> ~ drawdown_hit -> ~ held ->
        c = RiskCheck.mk true "").
Proof.
  intros self0 cfg is_buy room funded daily_loss_pct daily_ok return_pct
    drawdown_hit held.
  unfold RiskManager.check_buy, bind. rewrite reset_returns. fold self0.
  unfold get, ret.
  assert (Hcfg : RiskManager.config self0 = cfg) by apply reset_config.
  rewrite Hcfg.
  replace (falsy 1000000) with false by reflexivity.
  fold daily_loss_pct return_pct.
  destruct (bool_decide (Signal.signal_type signal = SignalType.BUY)) eqn:E1;
    cbn [negb].
  2:{ apply bool_decide_eq_false in E1. fold is_buy in E1.
      eexists. split; [reflexivity|].
      repeat split; intros; try reflexivity; contradiction. }
  apply bool_decide_eq_true in E1. fold is_buy in E1.
  destruct (RiskConfig.max_positions cfg <=? RiskManager.open_count portfolio)%Z
    eqn:E2.
  { apply Z.leb_le in E2. assert (Hn : ~ room) by (unfold room; lia).
    eexists. split; [reflexivity|].
    repeat split; intros; try reflexivity; contradiction. }
  apply Z.leb_gt in E2. fold room in E2.
  destruct (Qltb (Portfolio.krw_balance portfolio) buy_amount) eqn:E3.
  { apply Qltb_lt in E3. assert (Hn : ~ funded) by (unfold funded; lra).
    eexists. split; [reflexivity|].
    repeat split; intros; try reflexivity; contradiction. }
  apply Qltb_ge in E3. fold funded in E3.
  destruct (Qle_bool daily_loss_pct (RiskConfig.max_daily_loss_pct cfg)) eqn:E4.
  { apply Qle_bool_iff in E4. assert (Hn : ~ daily_ok) by (unfold daily_ok; lra).
    eexists. split; [reflexivity|].
    repeat split; intros; try reflexivity; contradiction. }
  apply Qle_bool_gt in E4. fold daily_ok in E4.
  destruct ((0 <? Portfolio.total_trades portfolio)%Z
            && Qle_bool return_pct (RiskConfig.max_drawdown_pct cfg)) eqn:E5.
  { apply andb_true_iff in E5. destruct E5 as [E5 E5'].
    apply Z.ltb_lt in E5. apply Qle_bool_iff in E5'.
    assert (Hhit : drawdown_hit) by (split; assumption).
    eexists. split; [reflexivity|].
    repeat split; intros; try reflexivity; contradiction. }
  assert (Hdd : ~ drawdown_hit).
  { intros [H1 H2]. apply Z.ltb_lt in H1. apply Qle_bool_iff in H2.
    rewrite H1, H2 in E5. discriminate. }
  destruct (Portfolio.positions portfolio !! Signal.ticker signal) as [pos|] eqn:E6.
  - destruct (Position.is_open pos) eqn:E7.
    + apply is_open_true in E7.
      assert (Hheld : held) by (exists pos; auto).
      eexists. split; [reflexivity|].
      repeat split; intros; try reflexivity; contradiction.
    + assert (Hn : ~ held).
      { intros (pos' & Hp & Ho). injection Hp as ->.
        apply is_open_true in Ho. congruence. }
      eexists. split; [reflexivity|].
      repeat split; intros; try reflexivity; contradiction.
  - assert (Hn : ~ held) by (intros (pos' & Hp & Ho); discriminate).
    eexists. split; [reflexivity|].
    repeat split; intros; try reflexivity; contradiction.
Qed.

(** C5.  The code on an account configured with an initial balance of
    10,000,000 after a realized loss of 30,000: measured against the
    configured balance the daily loss is 0.3 percent, above the limit of
    -3 percent, and no other rule fails; [check_buy] rejects the buy all the
    same, with the reason of the daily loss limit, because it divides by
    1,000,000 whatever the configuration says, and the engine places no
    order. *)
Theorem check_buy_ignores_configured_balance :
  let config := Samples.big_config in
  let initial_balance :=
    inject_Z (TradingConfig.initial_krw (AppConfig.trading config)) in
  let realized := DailyPnL.realized_pnl
                    (RiskManager.daily_pnl Samples.risk_after_loss) in
  let self := ExecutionEngine.mk config
                (PortfolioManager.init Samples.portfolio_after_loss 0.05)
                Samples.risk_after_loss [] [] in
  RiskConfig.max_daily_loss_pct (AppConfig.risk config)
    < realized / initial_balance * 100
  /\ RiskManager.check_buy (fmt := Samples.plain_format) 0 Samples.buy_signal
       Samples.portfolio_after_loss 100000 Samples.risk_after_loss
     = Returned (RiskCheck.mk false "Daily loss limit hit: %")
                Samples.risk_after_loss
  /\ ExecutionEngine._execute_signal (fmt := Samples.plain_format) 0
       Samples.buy_signal 50000000 self = Returned None self.
Proof.
  cbv zeta. split; [vm_compute; reflexivity|].
  split; vm_compute; reflexivity.
Qed.

(** With the default balance of 1,000,000 configured the same loss is 3
    percent of it, and the rejection agrees with the specification. *)
Example check_buy_default_balance :
  let initial_balance :=
    inject_Z (TradingConfig.initial_krw
                (AppConfig.trading Samples.app_config)) in
  -30000 / initial_balance * 100 <= -3.
Proof. vm_compute. discriminate. Qed.


(** * Further properties of the code *)

(** ** Portfolio manager: edge cases and round trips *)

Lemma execute_buy_outcome (strategy_name ticker : string) (price krw_amount : Q)
    (reason : string) (self : PortfolioManager.t) :
  let p := PortfolioManager.portfolio self in
  let rate := PortfolioManager.fee_rate self in
  let quantity := (krw_amount - krw_amount * rate) / price in
  let o := PortfolioManager.execute_buy strategy_name ticker price krw_amount
             reason self in
  (Portfolio.krw_balance p < krw_amount /\ o = Returned None self)
  \/ (krw_amount <= Portfolio.krw_balance p /\ price == 0
      /\ o = Raised ArithmeticError self)
  \/ (krw_amount <= Portfolio.krw_balance p /\ ~ price == 0
      /\ o = Returned
               (Some (Trade.mk strategy_name ticker Side.BUY price quantity
                               krw_amount (krw_amount * rate) reason None None))
               (PortfolioManager.mk
                  (Portfolio.mk
                     (Portfolio.krw_balance p - krw_amount)
                     (<[ticker := Position.create strategy_name ticker price
                                    quantity (Some price)]>
                        (Portfolio.positions p))
                     (Portfolio.total_trades p) (Portfolio.winning_trades p)
                     (Portfolio.total_profit p))
                  rate)).
Proof.
  intros p rate quantity o. subst o.
  unfold PortfolioManager.execute_buy. mrun. fold p rate.
  destruct (Qltb (Portfolio.krw_balance p) krw_amount) eqn:E.
  - left. apply Qltb_lt in E. auto.
  - right. apply Qltb_ge in E. unfold pdiv.
    destruct (falsy price) eqn:Ep.
    + left. apply falsy_true in Ep. auto.
    + right. apply falsy_false in Ep. auto.
Qed.

Lemma execute_sell_outcome (now : Z) (strategy_name ticker : string)
    (price : Q) (reason : string) (self : PortfolioManager.t) :
  let p := PortfolioManager.portfolio self in
  let rate := PortfolioManager.fee_rate self in
  let o := PortfolioManager.execute_sell now strategy_name ticker price reason
             self in
  ((Portfolio.positions p !! ticker = None
    \/ exists pos, Portfolio.positions p !! ticker = Some pos
                   /\ Position.status pos = PositionStatus.CLOSED)
   /\ o = Returned None self)
  \/ (exists pos, Portfolio.positions p !! ticker = Some pos
        /\ Position.status pos = PositionStatus.OPEN
        /\ ((rate == 1 /\ o = Raised ArithmeticError self)
            \/ (~ rate == 1 /\
                let q := Position.quantity pos in
                let net := q * price - q * price * rate in
                let cost := q * Position.entry_price pos
                            + q * Position.entry_price pos * rate / (1 - rate) in
                let profit := net - cost in
                let pct := if Qltb 0 cost then profit / cost * 100 else 0 in
                o = Returned
                      (Some (Trade.mk strategy_name ticker Side.SELL price q net
                               (q * price * rate) reason (Some profit) (Some pct)))
                      (PortfolioManager.mk
                         (Portfolio.mk
                            (Portfolio.krw_balance p + net)
                            (<[ticker := Position.close price now profit pct pos]>
                               (Portfolio.positions p))
                            (Portfolio.total_trades p + 1)%Z
                            (if Qltb 0 profit
                             then (Portfolio.winning_trades p + 1)%Z
                             else Portfolio.winning_trades p)
                            (Portfolio.total_profit p + profit))
                         rate)))).
Proof.
  intros p rate o. subst o.
  unfold PortfolioManager.execute_sell. mrun. fold p rate.
  destruct (Portfolio.positions p !! ticker) as [pos|] eqn:Hpos; [|left; auto].
  destruct (Position.is_open pos) eqn:Hopen; cbn [negb].
  - right. exists pos. apply is_open_true in Hopen.
    split; [reflexivity|]. split; [exact Hopen|].
    unfold pdiv. destruct (falsy (1 - rate)) eqn:E.
    + left. apply falsy_true in E. split; [lra | reflexivity].
    + right. apply falsy_false in E. split; [lra|]. cbv zeta.
      destruct (Qltb 0 _) eqn:Ew; reflexivity.
  - left. split; [|reflexivity]. right. exists pos. split; [reflexivity|].
    destruct (Position.status pos) eqn:Hs; [|reflexivity].
    apply is_open_true in Hs. congruence.
Qed.

(** X1.  [update_highest_price] only ever raises the recorded high of the
    position of its ticker: every position stays under its key with the
    same fields apart from the high, a recorded high never decreases, a
    position of another ticker or a CLOSED position is not touched at all,
    no key appears, and balance, counters and fee rate stay. *)
Theorem update_highest_price_monotone (self : PortfolioManager.t)
    (ticker : string) (price : Q) :
  let self' :=
    state_of (PortfolioManager.update_highest_price ticker price self) in
  let p := PortfolioManager.portfolio self in
  let p' := PortfolioManager.portfolio self' in
  PortfolioManager.update_highest_price ticker price self = Returned tt self'
  /\ PortfolioManager.fee_rate self' = PortfolioManager.fee_rate self
  /\ Portfolio.krw_balance p' = Portfolio.krw_balance p
  /\ Portfolio.total_trades p' = Portfolio.total_trades p
  /\ Portfolio.winning_trades p' = Portfolio.winning_trades p
  /\ Portfolio.total_profit p' = Portfolio.total_profit p
  /\ (forall t, Portfolio.positions p !! t = None ->
                Portfolio.positions p' !! t = None)
  /\ (forall t pos, Portfolio.positions p !! t = Some pos ->
        exists pos',
          Portfolio.positions p' !! t = Some pos'
          /\ pos' = Position.mk (Position.strategy_name pos) (Position.ticker pos)
                      (Position.status pos) (Position.entry_price pos)
                      (Position.quantity pos) (Position.highest_price pos')
                      (Position.exit_price pos) (Position.exit_time pos)
                      (Position.profit pos) (Position.profit_pct pos)
          /\ (forall h, Position.highest_price pos = Some h ->
                exists h', Position.highest_price pos' = Some h' /\ h <= h')
          /\ (t <> ticker \/ Position.status pos = PositionStatus.CLOSED ->
              pos' = pos)).
Proof.
  cbv zeta. unfold PortfolioManager.update_highest_price. mrun.
  destruct self as [p rate]. cbn [PortfolioManager.portfolio PortfolioManager.fee_rate].
  assert (Hid : forall t pos, Portfolio.positions p !! t = Some pos ->
            exists pos',
              Portfolio.positions p !! t = Some pos'
              /\ pos' = Position.mk (Position.strategy_name pos)
                          (Position.ticker pos) (Position.status pos)
                          (Position.entry_price pos) (Position.quantity pos)
                          (Position.highest_price pos') (Position.exit_price pos)
                          (Position.exit_time pos) (Position.profit pos)
                          (Position.profit_pct pos)
              /\ (forall h, Position.highest_price pos = Some h ->
                    exists h', Position.highest_price pos' = Some h' /\ h <= h')
              /\ (t <> ticker \/ Position.status pos = PositionStatus.CLOSED ->
                  pos' = pos)).
  { intros t pos Hpos. exists pos. split; [exact Hpos|].
    split; [now destruct pos|]. split; [|reflexivity].
    intros h Hh. exists h. split; [exact Hh | lra]. }
  destruct (Portfolio.positions p !! ticker) as [pos0|] eqn:Hpos0;
    [|cbn; repeat split; auto].
  destruct (Position.is_open pos0 && _) eqn:Hcond;
    [|cbn; repeat split; auto].
  apply andb_true_iff in Hcond. destruct Hcond as [Hopen Hhigher].
  apply is_open_true in Hopen.
  cbn. repeat split.
  - intros t Ht. rewrite lookup_insert_ne; [exact Ht | congruence].
  - intros t pos Hpos. destruct (decide (t = ticker)) as [->|Hne].
    + rewrite lookup_insert_eq. eexists. split; [reflexivity|].
      rewrite Hpos in Hpos0. injection Hpos0 as ->.
      split; [reflexivity|]. split.
      * intros h Hh. exists price. split; [reflexivity|].
        rewrite Hh in Hhigher. apply Qltb_lt in Hhigher. lra.
      * intros [Hc|Hc]; congruence.
    + rewrite lookup_insert_ne by congruence. apply Hid. exact Hpos.
Qed.

(** X2.  [execute_sell] without an OPEN position on the ticker returns
    nothing and changes nothing; in particular a position cannot be sold
    twice: after a sale that succeeded, any further sale of the same ticker
    returns nothing and leaves the manager as the first sale left it. *)
Theorem execute_sell_only_once (self : PortfolioManager.t) (now : Z)
    (strategy_name ticker : string) (price : Q) (reason : string) :
  ((forall pos,
      Portfolio.positions (PortfolioManager.portfolio self) !! ticker = Some pos ->
      Position.status pos = PositionStatus.CLOSED) ->
   PortfolioManager.execute_sell now strategy_name ticker price reason self
   = Returned None self)
  /\ (forall tr self',
        PortfolioManager.execute_sell now strategy_name ticker price reason self
        = Returned (Some tr) self' ->
        forall now2 strategy_name2 price2 reason2,
          PortfolioManager.execute_sell now2 strategy_name2 ticker price2
            reason2 self' = Returned None self').
Proof.
  split.
  - intros Hclosed.
    destruct (execute_sell_outcome now strategy_name ticker price reason self)
      as [[_ H]|(pos & Hpos & Hopen & _)]; [exact H|].
    apply Hclosed in Hpos. congruence.
  - intros tr self' Hsell now2 sn2 price2 reason2.
    destruct (execute_sell_outcome now strategy_name ticker price reason self)
      as [[_ H]|(pos & Hpos & Hopen & [[_ H]|[_ H]])]; cbv zeta in H;
      rewrite H in Hsell; try discriminate.
    injection Hsell as _ Hself'.
    destruct (execute_sell_outcome now2 sn2 ticker price2 reason2 self')
      as [[_ H2]|(pos2 & Hpos2 & Hopen2 & _)]; [exact H2|].
    rewrite <- Hself' in Hpos2. cbn in Hpos2.
    rewrite lookup_insert_eq in Hpos2.
    injection Hpos2 as <-. discriminate Hopen2.
Qed.

(** X3.  A purchase followed by the sale of the same ticker: the cost
    basis of the sale is the full amount paid, so the profit is the net
    proceeds minus that amount and the balance ends at the initial balance
    plus the profit; sold at the purchase price, with a fee rate strictly
    between 0 and 1 and a positive amount, the round trip loses money. *)
Theorem buy_then_sell_round_trip (self : PortfolioManager.t) (now : Z)
    (buyer seller ticker reason reason2 : string) (price price2 krw_amount : Q) :
  let rate := PortfolioManager.fee_rate self in
  let balance s := Portfolio.krw_balance (PortfolioManager.portfolio s) in
  krw_amount <= balance self -> ~ price == 0 -> ~ rate == 1 ->
  exists buy self1 sell self2 profit,
    PortfolioManager.execute_buy buyer ticker price krw_amount reason self
    = Returned (Some buy) self1
    /\ PortfolioManager.execute_sell now seller ticker price2 reason2 self1
       = Returned (Some sell) self2
    /\ Trade.quantity sell = Trade.quantity buy
    /\ Trade.profit sell = Some profit
    /\ profit == Trade.total_krw sell - krw_amount
    /\ balance self2 == balance self + profit
    /\ (price2 == price -> 0 < krw_amount -> 0 < rate -> rate < 1 ->
        profit < 0).
Proof.
  intros rate balance Hfund Hprice Hrate.
  destruct (execute_buy_outcome buyer ticker price krw_amount reason self)
    as [[H _]|[(_ & H & _)|(_ & _ & Hbuy)]];
    [unfold balance in Hfund; lra | contradiction |].
  cbv zeta in Hbuy. fold rate in Hbuy.
  match type of Hbuy with
  | _ = Returned (Some ?b) ?s1 =>
    exists b, s1;
    destruct (execute_sell_outcome now seller ticker price2 reason2 s1)
      as [[[H|(pos & H & Hc)] _]|(pos & Hpos & _ & [[H _]|[_ Hsell]])]
  end.
  - cbn [PortfolioManager.portfolio Portfolio.positions] in H.
    rewrite lookup_insert_eq in H. discriminate.
  - cbn [PortfolioManager.portfolio Portfolio.positions] in H.
    rewrite lookup_insert_eq in H. injection H as <-. discriminate.
  - cbn [PortfolioManager.fee_rate] in H. contradiction.
  - cbn [PortfolioManager.portfolio Portfolio.positions] in Hpos.
    rewrite lookup_insert_eq in Hpos. injection Hpos as <-.
    cbv zeta in Hsell.
    cbn [PortfolioManager.portfolio PortfolioManager.fee_rate
         Portfolio.krw_balance Portfolio.positions Portfolio.total_trades
         Portfolio.winning_trades Portfolio.total_profit Position.create
         Position.quantity Position.entry_price] in Hsell.
    eexists. eexists. eexists.
    split; [exact Hbuy|]. split; [exact Hsell|].
    cbn [Trade.quantity Trade.profit Trade.total_krw].
    split; [reflexivity|]. split; [reflexivity|].
    assert (Hcost :
      (krw_amount - krw_amount * rate) / price * price
      + (krw_amount - krw_amount * rate) / price * price * rate / (1 - rate)
      == krw_amount) by (field; split; lra).
    split; [rewrite Hcost; ring|].
    split.
    + unfold balance.
      cbn [PortfolioManager.portfolio Portfolio.krw_balance].
      rewrite Hcost. ring.
    + intros Hsame Hamt Hr0 Hr1. rewrite Hcost, Hsame.
      assert (Hnet : (krw_amount - krw_amount * rate) / price * price
                     - (krw_amount - krw_amount * rate) / price * price * rate
                     == krw_amount * (1 - rate) * (1 - rate))
        by (field; lra).
      rewrite Hnet.
      assert (0 < krw_amount * rate * (2 - rate)).
      { apply Qmult_lt_0_compat; [apply Qmult_lt_0_compat; lra | lra]. }
      lra.
Qed.

Lemma buy_then_sell_round_trip_witness :
  let self := PortfolioManager.init Samples.empty_portfolio 0.05 in
  exists buy self1 sell self2 profit,
    PortfolioManager.execute_buy "s" "KRW-BTC" 50000000 100000 "" self
    = Returned (Some buy) self1
    /\ PortfolioManager.execute_sell 0 "s" "KRW-BTC" 50000000 "" self1
       = Returned (Some sell) self2
    /\ Trade.profit sell = Some profit
    /\ profit < 0.
Proof.
  intros self.
  destruct (buy_then_sell_round_trip self 0 "s" "s" "KRW-BTC" "" ""
              50000000 50000000 100000)
    as (buy & self1 & sell & self2 & profit & Hb & Hs & _ & Hp & _ & _ & Hloss).
  - vm_compute. discriminate.
  - vm_compute. intros H. discriminate H.
  - vm_compute. intros H. discriminate H.
  - exists buy, self1, sell, self2, profit.
    split; [exact Hb|]. split; [exact Hs|]. split; [exact Hp|].
    apply Hloss; vm_compute; reflexivity.
Defined.

Lemma execute_sell_only_once_witness :
  let self := PortfolioManager.init Samples.empty_portfolio 0.05 in
  PortfolioManager.execute_sell 0 "s" "KRW-BTC" 50000000 "" self
  = Returned None self.
Proof.
  intros self.
  apply (proj1 (execute_sell_only_once self 0 "s" "KRW-BTC" 50000000 "")).
  intros pos Hpos. vm_compute in Hpos. discriminate Hpos.
Defined.

(** ** Risk manager: the daily aggregate across dates *)

Lemma reset_new_date (now : Z) (self : RiskManager.t) :
  date_of now <> DailyPnL.date (RiskManager.daily_pnl self) ->
  state_of (RiskManager._reset_daily_if_needed now self)
  = RiskManager.init now (RiskManager.config self).
Proof.
  intros H. unfold RiskManager._reset_daily_if_needed, modify. cbn [state_of].
  rewrite bool_decide_eq_false_2 by congruence. reflexivity.
Qed.

(** X4.  [record_trade_pnl] never fails and leaves the aggregate dated
    today: on the stored date it adds the amount and counts one more trade,
    on any other date it starts again from that single amount and a count
    of one, whatever had been accumulated. *)
Theorem record_trade_pnl_rollover (now : Z) (pnl : Q) (self : RiskManager.t) :
  exists self',
    RiskManager.record_trade_pnl now pnl self = Returned tt self'
    /\ RiskManager.config self' = RiskManager.config self
    /\ DailyPnL.date (RiskManager.daily_pnl self') = date_of now
    /\ (date_of now = DailyPnL.date (RiskManager.daily_pnl self) ->
        DailyPnL.realized_pnl (RiskManager.daily_pnl self')
        = DailyPnL.realized_pnl (RiskManager.daily_pnl self) + pnl
        /\ DailyPnL.trades_today (RiskManager.daily_pnl self')
           = (DailyPnL.trades_today (RiskManager.daily_pnl self) + 1)%Z)
    /\ (date_of now <> DailyPnL.date (RiskManager.daily_pnl self) ->
        DailyPnL.realized_pnl (RiskManager.daily_pnl self') = 0 + pnl
        /\ DailyPnL.trades_today (RiskManager.daily_pnl self') = 1%Z).
Proof.
  eexists. split; [apply record_trade_pnl_returns|]. cbv zeta.
  cbn [RiskManager.config RiskManager.daily_pnl DailyPnL.date
       DailyPnL.realized_pnl DailyPnL.trades_today].
  split; [apply reset_config|].
  destruct (decide (date_of now = DailyPnL.date (RiskManager.daily_pnl self)))
    as [Hsame|Hnew].
  - rewrite (reset_state_same_date _ _ Hsame).
    repeat split; auto; intros; contradiction.
  - rewrite (reset_new_date _ _ Hnew). cbn.
    repeat split; auto; intros; contradiction.
Qed.

(** X5.  On a date other than the stored one [check_buy] decides as a
    fresh risk manager would and leaves a fresh aggregate: the losses
    recorded on the earlier date no longer count against the daily limit. *)
Theorem check_buy_forgets_yesterday {fmt : Formatting} (now : Z)
    (signal : Signal.t) (portfolio : Portfolio.t) (buy_amount : Q)
    (self : RiskManager.t) :
  date_of now <> DailyPnL.date (RiskManager.daily_pnl self) ->
  RiskManager.check_buy now signal portfolio buy_amount self
  = RiskManager.check_buy now signal portfolio buy_amount
      (RiskManager.init now (RiskManager.config self)).
Proof.
  intros Hnew. unfold RiskManager.check_buy, bind.
  rewrite (reset_returns now self), (reset_new_date _ _ Hnew).
  rewrite (reset_returns now (RiskManager.init now _)).
  rewrite reset_state_same_date by reflexivity. reflexivity.
Qed.

Lemma check_buy_forgets_yesterday_witness :
  exists c self',
    RiskManager.check_buy (fmt := Samples.plain_format) 86400
      Samples.buy_signal Samples.portfolio_after_loss 100000
      Samples.risk_after_loss = Returned c self'
    /\ RiskCheck.allowed c = true
    /\ RiskManager.daily_pnl self' = DailyPnL.mk 1 0 0.
Proof.
  rewrite (check_buy_forgets_yesterday (fmt := Samples.plain_format) 86400
             Samples.buy_signal Samples.portfolio_after_loss 100000
             Samples.risk_after_loss).
  - eexists. eexists. split; [vm_compute; reflexivity|]. split; reflexivity.
  - vm_compute. discriminate.
Defined.

(** ** The steps of a tick and what they keep *)

Lemma open_lookup (m : gmap string Position.t) (k : string) :
  Portfolio.open_positions (Portfolio.mk 0 m 0 0 0) !! k
  = match m !! k with
    | Some pos => if Position.is_open pos then Some pos else None
    | None => None
    end.
Proof.
  unfold Portfolio.open_positions. cbn [Portfolio.positions].
  destruct (m !! k) as [pos|] eqn:Hk.
  - destruct (Position.is_open pos) eqn:Ho.
    + apply map_lookup_filter_Some. split; [exact Hk|].
      now apply is_open_true.
    + apply map_lookup_filter_None. right. intros pos' Hk' Hp. cbn in Hp.
      rewrite Hk in Hk'. injection Hk' as <-.
      apply is_open_true in Hp. congruence.
  - apply map_lookup_filter_None. left. exact Hk.
Qed.

Lemma open_size_insert (m : gmap string Position.t) (k : string)
    (v : Position.t) :
  (size (filter (fun kp : string * Position.t =>
                   Position.status kp.2 = PositionStatus.OPEN) (<[k:=v]> m))
   + (if Steps.open_at m k then 1 else 0)
   = size (filter (fun kp : string * Position.t =>
                     Position.status kp.2 = PositionStatus.OPEN) m)
     + (if Position.is_open v then 1 else 0))%nat.
Proof.
  set (P := fun kp : string * Position.t =>
              Position.status kp.2 = PositionStatus.OPEN).
  assert (Hk : filter P m !! k
               = match m !! k with
                 | Some pos => if Position.is_open pos then Some pos else None
                 | None => None
                 end) by apply (open_lookup m k).
  rewrite map_filter_insert. unfold Steps.open_at.
  destruct (Position.is_open v) eqn:Hv.
  - apply is_open_true in Hv. rewrite decide_True by exact Hv.
    rewrite map_size_insert, Hk.
    destruct (m !! k) as [pos|]; [destruct (Position.is_open pos)|];
      cbn; lia.
  - rewrite decide_False.
    2:{ intros Hp. apply is_open_true in Hp. cbn in Hp. congruence. }
    rewrite map_filter_delete, map_size_delete, Hk.
    destruct (m !! k) as [pos|] eqn:Hmk.
    + destruct (Position.is_open pos) eqn:Ho; cbn; [|lia].
      assert (size (filter P m) <> 0%nat).
      { intros Hz. apply map_size_empty_iff in Hz.
        rewrite Hz in Hk. rewrite lookup_empty in Hk. discriminate. }
      lia.
    + cbn. lia.
Qed.

Lemma update_highest_price_outcome (ticker : string) (price : Q)
    (self : PortfolioManager.t) :
  let p := PortfolioManager.portfolio self in
  let self' :=
    state_of (PortfolioManager.update_highest_price ticker price self) in
  self' = self
  \/ exists pos,
       Portfolio.positions p !! ticker = Some pos
       /\ Position.status pos = PositionStatus.OPEN
       /\ self' = PortfolioManager.mk
                    (Portfolio.set_positions
                       (<[ticker := Position.set_highest_price price pos]>
                          (Portfolio.positions p)) p)
                    (PortfolioManager.fee_rate self).
Proof.
  cbv zeta. unfold PortfolioManager.update_highest_price. mrun.
  destruct (_ !! ticker) as [pos|] eqn:Hpos; [|left; reflexivity].
  destruct (Position.is_open pos && _) eqn:Hc; [|left; reflexivity].
  right. exists pos. apply andb_true_iff in Hc. destruct Hc as [Ho _].
  apply is_open_true in Ho. auto.
Qed.

Section StepFacts.
Variables (max_positions : Z) (amount price : Q).

Lemma step_fee_rate (pm pm' : PortfolioManager.t) (otr : option Trade.t) :
  Steps.step max_positions amount price pm otr pm' ->
  PortfolioManager.fee_rate pm' = PortfolioManager.fee_rate pm.
Proof.
  intros [ticker pm0 | now sn ticker reason pm0 pm1 tr Hsell
          | sn ticker reason pm0 pm1 tr _ _ Hbuy].
  - destruct (update_highest_price_outcome ticker price pm0)
      as [->|(pos & _ & _ & ->)]; reflexivity.
  - destruct (execute_sell_outcome now sn ticker price reason pm0)
      as [[_ H]|(pos & _ & _ & [[_ H]|[_ H]])]; cbv zeta in H;
      rewrite H in Hsell; try discriminate.
    now injection Hsell as _ <-.
  - destruct (execute_buy_outcome sn ticker price amount reason pm0)
      as [[_ H]|[(_ & _ & H)|(_ & _ & H)]]; cbv zeta in H;
      rewrite H in Hbuy; try discriminate.
    now injection Hbuy as _ <-.
Qed.

Lemma step_open_count (pm pm' : PortfolioManager.t) (otr : option Trade.t) :
  Steps.step max_positions amount price pm otr pm' ->
  (RiskManager.open_count (PortfolioManager.portfolio pm) <= max_positions)%Z ->
  (RiskManager.open_count (PortfolioManager.portfolio pm') <= max_positions)%Z.
Proof.
  unfold RiskManager.open_count, Portfolio.open_positions.
  intros [ticker pm0 | now sn ticker reason pm0 pm1 tr Hsell
          | sn ticker reason pm0 pm1 tr Hroom Hfree Hbuy] Hinv.
  - destruct (update_highest_price_outcome ticker price pm0)
      as [->|(pos & Hpos & Hopen & ->)]; [exact Hinv|].
    cbn [PortfolioManager.portfolio Portfolio.set_positions Portfolio.positions].
    pose proof (open_size_insert
                  (Portfolio.positions (PortfolioManager.portfolio pm0)) ticker
                  (Position.set_highest_price price pos)) as H.
    unfold Steps.open_at in H. rewrite Hpos in H.
    apply is_open_true in Hopen. rewrite Hopen in H.
    replace (Position.is_open (Position.set_highest_price price pos))
      with true in H by (symmetry; apply is_open_true; cbn; now apply is_open_true).
    lia.
  - destruct (execute_sell_outcome now sn ticker price reason pm0)
      as [[_ H]|(pos & Hpos & Hopen & [[_ H]|[_ H]])]; cbv zeta in H;
      rewrite H in Hsell; try discriminate.
    injection Hsell as _ <-. clear H.
    cbn [PortfolioManager.portfolio Portfolio.positions].
    match goal with
    | |- context [<[ticker := ?v]> _] =>
      pose proof (open_size_insert
                    (Portfolio.positions (PortfolioManager.portfolio pm0))
                    ticker v) as H1
    end.
    unfold Steps.open_at in H1. rewrite Hpos in H1.
    apply is_open_true in Hopen. rewrite Hopen in H1.
    replace (Position.is_open (Position.close _ _ _ _ pos)) with false in H1
      by reflexivity.
    lia.
  - unfold RiskManager.open_count, Portfolio.open_positions in Hroom.
    destruct (execute_buy_outcome sn ticker price amount reason pm0)
      as [[_ H]|[(_ & _ & H)|(_ & _ & H)]]; cbv zeta in H;
      rewrite H in Hbuy; try discriminate.
    injection Hbuy as _ <-. clear H.
    cbn [PortfolioManager.portfolio Portfolio.positions].
    match goal with
    | |- context [<[ticker := ?v]> _] =>
      pose proof (open_size_insert
                    (Portfolio.positions (PortfolioManager.portfolio pm0))
                    ticker v) as H1
    end.
    replace (Steps.open_at (Portfolio.positions (PortfolioManager.portfolio pm0)) ticker)
      with false in H1.
    2:{ unfold Steps.open_at.
        destruct (_ !! ticker) as [pos|] eqn:Hp; [|reflexivity].
        symmetry. apply is_open_closed. now apply Hfree. }
    replace (Position.is_open (Position.create sn ticker price _ (Some price)))
      with true in H1 by reflexivity.
    lia.
Qed.

Lemma step_solvent (pm pm' : PortfolioManager.t) (otr : option Trade.t) :
  0 <= price -> 0 <= amount ->
  0 <= PortfolioManager.fee_rate pm -> PortfolioManager.fee_rate pm <= 1 ->
  Steps.step max_positions amount price pm otr pm' ->
  Steps.solvent pm -> Steps.solvent pm'.
Proof.
  unfold Steps.solvent.
  intros Hprice Hamount Hr0 Hr1 Hstep [Hbal Hq].
  destruct Hstep as [ticker pm0 | now sn ticker reason pm0 pm1 tr Hsell
                     | sn ticker reason pm0 pm1 tr Hroom Hfree Hbuy].
  - destruct (update_highest_price_outcome ticker price pm0)
      as [->|(pos & Hpos & Hopen & ->)]; [auto|].
    cbn [PortfolioManager.portfolio Portfolio.set_positions Portfolio.positions
         Portfolio.krw_balance].
    split; [exact Hbal|]. intros k v Hk.
    destruct (decide (k = ticker)) as [->|Hne].
    + rewrite lookup_insert_eq in Hk. injection Hk as <-. cbn. eauto.
    + rewrite lookup_insert_ne in Hk by congruence. eauto.
  - destruct (execute_sell_outcome now sn ticker price reason pm0)
      as [[_ H]|(pos & Hpos & Hopen & [[_ H]|[_ H]])]; cbv zeta in H;
      rewrite H in Hsell; try discriminate.
    injection Hsell as _ <-. clear H.
    cbn [PortfolioManager.portfolio Portfolio.positions Portfolio.krw_balance].
    pose proof (Hq _ _ Hpos) as Hqp.
    split.
    + assert (0 <= Position.quantity pos * price)
        by (apply Qmult_le_0_compat; assumption).
      assert (0 <= Position.quantity pos * price
                   * (1 - PortfolioManager.fee_rate pm0))
        by (apply Qmult_le_0_compat; [assumption | lra]).
      lra.
    + intros k v Hk. destruct (decide (k = ticker)) as [->|Hne].
      * rewrite lookup_insert_eq in Hk. injection Hk as <-. cbn. exact Hqp.
      * rewrite lookup_insert_ne in Hk by congruence. eauto.
  - destruct (execute_buy_outcome sn ticker price amount reason pm0)
      as [[_ H]|[(_ & _ & H)|(Hfund & Hp0 & H)]]; cbv zeta in H;
      rewrite H in Hbuy; try discriminate.
    injection Hbuy as _ <-. clear H.
    cbn [PortfolioManager.portfolio Portfolio.positions Portfolio.krw_balance].
    split; [lra|].
    intros k v Hk. destruct (decide (k = ticker)) as [->|Hne].
    + rewrite lookup_insert_eq in Hk. injection Hk as <-.
      cbn [Position.create Position.quantity].
      apply Qle_shift_div_l; [lra|]. rewrite Qmult_0_l.
      assert (0 <= amount * (1 - PortfolioManager.fee_rate pm0))
        by (apply Qmult_le_0_compat; lra).
      lra.
    + rewrite lookup_insert_ne in Hk by congruence. eauto.
Qed.

Lemma step_ledger (pm pm' : PortfolioManager.t) (otr : option Trade.t) :
  Steps.step max_positions amount price pm otr pm' ->
  let p := PortfolioManager.portfolio pm in
  let p' := PortfolioManager.portfolio pm' in
  let trs := option_list otr in
  Portfolio.krw_balance p'
  == Portfolio.krw_balance p + Steps.sum_of Steps.cash trs
  /\ Portfolio.total_trades p'
     = (Portfolio.total_trades p
        + Z.of_nat (length (List.filter Steps.is_sell trs)))%Z
  /\ Portfolio.winning_trades p'
     = (Portfolio.winning_trades p
        + Z.of_nat (length (List.filter Steps.is_win trs)))%Z
  /\ Portfolio.total_profit p'
     == Portfolio.total_profit p + Steps.sum_of Steps.profit_of trs.
Proof.
  intros [ticker pm0 | now sn ticker reason pm0 pm1 tr Hsell
          | sn ticker reason pm0 pm1 tr Hroom Hfree Hbuy]; cbv zeta.
  - unfold Steps.sum_of. cbn [option_list option_rect List.filter length foldr].
    destruct (update_highest_price_outcome ticker price pm0)
      as [->|(pos & Hpos & Hopen & ->)];
      cbn [PortfolioManager.portfolio Portfolio.set_positions
           Portfolio.krw_balance Portfolio.total_trades
           Portfolio.winning_trades Portfolio.total_profit];
      repeat split; try lia; ring.
  - destruct (execute_sell_outcome now sn ticker price reason pm0)
      as [[_ H]|(pos & Hpos & Hopen & [[_ H]|[_ H]])]; cbv zeta in H;
      rewrite H in Hsell; try discriminate.
    injection Hsell as <- <-. clear H.
    unfold Steps.sum_of, Steps.cash, Steps.profit_of, Steps.is_win,
      Steps.is_sell.
    cbn [option_list option_rect List.filter length foldr Trade.side
         Trade.total_krw Trade.profit PortfolioManager.portfolio
         Portfolio.krw_balance Portfolio.total_trades Portfolio.winning_trades
         Portfolio.total_profit from_option id].
    rewrite bool_decide_eq_true_2 by reflexivity. cbn [andb].
    repeat split;
      repeat match goal with
             | |- context [Qltb 0 ?x] => destruct (Qltb 0 x)
             end; cbn [length]; try lia; ring.
  - destruct (execute_buy_outcome sn ticker price amount reason pm0)
      as [[_ H]|[(_ & _ & H)|(_ & _ & H)]]; cbv zeta in H;
      rewrite H in Hbuy; try discriminate.
    injection Hbuy as <- <-. clear H.
    unfold Steps.sum_of, Steps.cash, Steps.profit_of, Steps.is_win,
      Steps.is_sell.
    cbn [option_list option_rect List.filter length foldr Trade.side
         Trade.total_krw Trade.profit PortfolioManager.portfolio
         Portfolio.krw_balance Portfolio.total_trades Portfolio.winning_trades
         Portfolio.total_profit from_option id].
    rewrite bool_decide_eq_false_2 by discriminate. cbn [andb length].
    repeat split; try lia; ring.
Qed.
End StepFacts.

Lemma sum_of_app (f : Trade.t -> Q) (l1 l2 : list Trade.t) :
  Steps.sum_of f (l1 ++ l2) == Steps.sum_of f l1 + Steps.sum_of f l2.
Proof.
  unfold Steps.sum_of.
  induction l1 as [|t l1 IH]; cbn [app fold_right].
  - ring.
  - rewrite IH. ring.
Qed.

Section StepsFacts.
Variables (max_positions : Z) (amount price : Q).

Lemma steps_one (pm pm' : PortfolioManager.t) (otr : option Trade.t) :
  Steps.step max_positions amount price pm otr pm' ->
  Steps.steps max_positions amount price pm (option_list otr) pm'.
Proof.
  intros H. rewrite <- (app_nil_r (option_list otr)).
  eapply Steps.steps_cons; [exact H | constructor].
Qed.

Lemma steps_app (pm pm1 pm2 : PortfolioManager.t) (t1 t2 : list Trade.t) :
  Steps.steps max_positions amount price pm t1 pm1 ->
  Steps.steps max_positions amount price pm1 t2 pm2 ->
  Steps.steps max_positions amount price pm (t1 ++ t2) pm2.
Proof.
  induction 1 as [pm|pm pma pmb otr trs Hstep Hrest IH]; intros H2.
  - exact H2.
  - rewrite <- app_assoc. eapply Steps.steps_cons; [exact Hstep | auto].
Qed.

Lemma steps_fee_rate (pm pm' : PortfolioManager.t) (trs : list Trade.t) :
  Steps.steps max_positions amount price pm trs pm' ->
  PortfolioManager.fee_rate pm' = PortfolioManager.fee_rate pm.
Proof.
  induction 1 as [pm|pm pma pmb otr trs Hstep Hrest IH]; [reflexivity|].
  rewrite IH. exact (step_fee_rate max_positions amount price _ _ _ Hstep).
Qed.

Lemma steps_open_count (pm pm' : PortfolioManager.t) (trs : list Trade.t) :
  Steps.steps max_positions amount price pm trs pm' ->
  (RiskManager.open_count (PortfolioManager.portfolio pm) <= max_positions)%Z ->
  (RiskManager.open_count (PortfolioManager.portfolio pm') <= max_positions)%Z.
Proof.
  induction 1 as [pm|pm pma pmb otr trs Hstep Hrest IH]; [auto|].
  intros H. apply IH.
  exact (step_open_count max_positions amount price _ _ _ Hstep H).
Qed.

Lemma steps_solvent (pm pm' : PortfolioManager.t) (trs : list Trade.t) :
  0 <= price -> 0 <= amount ->
  0 <= PortfolioManager.fee_rate pm -> PortfolioManager.fee_rate pm <= 1 ->
  Steps.steps max_positions amount price pm trs pm' ->
  Steps.solvent pm -> Steps.solvent pm'.
Proof.
  intros Hp Ha Hr0 Hr1 Hsteps. revert Hr0 Hr1.
  induction Hsteps as [pm|pm pma pmb otr trs Hstep Hrest IH]; [auto|].
  intros Hr0 Hr1 Hs.
  pose proof (step_fee_rate max_positions amount price _ _ _ Hstep) as Hfee.
  apply IH; [rewrite Hfee; exact Hr0 | rewrite Hfee; exact Hr1 |].
  apply (step_solvent max_positions amount price pm pma otr); assumption.
Qed.

Lemma steps_ledger (pm pm' : PortfolioManager.t) (trs : list Trade.t) :
  Steps.steps max_positions amount price pm trs pm' ->
  let p := PortfolioManager.portfolio pm in
  let p' := PortfolioManager.portfolio pm' in
  Portfolio.krw_balance p'
  == Portfolio.krw_balance p + Steps.sum_of Steps.cash trs
  /\ Portfolio.total_trades p'
     = (Portfolio.total_trades p
        + Z.of_nat (length (List.filter Steps.is_sell trs)))%Z
  /\ Portfolio.winning_trades p'
     = (Portfolio.winning_trades p
        + Z.of_nat (length (List.filter Steps.is_win trs)))%Z
  /\ Portfolio.total_profit p'
     == Portfolio.total_profit p + Steps.sum_of Steps.profit_of trs.
Proof.
  induction 1 as [pm|pm pma pmb otr trs Hstep Hrest IH]; cbv zeta in *.
  - unfold Steps.sum_of. cbn [List.filter length fold_right].
    repeat split; try lia; ring.
  - destruct (step_ledger max_positions amount price _ _ _ Hstep)
      as (Hb1 & Ht1 & Hw1 & Hp1).
    destruct IH as (Hb2 & Ht2 & Hw2 & Hp2).
    rewrite !List.filter_app, !length_app, !sum_of_app.
    repeat split.
    + rewrite Hb2, Hb1. ring.
    + rewrite Ht2, Ht1. lia.
    + rewrite Hw2, Hw1. lia.
    + rewrite Hp2, Hp1. ring.
Qed.
End StepsFacts.

(** ** The engine only takes such steps *)

Lemma with_portfolio_state {A} (m : M PortfolioManager.t A)
    (self : ExecutionEngine.t) :
  state_of (ExecutionEngine.with_portfolio m self)
  = ExecutionEngine.mk (ExecutionEngine.config self)
      (state_of (m (ExecutionEngine.portfolio self)))
      (ExecutionEngine.risk self) (ExecutionEngine.strategies self)
      (ExecutionEngine.trade_log self).
Proof.
  unfold ExecutionEngine.with_portfolio, zoom.
  destruct (m _); reflexivity.
Qed.

Lemma with_portfolio_returned {A} (m : M PortfolioManager.t A)
    (self self' : ExecutionEngine.t) (a : A) :
  ExecutionEngine.with_portfolio m self = Returned a self' ->
  m (ExecutionEngine.portfolio self)
  = Returned a (ExecutionEngine.portfolio self').
Proof.
  unfold ExecutionEngine.with_portfolio, zoom.
  destruct (m _); intros [= <- <-]; reflexivity.
Qed.

Section Calls.
Context {fmt : Formatting}.
Variables (max_positions : Z) (amount : Q).

Lemma sell_call (now : Z) (strategy_name ticker reason : string) (price : Q)
    (self : ExecutionEngine.t) :
  exists trs,
    Steps.took max_positions amount price self
      (ExecutionEngine.with_portfolio
         (PortfolioManager.execute_sell now strategy_name ticker price reason)
         self)
      option_list trs.
Proof.
  unfold Steps.took. rewrite with_portfolio_state.
  cbn [ExecutionEngine.portfolio].
  assert (Hsetup : forall pm,
            Run.same_setup self
              (ExecutionEngine.mk (ExecutionEngine.config self) pm
                 (ExecutionEngine.risk self) (ExecutionEngine.strategies self)
                 (ExecutionEngine.trade_log self)))
    by (intros; repeat split).
  unfold ExecutionEngine.with_portfolio, zoom.
  destruct (PortfolioManager.execute_sell now strategy_name ticker price reason
              (ExecutionEngine.portfolio self)) as [[tr|] pm'|e pm'] eqn:Hsell;
    cbn [state_of].
  - exists [tr]. split; [|split; [intros r s' [= <- _]; reflexivity | apply Hsetup]].
    apply (steps_one _ _ _ _ _ (Some tr)). econstructor. exact Hsell.
  - exists []. split; [|split; [intros r s' [= <- _]; reflexivity | apply Hsetup]].
    destruct (execute_sell_outcome now strategy_name ticker price reason
                (ExecutionEngine.portfolio self))
      as [[_ H]|(pos & _ & _ & [[_ H]|[_ H]])]; cbv zeta in H;
      rewrite H in Hsell; try discriminate.
    injection Hsell as <-. constructor.
  - exists []. split; [|split; [intros r s' [=] | apply Hsetup]].
    destruct (execute_sell_outcome now strategy_name ticker price reason
                (ExecutionEngine.portfolio self))
      as [[_ H]|(pos & _ & _ & [[_ H]|[_ H]])]; cbv zeta in H;
      rewrite H in Hsell; try discriminate.
    injection Hsell as _ <-. constructor.
Qed.

Lemma took_nothing {A} (price : Q) (self self' : ExecutionEngine.t)
    (o : Outcome ExecutionEngine.t A) (result : A -> list Trade.t) :
  state_of o = self' ->
  ExecutionEngine.portfolio self' = ExecutionEngine.portfolio self ->
  Run.same_setup self self' ->
  (forall r s', o = Returned r s' -> result r = []) ->
  Steps.took max_positions amount price self o result [].
Proof.
  intros Hs Hpm Hsetup Hres. unfold Steps.took. rewrite Hs, Hpm.
  split; [constructor | split; assumption].
Qed.

Lemma check_buy_allowed (now : Z) (signal : Signal.t) (portfolio : Portfolio.t)
    (buy_amount : Q) (self self' : RiskManager.t) (c : RiskCheck.t) :
  RiskManager.check_buy now signal portfolio buy_amount self = Returned c self' ->
  RiskCheck.allowed c = true ->
  (RiskManager.open_count portfolio
   < RiskConfig.max_positions (RiskManager.config self))%Z
  /\ (forall pos,
        Portfolio.positions portfolio !! Signal.ticker signal = Some pos ->
        Position.status pos = PositionStatus.CLOSED).
Proof.
  intros Hcheck Hallowed.
  unfold RiskManager.check_buy, bind in Hcheck.
  rewrite reset_returns in Hcheck.
  pose proof (reset_config now self) as Hcfg.
  set (s0 := state_of (RiskManager._reset_daily_if_needed now self)) in *.
  clearbody s0. unfold get, ret in Hcheck. rewrite Hcfg in Hcheck.
  destruct (negb (bool_decide _)); [injection Hcheck as <- _; discriminate|].
  destruct (_ <=? _)%Z eqn:Eroom; [injection Hcheck as <- _; discriminate|].
  apply Z.leb_gt in Eroom. split; [exact Eroom|].
  destruct (Qltb _ _); [injection Hcheck as <- _; discriminate|].
  destruct (Qle_bool _ _); [injection Hcheck as <- _; discriminate|].
  destruct (_ && _); [injection Hcheck as <- _; discriminate|].
  intros pos Hpos. rewrite Hpos in Hcheck.
  destruct (Position.status pos) eqn:Hst; [|reflexivity].
  apply is_open_true in Hst. rewrite Hst in Hcheck.
  injection Hcheck as <- _. discriminate.
Qed.

Lemma exits_call (now : Z) (ticker : string) (price : Q)
    (self : ExecutionEngine.t) :
  exists trs,
    Steps.took max_positions amount price self
      (ExecutionEngine._check_risk_exits now ticker price self)
      option_list trs.
Proof.
  assert (Hidle : forall o : Outcome ExecutionEngine.t (option Trade.t),
            state_of o = self ->
            (forall r s', o = Returned r s' -> r = None) ->
            exists trs,
              Steps.took max_positions amount price self o option_list trs).
  { intros o Hs Hr. exists []. apply (took_nothing _ _ self); auto.
    - apply same_setup_refl.
    - intros r s' H. now rewrite (Hr _ _ H). }
  unfold ExecutionEngine._check_risk_exits, bind, get, lift, ret.
  destruct (_ !! ticker) as [pos|];
    [|apply Hidle; [reflexivity | now intros r s' [= <- _]]].
  destruct (RiskManager.check_stop_loss _ _ _) as [c1|];
    [|apply Hidle; [reflexivity | intros r s' [=]]].
  destruct (RiskCheck.allowed c1); [apply sell_call|].
  destruct (RiskManager.check_take_profit _ _ _) as [c2|];
    [|apply Hidle; [reflexivity | intros r s' [=]]].
  destruct (RiskCheck.allowed c2); [apply sell_call|].
  destruct (RiskManager.check_trailing_stop _ _ _) as [c3|];
    [|apply Hidle; [reflexivity | intros r s' [=]]].
  destruct (RiskCheck.allowed c3); [apply sell_call|].
  apply Hidle; [reflexivity | now intros r s' [= <- _]].
Qed.

Lemma signal_call (now : Z) (signal : Signal.t) (price : Q)
    (self : ExecutionEngine.t) :
  max_positions
  = RiskConfig.max_positions (RiskManager.config (ExecutionEngine.risk self)) ->
  amount
  = inject_Z (TradingConfig.buy_amount
                (AppConfig.trading (ExecutionEngine.config self))) ->
  exists trs,
    Steps.took max_positions amount price self
      (ExecutionEngine._execute_signal now signal price self)
      option_list trs.
Proof.
  intros Hmax Hamount.
  unfold ExecutionEngine._execute_signal.
  destruct self as [cfg pm rm strats log].
  cbn [ExecutionEngine.config ExecutionEngine.risk] in Hmax, Hamount.
  destruct (Signal.signal_type signal).
  - unfold bind, get.
    unfold ExecutionEngine.with_risk at 1, zoom. eng_simpl.
    destruct (check_buy_returns now signal (PortfolioManager.portfolio pm)
                (inject_Z (TradingConfig.buy_amount (AppConfig.trading cfg)))
                rm) as [c Hc].
    rewrite Hc.
    pose proof (reset_config now rm) as Hcfg.
    set (r0 := state_of (RiskManager._reset_daily_if_needed now rm)) in *.
    assert (Hsetup : forall pm' r1 log',
              RiskManager.config r1 = RiskManager.config rm ->
              Run.same_setup (ExecutionEngine.mk cfg pm rm strats log)
                (ExecutionEngine.mk cfg pm' r1 strats log'))
      by (intros; repeat split; assumption).
    destruct (RiskCheck.allowed c) eqn:Hallowed; cbn [negb].
    2:{ exists []. eapply took_nothing; [reflexivity | reflexivity | |].
        - apply Hsetup. exact Hcfg.
        - now intros r s' [= <- _]. }
    destruct (check_buy_allowed _ _ _ _ _ _ _ Hc Hallowed) as [Hroom Hfree].
    clearbody r0.
    unfold ExecutionEngine.with_portfolio at 1, zoom. eng_simpl.
    destruct (PortfolioManager.execute_buy _ _ _ _ _ pm)
      as [[tr|] pm'|e pm'] eqn:Hbuy.
    + unfold ExecutionEngine.log_trade, modify, ExecutionEngine.with_risk,
        zoom, ret. eng_simpl.
      destruct (record_trade_pnl_effect now 0 r0) as (r1 & Hrec & Hc1 & _).
      rewrite Hrec. exists [tr]. unfold Steps.took. cbn [state_of].
      eng_simpl. split; [|split].
      * apply (steps_one _ _ _ _ _ (Some tr)).
        eapply Steps.step_buy; [| exact Hfree |].
        -- rewrite Hmax. exact Hroom.
        -- rewrite Hamount. exact Hbuy.
      * now intros r s' [= <- _].
      * apply Hsetup. congruence.
    + destruct (execute_buy_outcome (Signal.strategy_name signal)
                  (Signal.ticker signal) price
                  (inject_Z (TradingConfig.buy_amount (AppConfig.trading cfg)))
                  (Signal.reason signal) pm)
        as [[_ H]|[(_ & _ & H)|(_ & _ & H)]]; cbv zeta in H;
        rewrite H in Hbuy; try discriminate.
      injection Hbuy as <-.
      exists []. eapply took_nothing; [reflexivity | reflexivity | |].
      * apply Hsetup. exact Hcfg.
      * now intros r s' [= <- _].
    + destruct (execute_buy_outcome (Signal.strategy_name signal)
                  (Signal.ticker signal) price
                  (inject_Z (TradingConfig.buy_amount (AppConfig.trading cfg)))
                  (Signal.reason signal) pm)
        as [[_ H]|[(_ & _ & H)|(_ & _ & H)]]; cbv zeta in H;
        rewrite H in Hbuy; try discriminate.
      injection Hbuy as _ <-.
      exists []. eapply took_nothing; [reflexivity | reflexivity | |].
      * apply Hsetup. exact Hcfg.
      * intros r s' [=].
  - unfold bind, get.
    destruct (negb (RiskCheck.allowed _)).
    { exists []. eapply took_nothing; [reflexivity | reflexivity | |].
      - apply same_setup_refl.
      - now intros r s' [= <- _]. }
    destruct (sell_call now (Signal.strategy_name signal) (Signal.ticker signal)
                (Signal.reason signal) price
                (ExecutionEngine.mk cfg pm rm strats log))
      as (trs & Hsteps & Hres & Hsetup).
    destruct (ExecutionEngine.with_portfolio _ _) as [[tr|] s1|e s1] eqn:Hsell;
      cbn [state_of] in *.
    + pose proof (with_portfolio_frame
                    (PortfolioManager.execute_sell now
                       (Signal.strategy_name signal) (Signal.ticker signal)
                       price (Signal.reason signal))
                    (ExecutionEngine.mk cfg pm rm strats log)) as Hframe.
      rewrite Hsell in Hframe. cbn [state_of] in Hframe. cbv zeta in Hframe.
      destruct s1 as [cfg1 pm1 rm1 strats1 log1].
      cbn [ExecutionEngine.config ExecutionEngine.risk ExecutionEngine.strategies
           ExecutionEngine.trade_log] in Hframe.
      destruct Hframe as (-> & -> & -> & ->).
      specialize (Hres _ _ eq_refl).
      destruct (ExecutionEngine.profit_truthy tr).
      * unfold ExecutionEngine.log_trade, modify, ExecutionEngine.with_risk,
          zoom, ret. eng_simpl.
        destruct (record_trade_pnl_effect now (default 0 (Trade.profit tr)) rm)
          as (r1 & Hrec & Hc1 & _).
        rewrite Hrec. exists trs. unfold Steps.took. cbn [state_of].
        eng_simpl. split; [exact Hsteps|]. split.
        -- now intros r s' [= <- _].
        -- repeat split; assumption.
      * exists trs. unfold Steps.took, ret. cbn [state_of].
        split; [exact Hsteps|]. split; [now intros r s' [= <- _] | exact Hsetup].
    + exists trs. unfold Steps.took, ret. cbn [state_of].
      split; [exact Hsteps|]. split; [|exact Hsetup].
      intros r s' [= <- _]. exact (Hres _ _ eq_refl).
    + exists trs. unfold Steps.took. cbn [state_of].
      split; [exact Hsteps|]. split; [intros r s' [=] | exact Hsetup].
Qed.
End Calls.

Lemma loop_call {fmt : Formatting} (max_positions : Z) (amount : Q) (now : Z)
    (tick : Tick.t) (ticker : string) (price : Q) (todo : list Strategy.t) :
  forall (acc : list Trade.t) (self : ExecutionEngine.t),
  max_positions
  = RiskConfig.max_positions (RiskManager.config (ExecutionEngine.risk self)) ->
  amount
  = inject_Z (TradingConfig.buy_amount
                (AppConfig.trading (ExecutionEngine.config self))) ->
  let o := ExecutionEngine.evaluate_strategies now tick ticker price todo acc
             self in
  exists trs,
    Steps.steps max_positions amount price (ExecutionEngine.portfolio self) trs
      (ExecutionEngine.portfolio (state_of o))
    /\ (forall r s', o = Returned r s' -> r = acc ++ trs)
    /\ Run.same_setup self (state_of o).
Proof.
  induction todo as [|strategy rest IH]; intros acc self Hmax Hamount; cbv zeta.
  - exists []. cbn. split; [constructor|]. split; [|apply same_setup_refl].
    intros r s' [= <- _]. now rewrite app_nil_r.
  - cbn [ExecutionEngine.evaluate_strategies]. unfold bind, get, lift.
    destruct (Strategy.evaluate strategy ticker _) as [[sig|]|e].
    + destruct (signal_call max_positions amount now sig price self Hmax Hamount)
        as (trs1 & Hsteps1 & Hres1 & Hsetup1).
      destruct (ExecutionEngine._execute_signal now sig price self)
        as [otr s1|e s1] eqn:Hsig; cbn [state_of] in *.
      * specialize (Hres1 _ _ eq_refl). subst trs1.
        destruct Hsetup1 as (Hc & Hs & Hr).
        assert (Hgo : exists trs,
                  Steps.steps max_positions amount price
                    (ExecutionEngine.portfolio s1) trs
                    (ExecutionEngine.portfolio (state_of
                       (ExecutionEngine.evaluate_strategies now tick ticker
                          price rest (acc ++ option_list otr) s1)))
                  /\ (forall r s',
                        ExecutionEngine.evaluate_strategies now tick ticker
                          price rest (acc ++ option_list otr) s1
                        = Returned r s' -> r = (acc ++ option_list otr) ++ trs)
                  /\ Run.same_setup s1 (state_of
                       (ExecutionEngine.evaluate_strategies now tick ticker
                          price rest (acc ++ option_list otr) s1))).
        { apply IH; congruence. }
        destruct Hgo as (trs2 & Hsteps2 & Hres2 & Hsetup2).
        exists (option_list otr ++ trs2).
        assert (Hsetup : Run.same_setup self s1) by (repeat split; assumption).
        destruct otr as [tr|]; cbn [option_list option_rect app] in *.
        -- split; [|split].
           ++ exact (steps_app _ _ _ _ _ _ _ _ Hsteps1 Hsteps2).
           ++ intros r s' H. rewrite (Hres2 _ _ H). now rewrite <- app_assoc.
           ++ eapply same_setup_trans; eassumption.
        -- rewrite app_nil_r in *. split; [|split].
           ++ exact (steps_app _ _ _ _ _ _ _ _ Hsteps1 Hsteps2).
           ++ intros r s' H. exact (Hres2 _ _ H).
           ++ eapply same_setup_trans; eassumption.
      * exists trs1. split; [exact Hsteps1|]. split; [intros r s' [=] | exact Hsetup1].
    + apply IH; assumption.
    + exists []. cbn [state_of]. split; [constructor|].
      split; [intros r s' [=] | apply same_setup_refl].
Qed.

Lemma process_tick_took {fmt : Formatting} (now : Z) (tick : Tick.t)
    (self : ExecutionEngine.t) :
  let o := ExecutionEngine.process_tick now tick self in
  let max_positions :=
    RiskConfig.max_positions (RiskManager.config (ExecutionEngine.risk self)) in
  let amount :=
    inject_Z (TradingConfig.buy_amount
                (AppConfig.trading (ExecutionEngine.config self))) in
  let price := default 0 (Tick.price tick) in
  exists trs,
    Steps.steps max_positions amount price (ExecutionEngine.portfolio self) trs
      (ExecutionEngine.portfolio (state_of o))
    /\ (forall trades self', o = Returned trades self' -> trades = trs)
    /\ Run.same_setup self (state_of o).
Proof.
  cbv zeta. unfold ExecutionEngine.process_tick.
  set (max_positions :=
         RiskConfig.max_positions (RiskManager.config (ExecutionEngine.risk self))).
  set (amount :=
         inject_Z (TradingConfig.buy_amount
                     (AppConfig.trading (ExecutionEngine.config self)))).
  set (price := default 0 (Tick.price tick)).
  set (ticker := default "" (Tick.ticker tick)).
  destruct (bool_decide (ticker = "") || falsy price).
  { exists []. cbn. split; [constructor|].
    split; [now intros r s' [= <- _] | apply same_setup_refl]. }
  unfold bind, get.
  pose proof (with_portfolio_state
                (PortfolioManager.update_highest_price ticker price) self) as Hs0.
  assert (Hup : PortfolioManager.update_highest_price ticker price
                  (ExecutionEngine.portfolio self)
                = Returned tt (state_of
                    (PortfolioManager.update_highest_price ticker price
                       (ExecutionEngine.portfolio self)))).
  { unfold PortfolioManager.update_highest_price. mrun.
    destruct (_ !! ticker) as [pos|]; [|reflexivity].
    destruct (_ && _); reflexivity. }
  unfold ExecutionEngine.with_portfolio, zoom in *. rewrite Hup in *.
  cbn [state_of] in Hs0.
  set (pm0 := state_of (PortfolioManager.update_highest_price ticker price
                          (ExecutionEngine.portfolio self))) in *.
  set (s0 := ExecutionEngine.mk (ExecutionEngine.config self) pm0
               (ExecutionEngine.risk self) (ExecutionEngine.strategies self)
               (ExecutionEngine.trade_log self)).
  assert (Hstep0 : Steps.steps max_positions amount price
                     (ExecutionEngine.portfolio self) [] pm0).
  { apply (steps_one _ _ _ _ _ None). constructor. }
  assert (Hsetup0 : Run.same_setup self s0) by (repeat split).
  destruct (exits_call max_positions amount now ticker price s0)
    as (trs1 & Hsteps1 & Hres1 & Hsetup1).
  destruct (ExecutionEngine._check_risk_exits now ticker price s0)
    as [[tr|] s1|e s1] eqn:Hexit; cbn [state_of] in *.
  - exists trs1. specialize (Hres1 _ _ eq_refl). cbn in Hres1. subst trs1.
    unfold ret. cbn [state_of].
    split; [exact (steps_app _ _ _ _ _ _ _ _ Hstep0 Hsteps1)|].
    split; [now intros r s' [= <- _]|].
    exact (same_setup_trans _ _ _ Hsetup0 Hsetup1).
  - specialize (Hres1 _ _ eq_refl). cbn in Hres1. subst trs1.
    destruct Hsetup1 as (Hc & Hs & Hr).
    destruct (loop_call max_positions amount now tick ticker price
                (ExecutionEngine.strategies s1) [] s1)
      as (trs2 & Hsteps2 & Hres2 & Hsetup2).
    + unfold max_positions. rewrite Hr. reflexivity.
    + unfold amount. rewrite Hc. reflexivity.
    + cbv zeta in *. exists trs2. split; [|split].
      * exact (steps_app _ _ _ _ _ _ _ _
                 (steps_app _ _ _ _ _ _ _ _ Hstep0 Hsteps1) Hsteps2).
      * intros r s' H. exact (Hres2 _ _ H).
      * refine (same_setup_trans _ _ _ Hsetup0 (same_setup_trans _ s1 _ _ Hsetup2)).
        repeat split; assumption.
  - exists trs1. split; [exact (steps_app _ _ _ _ _ _ _ _ Hstep0 Hsteps1)|].
    split; [intros r s' [=]|]. exact (same_setup_trans _ _ _ Hsetup0 Hsetup1).
Qed.

(** X6.  Whatever a tick does to the portfolio, [process_tick] does it by
    steps of three kinds only: updates of a recorded high, sales at the
    price of the tick, and purchases of the configured amount at that price
    made while fewer than [max_positions] positions are OPEN and none is
    OPEN on the ticker bought.  This holds when the call raises as well;
    when it returns, the list returned is the list of the trades of these
    steps.  The configuration and the strategies are not changed. *)
Theorem process_tick_steps {fmt : Formatting} (now : Z) (tick : Tick.t)
    (self : ExecutionEngine.t) :
  let o := ExecutionEngine.process_tick now tick self in
  let max_positions :=
    RiskConfig.max_positions (RiskManager.config (ExecutionEngine.risk self)) in
  let amount :=
    inject_Z (TradingConfig.buy_amount
                (AppConfig.trading (ExecutionEngine.config self))) in
  let price := default 0 (Tick.price tick) in
  exists trs,
    Steps.steps max_positions amount price (ExecutionEngine.portfolio self) trs
      (ExecutionEngine.portfolio (state_of o))
    /\ (forall trades self', o = Returned trades self' -> trades = trs)
    /\ Run.same_setup self (state_of o).
Proof. apply process_tick_took. Qed.

Lemma run_ticks_state {fmt : Formatting} (I : ExecutionEngine.t -> Prop)
    (ok : Z * Tick.t -> Prop) :
  (forall now tick s, ok (now, tick) -> I s ->
     I (state_of (ExecutionEngine.process_tick now tick s))) ->
  forall ticks s, Forall ok ticks -> I s ->
    I (state_of (Run.run_ticks ticks s)).
Proof.
  intros Hstep. induction ticks as [|[now tick] rest IH]; intros s Hok Hs.
  - exact Hs.
  - inversion Hok as [|? ? Hnow Hrest]; subst.
    cbn [Run.run_ticks]. unfold bind, get, ret.
    pose proof (Hstep now tick s Hnow Hs) as H1.
    destruct (ExecutionEngine.process_tick now tick s) as [trades s1|e s1];
      cbn [state_of] in *; [|exact H1].
    pose proof (IH s1 Hrest H1) as H2.
    destruct (Run.run_ticks rest s1) as [r s2|e s2]; exact H2.
Qed.

Lemma process_tick_within_limit {fmt : Formatting} (now : Z) (tick : Tick.t)
    (self : ExecutionEngine.t) :
  Steps.within_limit self ->
  Steps.within_limit (state_of (ExecutionEngine.process_tick now tick self)).
Proof.
  unfold Steps.within_limit. intros H.
  destruct (process_tick_took now tick self) as (trs & Hsteps & _ & _ & _ & Hr).
  rewrite Hr. eapply steps_open_count; eassumption.
Qed.

(** X7.  The limit on open positions is an invariant of the engine: when
    at most [max_positions] positions are OPEN, any sequence of calls of
    [process_tick], up to and including one that raises, leaves at most
    [max_positions] positions OPEN. *)
Theorem open_positions_within_limit {fmt : Formatting}
    (ticks : list (Z * Tick.t)) (self : ExecutionEngine.t) :
  let count s :=
    RiskManager.open_count
      (PortfolioManager.portfolio (ExecutionEngine.portfolio s)) in
  let limit s :=
    RiskConfig.max_positions (RiskManager.config (ExecutionEngine.risk s)) in
  (count self <= limit self)%Z ->
  (count (state_of (Run.run_ticks ticks self))
   <= limit (state_of (Run.run_ticks ticks self)))%Z.
Proof.
  intros count limit H.
  apply (run_ticks_state Steps.within_limit (fun _ => True)); auto.
  - intros now tick s _. apply process_tick_within_limit.
  - apply Forall_forall. auto.
Qed.

Lemma process_tick_can_pay {fmt : Formatting} (now : Z) (tick : Tick.t)
    (self : ExecutionEngine.t) :
  0 <= default 0 (Tick.price tick) ->
  Steps.can_pay self ->
  Steps.can_pay (state_of (ExecutionEngine.process_tick now tick self)).
Proof.
  unfold Steps.can_pay. intros Hprice (Hr0 & Hr1 & Hamt & Hsolvent).
  destruct (process_tick_took now tick self) as (trs & Hsteps & _ & Hc & _ & _).
  pose proof (steps_fee_rate _ _ _ _ _ _ Hsteps) as Hfee.
  rewrite Hfee, Hc. repeat split; try assumption.
  - eapply steps_solvent; [exact Hprice | | exact Hr0 | exact Hr1
                           | exact Hsteps | exact Hsolvent].
    change 0 with (inject_Z 0). now rewrite <- Zle_Qle.
  - eapply steps_solvent; [exact Hprice | | exact Hr0 | exact Hr1
                           | exact Hsteps | exact Hsolvent].
    change 0 with (inject_Z 0). now rewrite <- Zle_Qle.
Qed.

Lemma wins_are_sells (trs : list Trade.t) :
  (length (List.filter Steps.is_win trs)
   <= length (List.filter Steps.is_sell trs))%nat.
Proof.
  induction trs as [|t trs IH]; cbn [List.filter]; [lia|].
  unfold Steps.is_win at 1.
  destruct (Steps.is_sell t); cbn [andb].
  - destruct (Qltb 0 _); cbn [length]; lia.
  - exact IH.
Qed.

Lemma process_tick_counters_ok {fmt : Formatting} (now : Z) (tick : Tick.t)
    (self : ExecutionEngine.t) :
  Steps.counters_ok self ->
  Steps.counters_ok (state_of (ExecutionEngine.process_tick now tick self)).
Proof.
  unfold Steps.counters_ok. cbv zeta. intros H.
  destruct (process_tick_took now tick self) as (trs & Hsteps & _).
  destruct (steps_ledger _ _ _ _ _ _ Hsteps) as (_ & Ht & Hw & _).
  cbv zeta in Ht, Hw. rewrite Ht, Hw.
  pose proof (wins_are_sells trs). lia.
Qed.

(** X8.  Paying never overdraws: with a fee rate between 0 and 1, a buy
    amount that is not negative, a balance and quantities held that are
    not negative, any sequence of ticks whose prices are not negative, up
    to and including a call that raises, leaves the balance and every
    quantity held not negative. *)
Theorem engine_stays_solvent {fmt : Formatting} (ticks : list (Z * Tick.t))
    (self : ExecutionEngine.t) :
  let fee_rate := PortfolioManager.fee_rate (ExecutionEngine.portfolio self) in
  let buy_amount :=
    TradingConfig.buy_amount (AppConfig.trading (ExecutionEngine.config self)) in
  0 <= fee_rate -> fee_rate <= 1 -> (0 <= buy_amount)%Z ->
  Forall (fun nt => 0 <= default 0 (Tick.price nt.2)) ticks ->
  Steps.solvent (ExecutionEngine.portfolio self) ->
  Steps.solvent
    (ExecutionEngine.portfolio (state_of (Run.run_ticks ticks self))).
Proof.
  intros fee_rate buy_amount Hr0 Hr1 Hamt Hticks Hsolvent.
  assert (H : Steps.can_pay (state_of (Run.run_ticks ticks self))).
  { apply (run_ticks_state Steps.can_pay
             (fun nt => 0 <= default 0 (Tick.price nt.2))).
    - intros now tick s Hp Hs. now apply process_tick_can_pay.
    - exact Hticks.
    - exact (conj Hr0 (conj Hr1 (conj Hamt Hsolvent))). }
  apply H.
Qed.

(** X9.  The books of a tick balance: when [process_tick] returns, the
    balance has changed by the cash of the trades it returns (the amount
    of every BUY out, the net proceeds of every SELL in), [total_trades]
    has grown by the number of SELL trades, [winning_trades] by the number
    of those with a positive profit, and [total_profit] by the sum of
    their profits, risk exits included. *)
Theorem process_tick_ledger {fmt : Formatting} (now : Z) (tick : Tick.t)
    (self self' : ExecutionEngine.t) (trades : list Trade.t) :
  ExecutionEngine.process_tick now tick self = Returned trades self' ->
  let p := PortfolioManager.portfolio (ExecutionEngine.portfolio self) in
  let p' := PortfolioManager.portfolio (ExecutionEngine.portfolio self') in
  Portfolio.krw_balance p'
  == Portfolio.krw_balance p + Steps.sum_of Steps.cash trades
  /\ Portfolio.total_trades p'
     = (Portfolio.total_trades p
        + Z.of_nat (length (List.filter Steps.is_sell trades)))%Z
  /\ Portfolio.winning_trades p'
     = (Portfolio.winning_trades p
        + Z.of_nat (length (List.filter Steps.is_win trades)))%Z
  /\ Portfolio.total_profit p'
     == Portfolio.total_profit p + Steps.sum_of Steps.profit_of trades.
Proof.
  intros Hrun.
  destruct (process_tick_took now tick self) as (trs & Hsteps & Hres & _).
  cbv zeta in Hsteps, Hres. rewrite Hrun in Hsteps, Hres.
  rewrite (Hres _ _ eq_refl). cbn [state_of] in Hsteps.
  exact (steps_ledger _ _ _ _ _ _ Hsteps).
Qed.

(** X10.  The counters stay meaningful: when the winning trades are
    between 0 and the total number of trades, they still are after any
    sequence of calls of [process_tick], whether the last one returns or
    raises. *)
Theorem counters_stay_ordered {fmt : Formatting} (ticks : list (Z * Tick.t))
    (self : ExecutionEngine.t) :
  let portfolio s :=
    PortfolioManager.portfolio (ExecutionEngine.portfolio s) in
  (0 <= Portfolio.winning_trades (portfolio self)
   <= Portfolio.total_trades (portfolio self))%Z ->
  (0 <= Portfolio.winning_trades (portfolio (state_of (Run.run_ticks ticks self)))
   <= Portfolio.total_trades (portfolio (state_of (Run.run_ticks ticks self))))%Z.
Proof.
  intros portfolio H.
  apply (run_ticks_state Steps.counters_ok (fun _ => True)); auto.
  - intros now tick s _. apply process_tick_counters_ok.
  - apply Forall_forall. auto.
Qed.

(** X11.  A paper trader is safe from its first tick on: created with a
    limit, an initial balance and a buy amount that are not negative and a
    fee between 0 and 100 percent, and fed ticks whose prices are not
    negative, it never holds more than [max_positions] OPEN positions,
    never has a negative balance, and never counts more winning trades
    than trades. *)
Theorem paper_trader_safe {fmt : Formatting} (now : Z) (config : AppConfig.t)
    (strategies : list Strategy.t) (ticks : list (Z * Tick.t)) :
  let risk := AppConfig.risk config in
  let trading := AppConfig.trading config in
  (0 <= RiskConfig.max_positions risk)%Z ->
  0 <= RiskConfig.fee_rate risk -> RiskConfig.fee_rate risk <= 100 ->
  (0 <= TradingConfig.initial_krw trading)%Z ->
  (0 <= TradingConfig.buy_amount trading)%Z ->
  Forall (fun nt => 0 <= default 0 (Tick.price nt.2)) ticks ->
  let p := PaperTrader.get_portfolio
             (state_of (Run.run_ticks ticks
                          (PaperTrader.init now config strategies))) in
  (RiskManager.open_count p <= RiskConfig.max_positions risk)%Z
  /\ 0 <= Portfolio.krw_balance p
  /\ (0 <= Portfolio.winning_trades p <= Portfolio.total_trades p)%Z.
Proof.
  intros risk trading Hmax Hf0 Hf1 Hinit Hamt Hticks p.
  set (s0 := PaperTrader.init now config strategies).
  assert (H1 : Steps.within_limit (state_of (Run.run_ticks ticks s0))).
  { apply (run_ticks_state Steps.within_limit (fun _ => True)).
    - intros n t s _. apply process_tick_within_limit.
    - apply Forall_forall. auto.
    - unfold Steps.within_limit. cbn. exact Hmax. }
  assert (H2 : Steps.can_pay (state_of (Run.run_ticks ticks s0))).
  { apply (run_ticks_state Steps.can_pay
             (fun nt => 0 <= default 0 (Tick.price nt.2))).
    - intros n t s Hp Hs. now apply process_tick_can_pay.
    - exact Hticks.
    - unfold Steps.can_pay, Steps.solvent.
      cbn [s0 PaperTrader.init ExecutionEngine.init ExecutionEngine.portfolio
           ExecutionEngine.config PortfolioManager.init
           PortfolioManager.fee_rate PortfolioManager.portfolio
           Portfolio.krw_balance Portfolio.positions].
      fold risk trading. repeat split.
      + apply Qle_shift_div_l; lra.
      + apply Qle_shift_div_r; lra.
      + exact Hamt.
      + change 0 with (inject_Z 0). now rewrite <- Zle_Qle.
      + intros k pos Hk. rewrite lookup_empty in Hk. discriminate. }
  assert (H3 : Steps.counters_ok (state_of (Run.run_ticks ticks s0))).
  { apply (run_ticks_state Steps.counters_ok (fun _ => True)).
    - intros n t s _. apply process_tick_counters_ok.
    - apply Forall_forall. auto.
    - unfold Steps.counters_ok. cbn. lia. }
  assert (Hlimit : RiskConfig.max_positions
                     (RiskManager.config
                        (ExecutionEngine.risk (state_of (Run.run_ticks ticks s0))))
                   = RiskConfig.max_positions risk).
  { apply (run_ticks_state
             (fun s => RiskConfig.max_positions
                         (RiskManager.config (ExecutionEngine.risk s))
                       = RiskConfig.max_positions risk) (fun _ => True)).
    - intros n t s _ Hs.
      destruct (process_tick_took n t s) as (trs & _ & _ & _ & _ & Hr).
      now rewrite Hr.
    - apply Forall_forall. auto.
    - reflexivity. }
  unfold Steps.within_limit in H1. rewrite Hlimit in H1.
  split; [exact H1|]. split; [apply H2 | exact H3].
Qed.

Lemma open_positions_within_limit_witness :
  let self := Samples.engine Samples.app_config Samples.portfolio_with_position
                [DipBuyStrategy.as_strategy (fmt := Samples.plain_format)
                   Samples.dip_buy] in
  let self' := state_of (Run.run_ticks (fmt := Samples.plain_format)
                           Samples.dip_then_crash self) in
  (RiskManager.open_count
     (PortfolioManager.portfolio (ExecutionEngine.portfolio self)) <= 3)%Z
  /\ (RiskManager.open_count
        (PortfolioManager.portfolio (ExecutionEngine.portfolio self'))
      <= RiskConfig.max_positions
           (RiskManager.config (ExecutionEngine.risk self')))%Z.
Proof.
  intros self self'.
  assert (H0 : (RiskManager.open_count
                  (PortfolioManager.portfolio (ExecutionEngine.portfolio self))
                <= 3)%Z) by (vm_compute; discriminate).
  split; [exact H0|].
  exact (open_positions_within_limit (fmt := Samples.plain_format)
           Samples.dip_then_crash self H0).
Defined.

Lemma engine_stays_solvent_witness :
  let self := Samples.engine Samples.app_config Samples.empty_portfolio
                [DipBuyStrategy.as_strategy (fmt := Samples.plain_format)
                   Samples.dip_buy] in
  Steps.solvent (ExecutionEngine.portfolio self)
  /\ Steps.solvent
       (ExecutionEngine.portfolio
          (state_of (Run.run_ticks (fmt := Samples.plain_format)
                       Samples.dip_then_crash self))).
Proof.
  intros self.
  assert (H0 : Steps.solvent (ExecutionEngine.portfolio self)).
  { split; [vm_compute; discriminate|].
    intros k pos Hk. vm_compute in Hk. discriminate Hk. }
  split; [exact H0|].
  apply (engine_stays_solvent (fmt := Samples.plain_format)).
  - vm_compute; discriminate.
  - vm_compute; discriminate.
  - vm_compute; discriminate.
  - repeat constructor; vm_compute; discriminate.
  - exact H0.
Defined.

Lemma process_tick_ledger_witness :
  let self := Samples.engine Samples.app_config Samples.portfolio_with_position
                [Samples.seller] in
  let tick := Samples.tick "KRW-BTC" 55000000 [] in
  exists sell self',
    ExecutionEngine.process_tick (fmt := Samples.plain_format) 0 tick self
    = Returned [sell] self'
    /\ Portfolio.krw_balance
         (PortfolioManager.portfolio (ExecutionEngine.portfolio self'))
       == 900000 + Steps.cash sell
    /\ Portfolio.total_trades
         (PortfolioManager.portfolio (ExecutionEngine.portfolio self')) = 1%Z.
Proof.
  intros self tick. eexists. eexists.
  match goal with
  | |- ?A /\ _ => assert (Hrun : A) by (vm_compute; reflexivity)
  end.
  split; [exact Hrun|].
  destruct (process_tick_ledger (fmt := Samples.plain_format) _ _ _ _ _ Hrun)
    as (Hbal & Htotal & _).
  split.
  - rewrite Hbal. vm_compute. reflexivity.
  - rewrite Htotal. reflexivity.
Defined.

Lemma counters_stay_ordered_witness :
  let self := Samples.engine Samples.app_config Samples.empty_portfolio
                [DipBuyStrategy.as_strategy (fmt := Samples.plain_format)
                   Samples.dip_buy] in
  let p := PortfolioManager.portfolio
             (ExecutionEngine.portfolio
                (state_of (Run.run_ticks (fmt := Samples.plain_format)
                             Samples.dip_then_crash self))) in
  (0 <= Portfolio.winning_trades p <= Portfolio.total_trades p)%Z.
Proof.
  intros self.
  apply (counters_stay_ordered (fmt := Samples.plain_format)
           Samples.dip_then_crash self).
  vm_compute. split; discriminate.
Defined.

Lemma paper_trader_safe_witness :
  let p := PaperTrader.get_portfolio
             (state_of
                (Run.run_ticks (fmt := Samples.plain_format)
                   Samples.dip_then_crash
                   (PaperTrader.init 0 Samples.app_config
                      [DipBuyStrategy.as_strategy (fmt := Samples.plain_format)
                         Samples.dip_buy]))) in
  (RiskManager.open_count p <= 3)%Z
  /\ 0 <= Portfolio.krw_balance p
  /\ (0 <= Portfolio.winning_trades p <= Portfolio.total_trades p)%Z.
Proof.
  exact (paper_trader_safe (fmt := Samples.plain_format) 0 Samples.app_config
           [DipBuyStrategy.as_strategy (fmt := Samples.plain_format)
              Samples.dip_buy]
           Samples.dip_then_crash
           ltac:(vm_compute; discriminate) ltac:(vm_compute; discriminate)
           ltac:(vm_compute; discriminate) ltac:(vm_compute; discriminate)
           ltac:(vm_compute; discriminate)
           ltac:(repeat constructor; vm_compute; discriminate)).
Defined.

(** ** The strategies *)

Lemma signal_create_inv (strategy_name ticker : string) (ty : SignalType.t)
    (strength : Q) (reason : string) (params : list (string * Q))
    (signal : Signal.t) :
  Signal.create strategy_name ticker ty strength reason params = Ok signal ->
  signal = Signal.mk strategy_name ticker ty strength reason params
  /\ 0 <= strength /\ strength <= 1.
Proof.
  unfold Signal.create.
  destruct (Qle_bool 0 strength) eqn:E0; [|discriminate].
  destruct (Qle_bool strength 1) eqn:E1; [|discriminate].
  cbn [andb]. intros [= <-].
  apply Qle_bool_iff in E0, E1. auto.
Qed.

Lemma py_max_bounds (x lo : Q) :
  lo <= 1 -> x <= 1 -> lo <= py_max x lo /\ py_max x lo <= 1.
Proof.
  intros Hlo Hx. unfold py_max. destruct (Qltb x lo) eqn:E.
  - split; lra.
  - apply Qltb_ge in E. split; lra.
Qed.

Lemma py_min_le_1 (x : Q) : py_min x 1 <= 1.
Proof.
  unfold py_min. destruct (Qltb 1 x) eqn:E; [lra|].
  now apply Qltb_ge in E.
Qed.

(** X12.  The signals of the momentum strategy: whatever its parameters
    and the market view, a signal it returns carries the ticker asked for
    and the name of the strategy, a strength between 0 and 1, and is a
    SELL only when a position is held at a positive entry price with a
    profit of at most [exit_threshold], a BUY only when no position is
    held. *)
Theorem momentum_signal_discipline {fmt : Formatting}
    (self : MomentumStrategy.t) (ticker : string) (market_data : MarketData.t)
    (signal : Signal.t) :
  let current := default 0 (MarketData.current_price market_data) in
  let holding := default false (MarketData.has_position market_data) in
  let entry := default 0 (MarketData.entry_price market_data) in
  MomentumStrategy.evaluate self ticker market_data = Ok (Some signal) ->
  Signal.ticker signal = ticker
  /\ Signal.strategy_name signal = MomentumStrategy.name self
  /\ 0 <= Signal.strength signal /\ Signal.strength signal <= 1
  /\ match Signal.signal_type signal with
     | SignalType.SELL =>
       holding = true /\ 0 < entry
       /\ (current / entry - 1) * 100 <= MomentumStrategy.exit_threshold self
     | SignalType.BUY => holding = false
     end.
Proof.
  intros current holding entry. unfold MomentumStrategy.evaluate.
  fold current holding entry.
  destruct (bool_decide _ || falsy current); [discriminate|].
  destruct (slice_from _ _) as [|start [|next rest]]; try discriminate.
  destruct (pdiv current start) as [ratio|e]; [|discriminate].
  rewrite rbind_ok.
  destruct (holding && Qltb 0 entry) eqn:Ehold.
  - apply andb_true_iff in Ehold as [Eh Ee]. apply Qltb_lt in Ee.
    destruct (Qle_bool _ (MomentumStrategy.exit_threshold self)) eqn:Eexit.
    + destruct (Signal.create _ _ _ _ _ _) as [s|e] eqn:Ecreate;
        [|discriminate].
      cbn [rbind]. intros [= <-].
      apply signal_create_inv in Ecreate as (-> & H0 & H1).
      apply Qle_bool_iff in Eexit. cbn. auto 10.
    + rewrite rbind_ok, Eh. cbn [negb andb]. discriminate.
  - rewrite rbind_ok.
    destruct (negb holding && Qle_bool _ _) eqn:Ebuy; [|discriminate].
    apply andb_true_iff in Ebuy as [Eh _]. apply negb_true_iff in Eh.
    destruct (pdiv _ _) as [r|e]; [|discriminate]. rewrite rbind_ok.
    destruct (Signal.create _ _ _ _ _ _) as [s|e] eqn:Ecreate; [|discriminate].
    cbn [rbind]. intros [= <-].
    apply signal_create_inv in Ecreate as (-> & H0 & H1). cbn. auto 10.
Qed.

Lemma momentum_signal_discipline_witness :
  let self := MomentumStrategy.mk 12 5 (-3) in
  let view := MarketData.mk (Some 106) None None None None (Some false)
                (Some 0) (Some (replicate 12 100 ++ [106])) in
  exists signal,
    MomentumStrategy.evaluate (fmt := Samples.plain_format) self "KRW-BTC" view
    = Ok (Some signal)
    /\ Signal.ticker signal = "KRW-BTC"
    /\ Signal.signal_type signal = SignalType.BUY
    /\ Signal.strength signal <= 1.
Proof.
  intros self view. eexists.
  match goal with
  | |- ?A /\ _ => assert (Hrun : A) by (vm_compute; reflexivity)
  end.
  split; [exact Hrun|].
  destruct (momentum_signal_discipline (fmt := Samples.plain_format)
              self "KRW-BTC" view _ Hrun) as (Ht & _ & _ & H1 & _).
  split; [exact Ht|]. split; [reflexivity | exact H1].
Defined.

(** X13.  The momentum strategy with a positive entry threshold raises
    only on a zero price: when no price of the history is zero,
    [evaluate] returns, for any market view. *)
Theorem momentum_returns {fmt : Formatting} (self : MomentumStrategy.t)
    (ticker : string) (market_data : MarketData.t) :
  0 < MomentumStrategy.entry_threshold self ->
  Forall (fun p => ~ p == 0)
         (default [] (MarketData.price_history market_data)) ->
  exists answer,
    MomentumStrategy.evaluate self ticker market_data = Ok answer.
Proof.
  intros Hentry Hhist. unfold MomentumStrategy.evaluate.
  destruct (bool_decide _ || falsy _); [eauto|].
  unfold slice_from.
  match goal with
  | |- context [drop ?n ?l] =>
    pose proof (Forall_drop _ n l Hhist) as Hkept; destruct (drop n l)
      as [|start [|next rest]]
  end; [eauto | eauto |].
  apply Forall_cons in Hkept as [Hstart _].
  rewrite (pdiv_ok _ _ Hstart), rbind_ok.
  set (change_pct := (_ / start - 1) * 100).
  set (profit_pct := (_ / _ - 1) * 100).
  assert (Hsell : 0 <= Qabs profit_pct / 10).
  { apply Qle_shift_div_l; [lra|]. pose proof (Qabs_nonneg profit_pct). lra. }
  destruct (_ && Qltb 0 _).
  - destruct (Qle_bool profit_pct _).
    + destruct (py_min_bounds _ Hsell) as [H0 H1].
      rewrite (signal_create_ok _ _ _ _ _ _ H0 H1). cbn [rbind]. eauto.
    + rewrite rbind_ok. destruct (negb _ && Qle_bool _ change_pct) eqn:Ebuy;
        [|eauto].
      apply andb_true_iff in Ebuy as [_ Ebuy]. apply Qle_bool_iff in Ebuy.
      rewrite pdiv_ok by lra. rewrite rbind_ok.
      assert (Hr : 0 <= change_pct / (MomentumStrategy.entry_threshold self * 2)).
      { apply Qle_shift_div_l; lra. }
      destruct (py_min_bounds _ Hr) as [H0 H1].
      rewrite (signal_create_ok _ _ _ _ _ _ H0 H1). cbn [rbind]. eauto.
  - rewrite rbind_ok. destruct (negb _ && Qle_bool _ change_pct) eqn:Ebuy;
      [|eauto].
    apply andb_true_iff in Ebuy as [_ Ebuy]. apply Qle_bool_iff in Ebuy.
    rewrite pdiv_ok by lra. rewrite rbind_ok.
    assert (Hr : 0 <= change_pct / (MomentumStrategy.entry_threshold self * 2)).
    { apply Qle_shift_div_l; lra. }
    destruct (py_min_bounds _ Hr) as [H0 H1].
    rewrite (signal_create_ok _ _ _ _ _ _ H0 H1). cbn [rbind]. eauto.
Qed.

Lemma momentum_returns_witness :
  let self := MomentumStrategy.mk 12 5 (-3) in
  let view := MarketData.mk (Some 95) None None None None (Some true)
                (Some 100) (Some (replicate 12 100 ++ [95])) in
  exists answer,
    MomentumStrategy.evaluate (fmt := Samples.plain_format) self "KRW-BTC" view
    = Ok answer.
Proof.
  intros self view.
  apply (momentum_returns (fmt := Samples.plain_format) self "KRW-BTC" view).
  - vm_compute; reflexivity.
  - repeat constructor; vm_compute; discriminate.
Defined.

Lemma slice_from_recent {A} (n : Z) (older recent : list A) :
  (0 < n)%Z -> length recent = Z.to_nat n ->
  slice_from (- n) (older ++ recent) = recent.
Proof.
  intros Hn Hlen. rewrite slice_from_last by exact Hn.
  rewrite length_app, Hlen.
  replace (length older + Z.to_nat n - Z.to_nat n)%nat with (length older)
    by lia.
  now rewrite drop_app_length.
Qed.

(** X14.  The trend strategies look only at the recent past: with a
    window of [n >= 0] hours, [evaluate] of the dip-buy strategy and of
    the momentum strategy give the same answer on two market views that
    agree on the price, the position and the entry price and whose
    histories end with the same [n + 1] prices. *)
Theorem trend_strategies_are_local {fmt : Formatting} (n : Z)
    (dip : DipBuyStrategy.t) (momentum : MomentumStrategy.t)
    (ticker : string) (view view' : MarketData.t)
    (older older' recent : list Q) :
  (0 <= n)%Z -> length recent = Z.to_nat (n + 1) ->
  MarketData.price_history view = Some (older ++ recent) ->
  MarketData.price_history view' = Some (older' ++ recent) ->
  MarketData.current_price view = MarketData.current_price view' ->
  MarketData.has_position view = MarketData.has_position view' ->
  MarketData.entry_price view = MarketData.entry_price view' ->
  (DipBuyStrategy.timeframe_hours dip = n ->
   DipBuyStrategy.evaluate dip ticker view
   = DipBuyStrategy.evaluate dip ticker view')
  /\ (MomentumStrategy.lookback_hours momentum = n ->
      MomentumStrategy.evaluate momentum ticker view
      = MomentumStrategy.evaluate momentum ticker view').
Proof.
  intros Hn Hlen Hh Hh' Hc Hp He.
  assert (Hne : forall l : list Q, bool_decide (l ++ recent = []) = false).
  { intros l. apply bool_decide_eq_false. intros E.
    apply app_eq_nil in E as [_ ->]. cbn in Hlen. lia. }
  split; intros Hwindow.
  - unfold DipBuyStrategy.evaluate.
    rewrite Hh, Hh', Hc, Hp, He, Hwindow. cbn [from_option id].
    rewrite !Hne, !slice_from_recent by (lia || assumption). reflexivity.
  - unfold MomentumStrategy.evaluate.
    rewrite Hh, Hh', Hc, Hp, He, Hwindow. cbn [from_option id].
    rewrite !Hne, !slice_from_recent by (lia || assumption). reflexivity.
Qed.

Lemma trend_strategies_are_local_witness :
  let recent := replicate 24 100 ++ [92] in
  let view history :=
    MarketData.mk (Some 92) None None None None (Some false) (Some 0)
                  (Some history) in
  DipBuyStrategy.evaluate (fmt := Samples.plain_format) Samples.dip_buy
    "KRW-BTC" (view ([1; 2; 3] ++ recent))
  = DipBuyStrategy.evaluate (fmt := Samples.plain_format) Samples.dip_buy
      "KRW-BTC" (view ([] ++ recent)).
Proof.
  intros recent view.
  assert (Hn : (0 <= 24)%Z) by lia.
  destruct (trend_strategies_are_local (fmt := Samples.plain_format) 24
              Samples.dip_buy (MomentumStrategy.mk 24 5 (-3)) "KRW-BTC"
              (view ([1; 2; 3] ++ recent)) (view ([] ++ recent))
              [1; 2; 3] [] recent Hn eq_refl eq_refl eq_refl eq_refl eq_refl
              eq_refl) as [Hdip _].
  exact (Hdip eq_refl).
Defined.

(** X15.  The fear-and-greed strategy never raises, and a signal it
    returns carries the ticker asked for, a strength between 0.3 and 1,
    and is a SELL only when a position is held and the index is at least
    [sell_threshold], a BUY only when none is held and the index lies
    between 0 and [buy_threshold]. *)
Theorem fear_greed_signal_discipline {fmt : Formatting}
    (self : FearGreedStrategy.t) (ticker : string) (view : MarketView.t) :
  let fg_value := default (-1)%Z (MarketView.fear_greed_value view) in
  let holding :=
    default false (MarketData.has_position (MarketView.base view)) in
  exists answer,
    FearGreedStrategy.evaluate self ticker view = Ok answer
    /\ match answer with
       | None => True
       | Some signal =>
         Signal.ticker signal = ticker
         /\ 0.3 <= Signal.strength signal /\ Signal.strength signal <= 1
         /\ match Signal.signal_type signal with
            | SignalType.SELL =>
              holding = true
              /\ (FearGreedStrategy.sell_threshold self <= fg_value)%Z
            | SignalType.BUY =>
              holding = false
              /\ (0 <= fg_value <= FearGreedStrategy.buy_threshold self)%Z
            end
       end.
Proof.
  intros fg_value holding. unfold FearGreedStrategy.evaluate.
  fold fg_value holding.
  destruct (fg_value <? 0)%Z eqn:Eneg; [now eexists|].
  apply Z.ltb_ge in Eneg.
  assert (Hmax : forall x, 0.3 <= py_max (py_min x 1) 0.3
                           /\ py_max (py_min x 1) 0.3 <= 1).
  { intros x. apply py_max_bounds; [lra | apply py_min_le_1]. }
  destruct (holding && _) eqn:Esell.
  - apply andb_true_iff in Esell as [Eh Es]. apply Z.leb_le in Es.
    match goal with
    | |- context [py_max (py_min ?x 1) 0.3] => destruct (Hmax x) as [H0 H1]
    end.
    rewrite signal_create_ok by lra. cbn [rbind].
    eexists. split; [reflexivity|]. cbn.
    split; [reflexivity|]. split; [lra|]. split; [lra|]. split; [assumption | lia].
  - destruct (negb holding && _) eqn:Ebuy; [|now eexists].
    apply andb_true_iff in Ebuy as [Eh Eb]. apply Z.leb_le in Eb.
    apply negb_true_iff in Eh.
    match goal with
    | |- context [py_max (py_min ?x 1) 0.3] => destruct (Hmax x) as [H0 H1]
    end.
    rewrite signal_create_ok by lra. cbn [rbind].
    eexists. split; [reflexivity|]. cbn.
    split; [reflexivity|]. split; [lra|]. split; [lra|]. split; [assumption | lia].
Qed.

(** X16.  The volatility-breakout strategy never raises and never sells:
    a signal it returns is a BUY for the ticker asked for, with a strength
    between 0.1 and 1, given only when no position is held, the previous
    range is positive and the price is above a positive target. *)
Theorem volatility_breakout_buys_only {fmt : Formatting} {fmt0 : Formatting0}
    (self : VolatilityBreakoutStrategy.t) (ticker : string)
    (view : MarketView.t) :
  let current := default 0 (MarketData.current_price (MarketView.base view)) in
  let holding :=
    default false (MarketData.has_position (MarketView.base view)) in
  let open_price := default 0 (MarketView.open_price view) in
  let range_val :=
    default 0 (MarketView.prev_high view) - default 0 (MarketView.prev_low view) in
  exists answer,
    VolatilityBreakoutStrategy.evaluate self ticker view = Ok answer
    /\ match answer with
       | None => True
       | Some signal =>
         Signal.ticker signal = ticker
         /\ Signal.signal_type signal = SignalType.BUY
         /\ 0.1 <= Signal.strength signal /\ Signal.strength signal <= 1
         /\ holding = false /\ 0 < range_val
         /\ 0 < open_price + VolatilityBreakoutStrategy.k_factor self * range_val
         /\ open_price + VolatilityBreakoutStrategy.k_factor self * range_val
            < current
       end.
Proof.
  intros current holding open_price range_val.
  unfold VolatilityBreakoutStrategy.evaluate.
  fold current holding open_price. fold range_val.
  destruct (falsy current || _ || _); [now eexists|].
  destruct (Qle_bool range_val 0) eqn:Erange; [now eexists|].
  apply Qle_bool_gt in Erange.
  destruct (negb holding && _ && _) eqn:Ebuy; [|now eexists].
  apply andb_true_iff in Ebuy as [Ebuy Eabove].
  apply andb_true_iff in Ebuy as [Eh Etarget].
  apply negb_true_iff in Eh. apply Qltb_lt in Etarget, Eabove.
  match goal with
  | |- context [py_max (py_min ?x 1) 0.1] =>
    destruct (py_max_bounds (py_min x 1) 0.1) as [H0 H1];
      [lra | apply py_min_le_1 |]
  end.
  rewrite signal_create_ok by lra. cbn [rbind].
  eexists. split; [reflexivity|]. cbn.
  destruct (falsy open_price); [lra|]. auto 10.
Qed.

(** X17.  The volume-surge strategy never sells: a signal it returns is a
    BUY for the ticker asked for with a strength between 0 and 1, given
    only when no position is held and the price change is positive; and
    with a positive [volume_multiplier] it never raises. *)
Theorem volume_surge_buys_only {fmt : Formatting}
    (self : VolumeSurgeStrategy.t) (ticker : string) (view : MarketView.t) :
  let holding :=
    default false (MarketData.has_position (MarketView.base view)) in
  let change_pct := default 0 (MarketData.change_pct (MarketView.base view)) in
  (forall signal,
     VolumeSurgeStrategy.evaluate self ticker view = Ok (Some signal) ->
     Signal.ticker signal = ticker
     /\ Signal.signal_type signal = SignalType.BUY
     /\ 0 <= Signal.strength signal /\ Signal.strength signal <= 1
     /\ holding = false /\ 0 < change_pct)
  /\ (0 < VolumeSurgeStrategy.volume_multiplier self ->
      exists answer, VolumeSurgeStrategy.evaluate self ticker view = Ok answer).
Proof.
  intros holding change_pct. unfold VolumeSurgeStrategy.evaluate.
  fold holding change_pct.
  destruct (bool_decide _ || falsy _); [split; [discriminate | eauto]|].
  destruct (_ <? 2)%nat; [split; [discriminate | eauto]|].
  destruct (Qle_bool _ 0) eqn:Eavg; [split; [discriminate | eauto]|].
  apply Qle_bool_gt in Eavg.
  destruct (negb holding && _ && _) eqn:Ebuy; [|split; [discriminate | eauto]].
  apply andb_true_iff in Ebuy as [Ebuy Echange].
  apply andb_true_iff in Ebuy as [Eh Eratio].
  apply negb_true_iff in Eh. apply Qltb_lt in Echange.
  apply Qle_bool_iff in Eratio.
  split.
  - intros signal.
    destruct (pdiv _ _) as [r|e]; [|discriminate]. rewrite rbind_ok.
    destruct (Signal.create _ _ _ _ _ _) as [s|e] eqn:Ecreate; [|discriminate].
    cbn [rbind]. intros [= <-].
    apply signal_create_inv in Ecreate as (-> & H0 & H1). cbn. auto 10.
  - intros Hm. rewrite pdiv_ok by lra. rewrite rbind_ok.
    match goal with
    | |- context [py_min ?x 1] =>
      assert (Hr : 0 <= x) by (apply Qle_shift_div_l; lra);
        destruct (py_min_bounds x Hr) as [H0 H1]
    end.
    rewrite (signal_create_ok _ _ _ _ _ _ H0 H1). cbn [rbind]. eauto.
Qed.

(** X18.  What the engine shows the strategies: the market view built by
    [_build_market_data] has no fear-and-greed index, no opening price, no
    previous high or low and no volume history, so the fear-and-greed, the
    volatility-breakout and the volume-surge strategies, run by the
    engine, give no signal and never raise, whatever the tick and their
    parameters. *)
Theorem engine_view_gives_no_signal {fmt : Formatting} {fmt0 : Formatting0}
    (fear_greed : FearGreedStrategy.t)
    (breakout : VolatilityBreakoutStrategy.t) (surge : VolumeSurgeStrategy.t)
    (ticker : string) (tick : Tick.t) (self : ExecutionEngine.t) :
  let market_data := ExecutionEngine._build_market_data ticker tick self in
  Strategy.evaluate (FearGreedStrategy.as_strategy fear_greed)
    ticker market_data = Ok None
  /\ Strategy.evaluate (VolatilityBreakoutStrategy.as_strategy breakout)
       ticker market_data = Ok None
  /\ Strategy.evaluate (VolumeSurgeStrategy.as_strategy surge)
       ticker market_data = Ok None.
Proof.
  intros market_data. repeat split.
  - cbn. unfold VolatilityBreakoutStrategy.evaluate. cbn.
    now rewrite orb_true_r.
Qed.

(** ** The bounds of the evolver *)

Lemma bounds_ordered (key : string) (lo hi : Q) :
  StrategyEvolver.lookup_bounds key StrategyEvolver.bounds = Some (lo, hi) ->
  lo < hi.
Proof.
  unfold StrategyEvolver.bounds. cbn [StrategyEvolver.lookup_bounds].
  repeat (case_bool_decide; [intros [= <- <-]; reflexivity|]).
  discriminate.
Qed.

Lemma clamp_spec (lo hi value : Q) :
  lo < hi ->
  let r := py_max lo (py_min hi value) in
  lo <= r /\ r <= hi /\ (lo <= value -> value <= hi -> r == value)
  /\ py_max lo (py_min hi r) = r.
Proof.
  intros Hlh. unfold py_max, py_min. cbv zeta.
  destruct (Qltb value hi) eqn:E1.
  - apply Qltb_lt in E1. destruct (Qltb lo value) eqn:E2.
    + apply Qltb_lt in E2. rewrite (proj2 (Qltb_lt value hi) E1).
      rewrite (proj2 (Qltb_lt lo value) E2). repeat split; lra.
    + apply Qltb_ge in E2. rewrite (proj2 (Qltb_lt lo hi) Hlh).
      replace (Qltb lo lo) with false
        by (symmetry; apply Qltb_ge; lra).
      repeat split; lra.
  - apply Qltb_ge in E1. rewrite (proj2 (Qltb_lt lo hi) Hlh).
    replace (Qltb hi hi) with false by (symmetry; apply Qltb_ge; lra).
    rewrite (proj2 (Qltb_lt lo hi) Hlh). repeat split; lra.
Qed.

(** X19.  [_enforce_bounds] clamps: for a key of the table it returns a
    value between the two bounds of that key, the value itself when it
    already lies between them; for any other key it returns the value;
    and enforcing the bounds a second time changes nothing. *)
Theorem enforce_bounds_clamps (key : string) (value : Q) :
  let r := StrategyEvolver._enforce_bounds key value in
  match StrategyEvolver.lookup_bounds key StrategyEvolver.bounds with
  | Some (lo, hi) =>
    lo <= r /\ r <= hi /\ (lo <= value -> value <= hi -> r == value)
  | None => r = value
  end
  /\ StrategyEvolver._enforce_bounds key r = r.
Proof.
  unfold StrategyEvolver._enforce_bounds.
  destruct (StrategyEvolver.lookup_bounds key StrategyEvolver.bounds)
    as [[lo hi]|] eqn:E; [|auto].
  destruct (clamp_spec lo hi value (bounds_ordered _ _ _ E))
    as (H0 & H1 & H2 & H3).
  cbv zeta. auto.
Qed.

(** ** The leaderboard *)

Section RankFacts.
Context {A : Type} (return_pct : A -> option Q).

Lemma place_perm (s : A) (ranked : list A) :
  Leaderboard.place return_pct s ranked ≡ₚ s :: ranked.
Proof.
  induction ranked as [|r rest IH]; cbn [Leaderboard.place]; [reflexivity|].
  destruct (Qltb _ _); [|reflexivity].
  rewrite IH. apply Permutation_swap.
Qed.

Lemma place_sorted (s : A) (ranked : list A) :
  Sorted (Leaderboard.by_return return_pct) ranked ->
  Sorted (Leaderboard.by_return return_pct) (Leaderboard.place return_pct s ranked).
Proof.
  induction 1 as [|r rest Hrest IH Hhd]; cbn [Leaderboard.place].
  - repeat constructor.
  - destruct (Qltb _ _) eqn:E.
    + apply Qltb_lt in E. constructor; [exact IH|].
      destruct Hhd as [|r' rest' Hr']; cbn [Leaderboard.place].
      * constructor. unfold Leaderboard.by_return. lra.
      * destruct (Qltb _ _); constructor; [exact Hr'|].
        unfold Leaderboard.by_return. lra.
    + apply Qltb_ge in E. constructor; [now constructor|].
      constructor. exact E.
Qed.
Lemma place_head (s r : A) (rest : list A) :
  Leaderboard.by_return return_pct s r ->
  Leaderboard.place return_pct s (r :: rest) = s :: r :: rest.
Proof.
  intros H. cbn [Leaderboard.place].
  now rewrite (proj2 (Qltb_ge _ _) H).
Qed.
End RankFacts.

(** X20.  [rank] reorders and loses nothing: its result is a permutation
    of the entries given, in order of non-increasing [return_pct], an
    entry without [return_pct] counting as 0; and entries already in that
    order are returned as they are. *)
Theorem rank_sorts {A : Type} (return_pct : A -> option Q)
    (strategies : list A) :
  let before a b := default 0 (return_pct b) <= default 0 (return_pct a) in
  Leaderboard.rank return_pct strategies ≡ₚ strategies
  /\ Sorted before (Leaderboard.rank return_pct strategies)
  /\ (Sorted before strategies ->
      Leaderboard.rank return_pct strategies = strategies).
Proof.
  intros before. unfold Leaderboard.rank.
  induction strategies as [|s rest (IHp & IHs & IHid)]; cbn [foldr].
  - split; [reflexivity|]. split; [constructor | reflexivity].
  - split; [|split].
    + rewrite place_perm. now rewrite IHp.
    + now apply place_sorted.
    + intros Hsorted. apply Sorted_inv in Hsorted as [Hrest Hhd].
      rewrite (IHid Hrest).
      destruct Hhd as [|r rest' Hr]; [reflexivity|].
      now apply place_head.
Qed.

(** ** Further checks *)

(** X21.  [check_sell] and [execute_sell] agree: for a SELL signal the
    check refuses exactly when [execute_sell] on the ticker of the signal
    would sell nothing and leave the manager as it is; a signal that is
    not a SELL is refused. *)
Theorem check_sell_agrees_with_execute_sell (now : Z) (strategy_name : string)
    (price : Q) (reason : string) (signal : Signal.t)
    (self : PortfolioManager.t) :
  let check :=
    RiskManager.check_sell signal (PortfolioManager.portfolio self) in
  (Signal.signal_type signal <> SignalType.SELL ->
   RiskCheck.allowed check = false)
  /\ (Signal.signal_type signal = SignalType.SELL ->
      (RiskCheck.allowed check = false
       <-> PortfolioManager.execute_sell now strategy_name
             (Signal.ticker signal) price reason self
           = Returned None self)).
Proof.
  intros check. subst check. unfold RiskManager.check_sell. split.
  - intros Hty. now rewrite bool_decide_eq_false_2.
  - intros Hty. rewrite bool_decide_eq_true_2 by exact Hty. cbn [negb].
    destruct (execute_sell_outcome now strategy_name (Signal.ticker signal)
                price reason self)
      as [[Hnone ->] | (pos & Hpos & Hopen & Hout)]; cbv zeta in *.
    + destruct Hnone as [-> | (pos & -> & Hclosed)]; [easy|].
      rewrite (is_open_closed _ Hclosed). easy.
    + rewrite Hpos. rewrite (proj2 (is_open_true pos) Hopen). cbn [negb].
      split; [discriminate|].
      destruct Hout as [[_ ->] | [_ ->]]; discriminate.
Qed.

(** X22.  The signals of the dip-buy strategy: whatever its parameters
    and the market view, a signal it returns carries the ticker asked for
    and the name of the strategy, a strength between 0 and 1, and is a
    SELL only when a position is held at a positive entry price with a
    profit of at least [recovery_pct], a BUY only when no position is
    held. *)
Theorem dip_buy_signal_discipline {fmt : Formatting}
    (self : DipBuyStrategy.t) (ticker : string) (market_data : MarketData.t)
    (signal : Signal.t) :
  let current := default 0 (MarketData.current_price market_data) in
  let holding := default false (MarketData.has_position market_data) in
  let entry := default 0 (MarketData.entry_price market_data) in
  DipBuyStrategy.evaluate self ticker market_data = Ok (Some signal) ->
  Signal.ticker signal = ticker
  /\ Signal.strategy_name signal = DipBuyStrategy.name self
  /\ 0 <= Signal.strength signal /\ Signal.strength signal <= 1
  /\ match Signal.signal_type signal with
     | SignalType.SELL =>
       holding = true /\ 0 < entry
       /\ DipBuyStrategy.recovery_pct self <= (current / entry - 1) * 100
     | SignalType.BUY => holding = false
     end.
Proof.
  intros current holding entry. unfold DipBuyStrategy.evaluate.
  fold current holding entry.
  destruct (bool_decide _ || falsy current); [discriminate|].
  destruct (slice_from _ _) as [|start [|next rest]]; try discriminate.
  destruct (pdiv current start) as [ratio|e]; [|discriminate].
  rewrite rbind_ok.
  destruct (holding && Qltb 0 entry) eqn:Ehold.
  - apply andb_true_iff in Ehold as [Eh Ee]. apply Qltb_lt in Ee.
    destruct (Qle_bool (DipBuyStrategy.recovery_pct self) _) eqn:Eexit.
    + destruct (pdiv _ _) as [r|e]; [|discriminate]. rewrite rbind_ok.
      destruct (Signal.create _ _ _ _ _ _) as [s|e] eqn:Ecreate;
        [|discriminate].
      cbn [rbind]. intros [= <-].
      apply signal_create_inv in Ecreate as (-> & H0 & H1).
      apply Qle_bool_iff in Eexit. cbn. auto 10.
    + rewrite rbind_ok, Eh. cbn [negb andb]. discriminate.
  - rewrite rbind_ok.
    destruct (negb holding && Qle_bool _ _) eqn:Ebuy; [|discriminate].
    apply andb_true_iff in Ebuy as [Eh _]. apply negb_true_iff in Eh.
    destruct (pdiv _ _) as [r|e]; [|discriminate]. rewrite rbind_ok.
    destruct (Signal.create _ _ _ _ _ _) as [s|e] eqn:Ecreate; [|discriminate].
    cbn [rbind]. intros [= <-].
    apply signal_create_inv in Ecreate as (-> & H0 & H1). cbn. auto 10.
Qed.

Lemma dip_buy_signal_discipline_witness :
  exists signal,
    DipBuyStrategy.evaluate (fmt := Samples.plain_format) Samples.dip_buy
      "KRW-BTC" Samples.dip_view = Ok (Some signal)
    /\ Signal.ticker signal = "KRW-BTC"
    /\ Signal.signal_type signal = SignalType.BUY
    /\ Signal.strength signal <= 1.
Proof.
  eexists.
  match goal with
  | |- ?A /\ _ => assert (Hrun : A) by (vm_compute; reflexivity)
  end.
  split; [exact Hrun|].
  destruct (dip_buy_signal_discipline (fmt := Samples.plain_format)
              Samples.dip_buy "KRW-BTC" Samples.dip_view _ Hrun)
    as (Ht & _ & _ & H1 & _).
  split; [exact Ht|]. split; [reflexivity | exact H1].
Defined.

Lemma win_rate_bounds (p : Portfolio.t) :
  (0 <= Portfolio.winning_trades p <= Portfolio.total_trades p)%Z ->
  0 <= Portfolio.win_rate p /\ Portfolio.win_rate p <= 1.
Proof.
  intros [H0 H1]. unfold Portfolio.win_rate.
  destruct (Portfolio.total_trades p =? 0)%Z eqn:E; [split; lra|].
  apply Z.eqb_neq in E.
  assert (Ht : 0 < inject_Z (Portfolio.total_trades p)).
  { change 0 with (inject_Z 0). rewrite <- Zlt_Qlt. lia. }
  assert (Hw : 0 <= inject_Z (Portfolio.winning_trades p)).
  { change 0 with (inject_Z 0). now rewrite <- Zle_Qle. }
  assert (Hwt : inject_Z (Portfolio.winning_trades p)
                <= inject_Z (Portfolio.total_trades p)).
  { now rewrite <- Zle_Qle. }
  split.
  - apply Qle_shift_div_l; lra.
  - apply Qle_shift_div_r; lra.
Qed.

(** X23.  The summary of an engine is sound after any run: when the
    engine starts within its limit of OPEN positions and with winning
    trades between 0 and the total, then after any sequence of ticks
    [get_summary] reports at most [max_positions] open positions, a win
    rate between 0 and 1, and the counters of the portfolio. *)
Theorem summary_is_sound {fmt : Formatting} (ticks : list (Z * Tick.t))
    (self : ExecutionEngine.t) :
  let p := PortfolioManager.portfolio (ExecutionEngine.portfolio self) in
  let self' := state_of (Run.run_ticks ticks self) in
  let summary := ExecutionEngine.get_summary self' in
  (RiskManager.open_count p
   <= RiskConfig.max_positions (RiskManager.config (ExecutionEngine.risk self)))%Z ->
  (0 <= Portfolio.winning_trades p <= Portfolio.total_trades p)%Z ->
  (Z.of_nat (ExecutionEngine.open_positions summary)
   <= RiskConfig.max_positions (RiskManager.config (ExecutionEngine.risk self)))%Z
  /\ 0 <= ExecutionEngine.win_rate summary
  /\ ExecutionEngine.win_rate summary <= 1
  /\ (0 <= ExecutionEngine.winning_trades summary
      <= ExecutionEngine.total_trades summary)%Z.
Proof.
  intros p self' summary Hlimit Hcount.
  assert (H1 : Steps.within_limit self').
  { apply (run_ticks_state Steps.within_limit (fun _ => True)); auto.
    - intros n t s _. apply process_tick_within_limit.
    - apply Forall_forall. auto. }
  assert (H3 : Steps.counters_ok self').
  { apply (run_ticks_state Steps.counters_ok (fun _ => True)); auto.
    - intros n t s _. apply process_tick_counters_ok.
    - apply Forall_forall. auto. }
  assert (Hmax : RiskConfig.max_positions
                   (RiskManager.config (ExecutionEngine.risk self'))
                 = RiskConfig.max_positions
                     (RiskManager.config (ExecutionEngine.risk self))).
  { apply (run_ticks_state
             (fun s => RiskConfig.max_positions
                         (RiskManager.config (ExecutionEngine.risk s))
                       = RiskConfig.max_positions
                           (RiskManager.config (ExecutionEngine.risk self)))
             (fun _ => True)); auto.
    - intros n t s _ Hs.
      destruct (process_tick_took n t s) as (trs & _ & _ & _ & _ & Hr).
      now rewrite Hr.
    - apply Forall_forall. auto. }
  unfold Steps.within_limit in H1. rewrite Hmax in H1.
  destruct (win_rate_bounds _ H3) as [Hw0 Hw1].
  split; [exact H1|]. split; [exact Hw0|]. split; [exact Hw1 | exact H3].
Qed.

Lemma summary_is_sound_witness :
  let self := Samples.engine Samples.app_config Samples.empty_portfolio
                [DipBuyStrategy.as_strategy (fmt := Samples.plain_format)
                   Samples.dip_buy] in
  let summary :=
    ExecutionEngine.get_summary (fmt := Samples.plain_format)
      (state_of (Run.run_ticks (fmt := Samples.plain_format)
                   Samples.dip_then_crash self)) in
  (Z.of_nat (ExecutionEngine.open_positions summary) <= 3)%Z
  /\ 0 <= ExecutionEngine.win_rate summary
  /\ ExecutionEngine.win_rate summary <= 1
  /\ (0 <= ExecutionEngine.winning_trades summary
      <= ExecutionEngine.total_trades summary)%Z.
Proof.
  intros self.
  exact (summary_is_sound (fmt := Samples.plain_format)
           Samples.dip_then_crash self
           ltac:(vm_compute; discriminate)
           ltac:(vm_compute; split; discriminate)).
Defined.
